(** * go-openai: client functions over the hosted HTTP API

    A shallow embedding of the Go package [openai] (files.go, message.go,
    run.go, embeddings.go, vectorstore.go and three further source files)
    and of the parts of the Go standard library its functions go through.

    - Go strings and byte slices are finite byte sequences, modelled by
      [string], whose characters are the 8-bit [ascii].
    - The struct types of the package are descriptions in [gotype], their
      values are in [goval]: this is how [encoding/json], which works by
      reflection, sees them.  The decoder ([json.decode]) follows the
      library's rules for the kinds of type the package declares.
    - [strings], [strconv.ParseInt], [mime/multipart] (the writer),
      [crypto/sha1], [encoding/hex] and the canonical form of header keys
      are modelled in full.
    - What lies outside the program is an environment ([World]): the file
      system, the network, the random boundary, and the library functions
      whose results the package only hands on (marshalling, URL parsing,
      the JSON scanner, float parsing, the third-party embeddings client).
    - A client function is a computation in [IO]: it returns its Go results
      (value and [error]) and the log of the calls it made.  [defer
      resp.Body.Close()] and [context.Background()] leave no trace in it. *)

From Stdlib Require Import List String Ascii Bool ZArith Lia Arith DecimalString.
Import ListNotations.
Open Scope string_scope.
Open Scope Z_scope.

Set Implicit Arguments.
Set Warnings "-register-all".

(** ** Byte sequences *)

(** [[]byte]: the conversions [string(b)] and [[]byte(s)] copy the bytes. *)
Definition bytes := string.
Definition string_of_bytes (b : bytes) : string := b.
Definition bytes_of_string (s : string) : bytes := s.

Definition byte_of (c : ascii) : Z := Z.of_nat (nat_of_ascii c).
Definition ascii_of_Z (z : Z) : ascii := ascii_of_nat (Z.to_nat (z mod 256)).

Fixpoint Zlist_of_bytes (s : bytes) : list Z :=
  match s with
  | EmptyString => []
  | String c r => byte_of c :: Zlist_of_bytes r
  end.

Fixpoint bytes_of_Zlist (l : list Z) : bytes :=
  match l with
  | [] => EmptyString
  | z :: r => String (ascii_of_Z z) (bytes_of_Zlist r)
  end.

Definition len (s : string) : nat := String.length s.

(** The line feed that ends the messages printed by the package. *)
Definition LF : string := String (ascii_of_Z 10) EmptyString.

(** ** Package [strings] *)

Module strings.

(** [s[len(s)-len(suffix):] == suffix], guarded by the length test. *)
Definition HasSuffix (s suffix : string) : bool :=
  (len suffix <=? len s)%nat &&
  String.eqb (substring (len s - len suffix) (len suffix) s) suffix.

Definition TrimSuffix (s suffix : string) : string :=
  if HasSuffix s suffix then substring 0 (len s - len suffix) s else s.

Fixpoint IndexByte (s : string) (c : ascii) : bool :=
  match s with
  | EmptyString => false
  | String d r => Ascii.eqb c d || IndexByte r c
  end.

(** [ContainsAny s chars]: some byte of [chars] occurs in [s] (the
    character sets used by the callers are ASCII). *)
Fixpoint ContainsAny (s chars : string) : bool :=
  match s with
  | EmptyString => false
  | String c r => IndexByte chars c || ContainsAny r chars
  end.

End strings.

(** ** Go types and values, as package [reflect] sees them *)

(** The type expressions occurring in the package's declarations.  A struct
    field carries its Go name, its type and its [json:"..."] tag. *)
Inductive gotype : Type :=
| TString
| TBool
| TInt
| TInt64
| TFloat64
| TInterface                         (* interface{} *)
| TPtr (elem : gotype)               (* *T *)
| TSlice (elem : gotype)             (* []T *)
| TMap (elem : gotype)               (* map[string]T *)
| TStruct (fields : list (string * gotype * string)).

Definition field_decl := (string * gotype * string)%type.
Definition field (name : string) (t : gotype) (tag : string) : field_decl :=
  (name, t, tag).
Definition fd_name (f : field_decl) : string := fst (fst f).
Definition fd_type (f : field_decl) : gotype := snd (fst f).
Definition fd_tag (f : field_decl) : string := snd f.

(** A [float64] is kept as its 64-bit IEEE-754 pattern; the package never
    computes with one. *)
Definition float64 := Z.

Inductive goval : Type :=
| VString (s : string)
| VBool (b : bool)
| VInt (n : Z)
| VFloat (f : float64)
| VInterface (dynamic : option goval)
| VPtr (pointee : option goval)
| VSlice (elems : option (list goval))            (* None: the nil slice *)
| VMap (entries : option (list (string * goval))) (* None: the nil map *)
| VStruct (fields : list goval).

(** The zero value of a type. *)
Fixpoint zero (t : gotype) : goval :=
  match t with
  | TString => VString ""
  | TBool => VBool false
  | TInt | TInt64 => VInt 0
  | TFloat64 => VFloat 0
  | TInterface => VInterface None
  | TPtr _ => VPtr None
  | TSlice _ => VSlice None
  | TMap _ => VMap None
  | TStruct fs => VStruct (map (fun f => zero (snd (fst f))) fs)
  end.

(** Identity of types: structs are identical when they have the same
    sequence of fields, with the same names, identical types and the same
    tags. *)
Fixpoint type_identical (a b : gotype) {struct a} : bool :=
  match a, b with
  | TString, TString | TBool, TBool | TInt, TInt | TInt64, TInt64
  | TFloat64, TFloat64 | TInterface, TInterface => true
  | TPtr x, TPtr y | TSlice x, TSlice y | TMap x, TMap y => type_identical x y
  | TStruct fs, TStruct gs =>
      (fix fields_identical (fs : list (string * gotype * string))
           (gs : list field_decl) {struct fs} : bool :=
         match fs, gs with
         | [], [] => true
         | (n, t, tag) :: fs', (m, u, tag') :: gs' =>
             String.eqb n m && type_identical t u && String.eqb tag tag'
             && fields_identical fs' gs'
         | _, _ => false
         end) fs gs
  | _, _ => false
  end.

(** ** Package [strconv] *)

Module strconv.

Definition is_digit (c : ascii) : bool :=
  (48 <=? byte_of c) && (byte_of c <=? 57).

(** The base-10 digits of [s] folded into [acc]; [None] on a byte that is
    not a digit. *)
Fixpoint digits (s : string) (acc : Z) : option Z :=
  match s with
  | EmptyString => Some acc
  | String c r =>
      if is_digit c then digits r (10 * acc + (byte_of c - 48)) else None
  end.

(** [ParseInt(s, 10, 64)]: an optional sign, then at least one digit and
    nothing else; a value outside the int64 range is an error. *)
Definition ParseInt (s : string) : option Z :=
  match s with
  | EmptyString => None
  | String c r =>
      let neg := Ascii.eqb c "-" in
      let body := if neg || Ascii.eqb c "+" then r else s in
      match body with
      | EmptyString => None
      | _ =>
          match digits body 0 with
          | None => None
          | Some un =>
              let cutoff := 2 ^ 63 in
              if negb neg && (cutoff <=? un) then None
              else if neg && (cutoff <? un) then None
              else Some (if neg then - un else un)
          end
      end
  end.

(** [strconv.Itoa] *)
Definition Itoa (n : Z) : string := NilZero.string_of_int (Z.to_int n).

End strconv.

(** ** Package [encoding/json]: decoding *)

Module json.

(** A JSON text after scanning: numbers keep their literal, strings are
    unquoted, an object keeps its members in the order of the text. *)
Inductive value : Type :=
| Null
| Bool (b : bool)
| Number (literal : string)
| String_ (s : string)
| Array (elems : list value)
| Object (members : list (string * value)).

(** [UnmarshalTypeError]: the JSON value's description and the Go type it
    could not be stored in. *)
Record UnmarshalTypeError : Type :=
  { Value : string; Type_ : gotype }.

(** The decoder keeps only the first type error ([saveError]). *)
Definition saveError (saved new : option UnmarshalTypeError) :=
  match saved with
  | Some _ => saved
  | None => new
  end.

(** *** Field names *)

(** [foldName]: ASCII letters go to upper case.  Of the other runes only
    U+017F (long s, bytes C5 BF) and U+212A (Kelvin sign, bytes E2 84 AA)
    share a fold class with an ASCII letter; every other multi-byte rune
    folds to a multi-byte rune and its bytes are kept.  All field names of
    the package are ASCII, for which this agrees with the Unicode
    folding. *)
Fixpoint foldName (s : string) : string :=
  match s with
  | EmptyString => EmptyString
  | String c r =>
      let b := byte_of c in
      if (97 <=? b) && (b <=? 122) then
        String (ascii_of_Z (b - 32)) (foldName r)
      else
        match r with
        | String c1 r1 =>
            if (b =? 197) && (byte_of c1 =? 191) then
              String "S" (foldName r1)
            else
              match r1 with
              | String c2 r2 =>
                  if (b =? 226) && (byte_of c1 =? 132)
                     && (byte_of c2 =? 170)
                  then String "K" (foldName r2)
                  else String c (foldName r)
              | EmptyString => String c (foldName r)
              end
        | EmptyString => String c (foldName r)
        end
  end.

(** The name part of a [json:"name,opts"] tag. *)
Fixpoint tag_name (tag : string) : string :=
  match tag with
  | EmptyString => EmptyString
  | String c r => if Ascii.eqb c "," then EmptyString else String c (tag_name r)
  end.

(** The key under which a field is read and written; [None] for a field
    tagged ["-"]. *)
Definition field_key (f : field_decl) : option string :=
  if String.eqb (fd_tag f) "-" then None
  else
    let n := tag_name (fd_tag f) in
    Some (if String.eqb n "" then fd_name f else n).

Fixpoint index_where (p : field_decl -> bool) (fs : list field_decl)
         (i : nat) : option (nat * gotype) :=
  match fs with
  | [] => None
  | f :: r => if p f then Some (i, fd_type f) else index_where p r (S i)
  end.

Definition key_is (key : string) (f : field_decl) : bool :=
  match field_key f with
  | Some k => String.eqb k key
  | None => false
  end.

Definition key_folds_to (key : string) (f : field_decl) : bool :=
  match field_key f with
  | Some k => String.eqb (foldName k) (foldName key)
  | None => false
  end.

(** The field a member key selects: the exact name first, else the
    case-folded one. *)
Definition find_field (fs : list field_decl) (key : string)
  : option (nat * gotype) :=
  match index_where (key_is key) fs 0 with
  | Some r => Some r
  | None => index_where (key_folds_to key) fs 0
  end.

(** *** Pointers *)

(** [indirect]: the decoder walks down through pointers, allocating a
    zero pointee where the pointer is nil. *)
Fixpoint base_type (t : gotype) : gotype :=
  match t with
  | TPtr e => base_type e
  | _ => t
  end.

Fixpoint load (t : gotype) (v : goval) : goval :=
  match t with
  | TPtr e =>
      match v with
      | VPtr (Some p) => load e p
      | _ => load e (zero e)
      end
  | _ => v
  end.

Fixpoint store (t : gotype) (v : goval) : goval :=
  match t with
  | TPtr e => VPtr (Some (store e v))
  | _ => v
  end.

(** *** Maps *)

Fixpoint SetMapIndex (m : list (string * goval)) (k : string) (v : goval)
  : list (string * goval) :=
  match m with
  | [] => [(k, v)]
  | (k', v') :: r =>
      if String.eqb k k' then (k, v) :: r else (k', v') :: SetMapIndex r k v
  end.

Fixpoint MapIndex (m : list (string * goval)) (k : string) : option goval :=
  match m with
  | [] => None
  | (k', v') :: r => if String.eqb k k' then Some v' else MapIndex r k
  end.

Fixpoint set_nth (l : list goval) (i : nat) (v : goval) : list goval :=
  match l, i with
  | [], _ => []
  | _ :: r, O => v :: r
  | x :: r, S i' => x :: set_nth r i' v
  end.

(** *** The decoder *)

Section Decoder.

(** [strconv.ParseFloat(s, 64)] on a number literal: [None] when the
    literal is out of range. *)
Variable ParseFloat : string -> option float64.

Definition typeError (desc : string) (t : gotype)
  : option UnmarshalTypeError :=
  Some {| Value := desc; Type_ := t |}.

(** [valueInterface]: the value stored in an empty interface, [None]
    for nil: bool, float64, string, [[]interface{}] or
    [map[string]interface{}]. *)
Fixpoint valueInterface (j : value)
  : option goval * option UnmarshalTypeError :=
  match j with
  | Null => (None, None)
  | Bool b => (Some (VBool b), None)
  | Number lit =>
      match ParseFloat lit with
      | Some f => (Some (VFloat f), None)
      | None => (None, typeError ("number " ++ lit) TFloat64)
      end
  | String_ s => (Some (VString s), None)
  | Array es =>
      let '(vs, err) :=
        (fix arrayInterface (es : list value) :=
           match es with
           | [] => ([], None)
           | e :: r =>
               let '(x, e1) := valueInterface e in
               let '(xs, e2) := arrayInterface r in
               (VInterface x :: xs, saveError e1 e2)
           end) es in
      (Some (VSlice (Some vs)), err)
  | Object ms =>
      let '(m, err) :=
        (fix objectInterface (ms : list (string * value))
             (m : list (string * goval))
             (err : option UnmarshalTypeError) :=
           match ms with
           | [] => (m, err)
           | (k, j') :: r =>
               let '(x, e1) := valueInterface j' in
               objectInterface r (SetMapIndex m k (VInterface x))
                               (saveError err e1)
           end) ms [] None in
      (Some (VMap (Some m)), err)
  end.

(** [d.value(v)]: store the JSON value [j] in the variable of type [t]
    that currently holds [v].  The result is the variable's new content
    and the type error saved on the way, if any.  A type error leaves
    the variable as it was (after the pointers on the way to it have
    been allocated) and decoding goes on.

    - null sets an interface, pointer, map or slice to its zero value
      and leaves anything else alone;
    - an array stored in a slice decodes element [i] into the slice's
      element [i] when there is one and into a zero element otherwise,
      and the slice ends up with the array's length;
    - an object stored in a map decodes each member into a fresh
      element and sets it under the member's key; stored in a struct it
      decodes the members, in order, into the fields their keys select,
      and skips the others. *)
Fixpoint decode (j : value) (t : gotype) (v : goval) {struct j}
  : goval * option UnmarshalTypeError :=
  let bt := base_type t in
  let cur := load t v in
  match j with
  | Null =>
      match t with
      | TInterface | TPtr _ | TMap _ | TSlice _ => (zero t, None)
      | _ => (v, None)
      end
  | Bool b =>
      match bt with
      | TBool => (store t (VBool b), None)
      | TInterface => (store t (VInterface (Some (VBool b))), None)
      | _ => (store t cur, typeError "bool" bt)
      end
  | String_ s =>
      match bt with
      | TString => (store t (VString s), None)
      | TInterface => (store t (VInterface (Some (VString s))), None)
      | _ => (store t cur, typeError "string" bt)
      end
  | Number lit =>
      match bt with
      | TInt | TInt64 =>
          match strconv.ParseInt lit with
          | Some n => (store t (VInt n), None)
          | None => (store t cur, typeError ("number " ++ lit) bt)
          end
      | TFloat64 =>
          match ParseFloat lit with
          | Some f => (store t (VFloat f), None)
          | None => (store t cur, typeError ("number " ++ lit) bt)
          end
      | TInterface =>
          match ParseFloat lit with
          | Some f => (store t (VInterface (Some (VFloat f))), None)
          | None => (store t cur, typeError ("number " ++ lit) TFloat64)
          end
      | _ => (store t cur, typeError "number" bt)
      end
  | Array es =>
      match bt with
      | TInterface =>
          let '(x, err) := valueInterface j in
          (store t (VInterface x), err)
      | TSlice et =>
          let old := match cur with VSlice (Some l) => l | _ => [] end in
          let '(vs, err) :=
            (fix array (es : list value) (old : list goval) {struct es} :=
               match es with
               | [] => ([], None)
               | e :: r =>
                   let '(x, e1) := decode e et (hd (zero et) old) in
                   let '(xs, e2) := array r (tl old) in
                   (x :: xs, saveError e1 e2)
               end) es old in
          (store t (VSlice (Some vs)), err)
      | _ => (store t cur, typeError "array" bt)
      end
  | Object ms =>
      match bt with
      | TInterface =>
          let '(x, err) := valueInterface j in
          (store t (VInterface x), err)
      | TMap et =>
          let m0 := match cur with VMap (Some m) => m | _ => [] end in
          let '(m, err) :=
            (fix object (ms : list (string * value))
                 (m : list (string * goval))
                 (err : option UnmarshalTypeError) {struct ms} :=
               match ms with
               | [] => (m, err)
               | (k, j') :: r =>
                   let '(x, e1) := decode j' et (zero et) in
                   object r (SetMapIndex m k x) (saveError err e1)
               end) ms m0 None in
          (store t (VMap (Some m)), err)
      | TStruct fs =>
          let fv0 := match cur with VStruct l => l | _ => [] end in
          let '(fv, err) :=
            (fix object (ms : list (string * value)) (fv : list goval)
                 (err : option UnmarshalTypeError) {struct ms} :=
               match ms with
               | [] => (fv, err)
               | (k, j') :: r =>
                   match find_field fs k with
                   | Some (i, ft) =>
                       let '(x, e1) := decode j' ft (nth i fv (zero ft)) in
                       object r (set_nth fv i x) (saveError err e1)
                   | None => object r fv err
                   end
               end) ms fv0 None in
          (store t (VStruct fv), err)
      | _ => (store t cur, typeError "object" bt)
      end
  end.

(** The two loops of [decode] that the package's list and message
    results go through, by name: an array into a slice, and the
    members of an object into the fields of a struct. *)
Section Loops.

Variable et : gotype.
Variable fs : list field_decl.

Fixpoint array_into_slice (es : list value) (old : list goval)
         {struct es} : list goval * option UnmarshalTypeError :=
  match es with
  | [] => ([], None)
  | e :: r =>
      let '(x, e1) := decode e et (hd (zero et) old) in
      let '(xs, e2) := array_into_slice r (tl old) in
      (x :: xs, saveError e1 e2)
  end.

Fixpoint object_into_struct (ms : list (string * value))
         (fv : list goval) (err : option UnmarshalTypeError)
         {struct ms} : list goval * option UnmarshalTypeError :=
  match ms with
  | [] => (fv, err)
  | (k, j') :: r =>
      match find_field fs k with
      | Some (i, ft) =>
          let '(x, e1) := decode j' ft (nth i fv (zero ft)) in
          object_into_struct r (set_nth fv i x) (saveError err e1)
      | None => object_into_struct r fv err
      end
  end.

End Loops.

(** [Unmarshal] into a fresh variable of type [t]. *)
Definition Unmarshal (j : value) (t : gotype)
  : goval * option UnmarshalTypeError :=
  decode j t (zero t).

End Decoder.

End json.

(** [v.FieldByName(name)] on a struct value of type [t]. *)
Fixpoint field_index (fs : list field_decl) (name : string) : option nat :=
  match fs with
  | [] => None
  | f :: r =>
      if String.eqb (fd_name f) name then Some O
      else option_map S (field_index r name)
  end.

Definition FieldByName (t : gotype) (v : goval) (name : string) : goval :=
  match t, v with
  | TStruct fs, VStruct vs =>
      match field_index fs name with
      | Some i => nth i vs (VInterface None)
      | None => VInterface None
      end
  | _, _ => VInterface None
  end.

Definition string_of (v : goval) : string :=
  match v with
  | VString s => s
  | _ => ""
  end.

(** ** Errors and package [fmt] *)

(** Go's [error] values.  [fmt.Errorf] keeps its format and its operands;
    a nil [error] is [None] of [option error]. *)
Inductive error : Type :=
| LibraryError (msg : string)           (* an error of a library or of the OS *)
| SyntaxError                           (* encoding/json: malformed text, EOF *)
| TypeError (e : json.UnmarshalTypeError)
| UnsupportedFileTypeError (FileName : string)
| Errorf (format : string) (args : list arg)
with arg : Type :=
| S_ (s : string)                       (* a string operand *)
| D_ (n : Z)                            (* an int operand *)
| E_ (e : error).                       (* an error operand, for %w *)

Inductive result (A : Type) : Type :=
| OK (a : A)
| Fail (e : error).
Arguments Fail {A} e.

Definition is_fail {A} (r : result A) : bool :=
  match r with
  | OK _ => false
  | Fail _ => true
  end.

Module fmt.

Definition operand (a : arg) : string :=
  match a with
  | S_ s => s
  | D_ n => strconv.Itoa n
  | E_ _ => ""
  end.

(** [fmt.Sprintf] for the verbs the package uses with matching operands:
    [%s] with a string and [%d] with an int. *)
Fixpoint Sprintf (format : string) (args : list arg) : string :=
  match format with
  | EmptyString => EmptyString
  | String "%" (String c r) =>
      if Ascii.eqb c "s" || Ascii.eqb c "d" then
        match args with
        | a :: args' => operand a ++ Sprintf r args'
        | [] => "%!" ++ String c "(MISSING)" ++ Sprintf r []
        end
      else String "%" (String c (Sprintf r args))
  | String c r => String c (Sprintf r args)
  end.

End fmt.

(** ** Package [net/http] and [net/url]: requests and responses *)

Module url.

(** A parsed URL: the text before the query, and the query. *)
Record URL : Type := { address : string; RawQuery : string }.

(** [url.Values]: for each key the values added, in order. *)
Definition Values := list (string * list string).

Fixpoint Add (v : Values) (key value : string) : Values :=
  match v with
  | [] => [(key, [value])]
  | (k, vs) :: r =>
      if String.eqb k key then (k, (vs ++ [value])%list) :: r
      else (k, vs) :: Add r key value
  end.

End url.

Module http.

Definition StatusOK : Z := 200.
Definition StatusCreated : Z := 201.

(** The bytes [a-zA-Z0-9] and [!#$%&'*+-.^_`|~] of a header field name. *)
Definition validHeaderFieldByte (c : ascii) : bool :=
  let b := byte_of c in
  ((97 <=? b) && (b <=? 122)) || ((65 <=? b) && (b <=? 90))
  || ((48 <=? b) && (b <=? 57))
  || strings.IndexByte "!#$%&'*+-.^_`|~" c.

Fixpoint all_valid (s : string) : bool :=
  match s with
  | EmptyString => true
  | String c r => validHeaderFieldByte c && all_valid r
  end.

Definition upper (c : ascii) : ascii :=
  let b := byte_of c in
  if (97 <=? b) && (b <=? 122) then ascii_of_Z (b - 32) else c.

Definition lower (c : ascii) : ascii :=
  let b := byte_of c in
  if (65 <=? b) && (b <=? 90) then ascii_of_Z (b + 32) else c.

Fixpoint canonical (s : string) (up : bool) : string :=
  match s with
  | EmptyString => EmptyString
  | String c r =>
      String (if up then upper c else lower c)
             (canonical r (Ascii.eqb c "-"))
  end.

(** [textproto.CanonicalMIMEHeaderKey]: the first letter and every letter
    after a hyphen in upper case, the others in lower case; a key with a
    byte that is not valid in a field name is returned as it is. *)
Definition CanonicalHeaderKey (s : string) : string :=
  if all_valid s then canonical s true else s.

Definition Header := list (string * list string).

Fixpoint set_key (h : Header) (key value : string) : Header :=
  match h with
  | [] => [(key, [value])]
  | (k, vs) :: r =>
      if String.eqb k key then (k, [value]) :: r
      else (k, vs) :: set_key r key value
  end.

Record Request : Type :=
  { Method : string;
    URL : url.URL;
    Header_ : Header;
    Body : option bytes }.

(** A response as the client functions see it: the status code, the
    status line text and the bytes its body yields when read to the
    end. *)
Record Response : Type :=
  { StatusCode : Z;
    Status : string;
    RespBody : bytes }.

(** [req.Header.Set(key, value)] *)
Definition Header_Set (req : Request) (key value : string) : Request :=
  {| Method := Method req;
     URL := URL req;
     Header_ := set_key (Header_ req) (CanonicalHeaderKey key) value;
     Body := Body req |}.

(** [req.URL.RawQuery = q] *)
Definition set_RawQuery (req : Request) (q : string) : Request :=
  {| Method := Method req;
     URL := {| url.address := url.address (URL req); url.RawQuery := q |};
     Header_ := Header_ req;
     Body := Body req |}.

End http.

(** ** Package [crypto/sha1] and [encoding/hex] *)

Module sha1.

Definition add32 (a b : Z) : Z := (a + b) mod 2 ^ 32.

(** [bits.RotateLeft32] *)
Definition rotl (n x : Z) : Z :=
  Z.lor (Z.shiftl x n mod 2 ^ 32) (Z.shiftr x (32 - n)).

(** [^x] on a uint32 *)
Definition not32 (x : Z) : Z := Z.lxor x 4294967295.

Definition init0 : Z := 1732584193.   (* 0x67452301 *)
Definition init1 : Z := 4023233417.   (* 0xEFCDAB89 *)
Definition init2 : Z := 2562383102.   (* 0x98BADCFE *)
Definition init3 : Z := 271733878.    (* 0x10325476 *)
Definition init4 : Z := 3285377520.   (* 0xC3D2E1F0 *)

Definition _K0 : Z := 1518500249.     (* 0x5A827999 *)
Definition _K1 : Z := 1859775393.     (* 0x6ED9EBA1 *)
Definition _K2 : Z := 2400959708.     (* 0x8F1BBCDC *)
Definition _K3 : Z := 3395469782.     (* 0xCA62C1D6 *)

Definition digest := (Z * Z * Z * Z * Z)%type.

(** The big-endian bytes of a [w]-byte unsigned integer. *)
Fixpoint be_bytes (w : nat) (x : Z) : list Z :=
  match w with
  | O => []
  | S w' => (Z.shiftr x (8 * Z.of_nat w') mod 256) :: be_bytes w' x
  end.

(** The padding of [checkSum]: 0x80, zeros up to 56 modulo 64, then the
    length in bits as a 64-bit big-endian integer. *)
Definition pad (msg : list Z) : list Z :=
  let l := Z.of_nat (List.length msg) in
  (msg ++ [128] ++ repeat 0 (Z.to_nat ((55 - l) mod 64))
       ++ be_bytes 8 ((8 * l) mod 2 ^ 64))%list.

(** The big-endian 32-bit words of a byte sequence. *)
Fixpoint words (n : nat) (p : list Z) : list Z :=
  match n with
  | O => []
  | S n' =>
      match p with
      | b0 :: b1 :: b2 :: b3 :: r =>
          Z.lor (Z.lor (Z.shiftl b0 24) (Z.shiftl b1 16))
                (Z.lor (Z.shiftl b2 8) b3) :: words n' r
      | _ => []
      end
  end.

(** The message schedule: [w[i] = rotl1 (w[i-3] ^ w[i-8] ^ w[i-14] ^
    w[i-16])] for [16 <= i < 80]. *)
Fixpoint schedule (n : nat) (w : list Z) : list Z :=
  match n with
  | O => w
  | S n' =>
      let i := List.length w in
      let x := Z.lxor (Z.lxor (nth (i - 3) w 0) (nth (i - 8) w 0))
                      (Z.lxor (nth (i - 14) w 0) (nth (i - 16) w 0)) in
      schedule n' (w ++ [rotl 1 x])%list
  end.

Definition round (st : digest) (iw : nat * Z) : digest :=
  let '(a, b, c, d, e) := st in
  let '(i, w) := iw in
  let '(f, k) :=
    if (i <? 20)%nat then (Z.lor (Z.land b c) (Z.land (not32 b) d), _K0)
    else if (i <? 40)%nat then (Z.lxor (Z.lxor b c) d, _K1)
    else if (i <? 60)%nat then
      (Z.lor (Z.land (Z.lor b c) d) (Z.land b c), _K2)
    else (Z.lxor (Z.lxor b c) d, _K3) in
  let t := add32 (add32 (add32 (add32 (rotl 5 a) f) e) w) k in
  (t, a, rotl 30 b, c, d).

(** [block]: one 64-byte chunk folded into the digest. *)
Definition block (h : digest) (chunk : list Z) : digest :=
  let w := schedule 64 (words 16 chunk) in
  let '(a, b, c, d, e) := fold_left round (combine (seq 0 80) w) h in
  let '(h0, h1, h2, h3, h4) := h in
  (add32 h0 a, add32 h1 b, add32 h2 c, add32 h3 d, add32 h4 e).

Fixpoint blocks (n : nat) (h : digest) (p : list Z) : digest :=
  match n with
  | O => h
  | S n' => blocks n' (block h (firstn 64 p)) (skipn 64 p)
  end.

(** [h := sha1.New(); h.Write(data); h.Sum(nil)]: the 20 bytes of the
    digest. *)
Definition Sum (data : bytes) : bytes :=
  let p := pad (Zlist_of_bytes data) in
  let '(h0, h1, h2, h3, h4) :=
    blocks (List.length p / 64) (init0, init1, init2, init3, init4) p in
  bytes_of_Zlist
    (be_bytes 4 h0 ++ be_bytes 4 h1 ++ be_bytes 4 h2 ++ be_bytes 4 h3
              ++ be_bytes 4 h4)%list.

End sha1.

Module hex.

Definition hextable : string := "0123456789abcdef".

Definition digit (n : Z) : ascii :=
  match get (Z.to_nat n) hextable with
  | Some c => c
  | None => "0"%char
  end.

(** [hex.EncodeToString]: two lower-case digits for each byte. *)
Fixpoint EncodeToString (src : bytes) : string :=
  match src with
  | EmptyString => EmptyString
  | String c r =>
      String (digit (Z.shiftr (byte_of c) 4))
             (String (digit (Z.land (byte_of c) 15)) (EncodeToString r))
  end.

End hex.

(** ** Package [mime/multipart]: the writer *)

Module multipart.

(** A [Writer] over a [bytes.Buffer]: the buffer's content, the boundary
    and the number of the part that is open, if any. *)
Record Writer : Type :=
  { w : bytes;
    boundary : string;
    lastpart : option nat;
    parts : nat }.

(** A part's writer, as handed out by [CreatePart]. *)
Definition part := nat.

Definition NewWriter (randomBoundary : string) : Writer :=
  {| w := ""; boundary := randomBoundary; lastpart := None; parts := O |}.

Definition backslash : ascii := ascii_of_Z 92.
Definition dquote : string := String (ascii_of_Z 34) EmptyString.

(** [quoteEscaper]: a backslash (byte 92) before each backslash and each
    double quote (byte 34). *)
Fixpoint escapeQuotes (s : string) : string :=
  match s with
  | EmptyString => EmptyString
  | String c r =>
      if (byte_of c =? 92) || (byte_of c =? 34)
      then String backslash (String c (escapeQuotes r))
      else String c (escapeQuotes r)
  end.

Definition CRLF : string := String (ascii_of_Z 13) (String (ascii_of_Z 10) "").

Fixpoint header_lines (header : list (string * string)) : string :=
  match header with
  | [] => ""
  | (k, v) :: r => k ++ ": " ++ v ++ CRLF ++ header_lines r
  end.

(** [CreatePart]: closes the open part, writes the delimiter line (after
    a line break unless it is the first), the header lines in the order
    of their keys, and an empty line.  [header] is given sorted by key.
    Writing to a [bytes.Buffer] does not fail. *)
Definition CreatePart (mw : Writer) (header : list (string * string))
  : Writer * result part :=
  let delimiter :=
    match lastpart mw with
    | Some _ => CRLF ++ "--" ++ boundary mw ++ CRLF
    | None => "--" ++ boundary mw ++ CRLF
    end in
  ({| w := w mw ++ delimiter ++ header_lines header ++ CRLF;
      boundary := boundary mw;
      lastpart := Some (parts mw);
      parts := S (parts mw) |},
   OK (parts mw)).

Definition CreateFormField (mw : Writer) (fieldname : string)
  : Writer * result part :=
  CreatePart mw
    [("Content-Disposition",
      "form-data; name=" ++ dquote ++ escapeQuotes fieldname ++ dquote)].

Definition CreateFormFile (mw : Writer) (fieldname filename : string)
  : Writer * result part :=
  CreatePart mw
    [("Content-Disposition",
      "form-data; name=" ++ dquote ++ escapeQuotes fieldname ++ dquote
        ++ "; filename=" ++ dquote ++ escapeQuotes filename ++ dquote);
     ("Content-Type", "application/octet-stream")].

(** [p.Write(d)]: refused once the part is finished. *)
Definition Write (mw : Writer) (p : part) (d : bytes)
  : Writer * result nat :=
  match lastpart mw with
  | Some q =>
      if Nat.eqb p q then
        ({| w := w mw ++ d; boundary := boundary mw;
            lastpart := lastpart mw; parts := parts mw |},
         OK (len d))
      else (mw, Fail (LibraryError "multipart: can't write to finished part"))
  | None => (mw, Fail (LibraryError "multipart: can't write to finished part"))
  end.

(** [Close]: finishes the open part and writes the closing delimiter. *)
Definition Close (mw : Writer) : Writer * option error :=
  ({| w := w mw ++ CRLF ++ "--" ++ boundary mw ++ "--" ++ CRLF;
      boundary := boundary mw;
      lastpart := None;
      parts := parts mw |},
   None).

(** [FormDataContentType]: the boundary is quoted when it contains one
    of the special characters of RFC 2045 or a space. *)
Definition FormDataContentType (mw : Writer) : string :=
  let b := boundary mw in
  let tspecials := "()<>@,;:" ++ String backslash dquote ++ "/[]?= " in
  let b := if strings.ContainsAny b tspecials
           then dquote ++ b ++ dquote else b in
  "multipart/form-data; boundary=" ++ b.

End multipart.

(** ** The third-party client [github.com/sashabaranov/go-openai] *)

Module openai.

Definition AdaEmbeddingV2 : string := "text-embedding-ada-002".

Record EmbeddingRequest : Type :=
  { Input : list string;
    Model : string }.

(** One entry of [EmbeddingResponse.Data]: [Embedding] is a [[]float32],
    kept as the bit patterns of its elements. *)
Record Embedding : Type :=
  { Embedding_ : list Z }.

Record EmbeddingResponse : Type :=
  { Data : list Embedding }.

End openai.

(** ** The environment of a call *)

(** What a client function finds outside the package: the package variable
    [openaiAPIKey] (declared outside the files at hand), the file system,
    the source of randomness, the network, and the library functions whose
    results the package only passes on.  Every property below holds for
    every such environment. *)
Class World : Type :=
  { openaiAPIKey : string;
    (** [os.ReadFile(name)] *)
    os_ReadFile : string -> result bytes;
    (** [os.Open(name)], and what reading the opened file to its end gives *)
    os_Open : string -> result (result bytes);
    (** [multipart.randomBoundary()] *)
    randomBoundary : string;
    (** [json.Marshal(v)] for a value of the given type *)
    json_Marshal : gotype -> goval -> result bytes;
    (** [url.Parse], as called by [http.NewRequest] *)
    url_Parse : string -> result url.URL;
    (** [u.Query()] and [v.Encode()] *)
    url_ParseQuery : string -> url.Values;
    url_Encode : url.Values -> string;
    (** [client.Do(req)]: the response of the service, or a transport error *)
    client_Do : http.Request -> result http.Response;
    (** the scanner of [json.Decoder]: the first JSON value of a stream *)
    json_scan : bytes -> option json.value;
    (** the scanner of [json.Unmarshal]: a text that is one JSON value *)
    json_scan_all : bytes -> option json.value;
    (** [strconv.ParseFloat(s, 64)] *)
    strconv_ParseFloat : string -> option float64;
    (** [client.CreateEmbeddings(ctx, req)] of the third-party client *)
    openai_CreateEmbeddings :
      openai.EmbeddingRequest -> result openai.EmbeddingResponse }.

(** ** Calls to the outside, and the log of a run *)

Inductive libcall : Type :=
| call_ReadFile (name : string)
| call_Open (name : string)
| call_Copy
| call_CreateFormField (fieldname : string)
| call_CreateFormFile (fieldname filename : string)
| call_Write (d : bytes)
| call_Close
| call_Marshal
| call_NewRequest (method url : string)
| call_Header_Set (key value : string)
| call_Do (req : http.Request)
| call_ReadAll
| call_Unmarshal
| call_Decode
| call_Printf (text : string)
| call_CreateEmbeddings (req : openai.EmbeddingRequest).

(** A logged call and whether it returned an error. *)
Record event : Type := { call : libcall; failed : bool }.

(** A computation: its value and the calls it made, in order. *)
Definition IO (A : Type) : Type := (A * list event)%type.

Definition ret {A} (a : A) : IO A := (a, []).

Definition bind {A B} (m : IO A) (k : A -> IO B) : IO B :=
  let (a, t) := m in
  let (b, t') := k a in
  (b, (t ++ t')%list).

Notation "x <- m ;; k" := (bind m (fun x => k))
  (at level 61, m at next level, right associativity).
Notation "' pat <- m ;; k" :=
  (bind m (fun x => match x with pat => k end))
  (at level 61, pat pattern, m at next level, right associativity).

(** A call with result [a], logged together with whether it failed. *)
Definition logged_with {A} (c : libcall) (fails : A -> bool) (a : A) : IO A :=
  (a, [{| call := c; failed := fails a |}]).

Definition logged {A} (c : libcall) (r : result A) : IO (result A) :=
  logged_with c is_fail r.

Definition logged_ok {A} (c : libcall) (a : A) : IO A :=
  logged_with c (fun _ => false) a.

Section Calls.

Context {W : World}.

Definition ReadFile (name : string) : IO (result bytes) :=
  logged (call_ReadFile name) (os_ReadFile name).

(** [os.Open]: the handle stands for what reading it will give. *)
Definition Open (name : string) : IO (result (result bytes)) :=
  logged (call_Open name) (os_Open name).

Definition CreateFormField (mw : multipart.Writer) (fieldname : string)
  : IO (multipart.Writer * result multipart.part) :=
  logged_with (call_CreateFormField fieldname) (fun r => is_fail (snd r))
              (multipart.CreateFormField mw fieldname).

Definition CreateFormFile (mw : multipart.Writer)
           (fieldname filename : string)
  : IO (multipart.Writer * result multipart.part) :=
  logged_with (call_CreateFormFile fieldname filename)
              (fun r => is_fail (snd r))
              (multipart.CreateFormFile mw fieldname filename).

Definition Write (mw : multipart.Writer) (p : multipart.part) (d : bytes)
  : IO (multipart.Writer * result nat) :=
  logged_with (call_Write d) (fun r => is_fail (snd r))
              (multipart.Write mw p d).

(** [io.Copy(dst, src)]: reads the file to its end and writes what it
    read to the part; a read error is returned. *)
Definition Copy (mw : multipart.Writer) (p : multipart.part)
           (src : result bytes)
  : IO (multipart.Writer * result nat) :=
  logged_with call_Copy (fun r => is_fail (snd r))
              match src with
              | OK d => multipart.Write mw p d
              | Fail e => (mw, Fail e)
              end.

Definition Close (mw : multipart.Writer) : IO multipart.Writer :=
  logged_ok call_Close (fst (multipart.Close mw)).

Definition Marshal (t : gotype) (v : goval) : IO (result bytes) :=
  logged call_Marshal (json_Marshal t v).

(** [http.NewRequest]: the methods the package passes are valid, so the
    only error is that of parsing the URL. *)
Definition NewRequest (method u : string) (body : option bytes)
  : IO (result http.Request) :=
  logged (call_NewRequest method u)
    match url_Parse u with
    | OK pu => OK {| http.Method := method; http.URL := pu;
                     http.Header_ := []; http.Body := body |}
    | Fail e => Fail e
    end.

Definition Header_Set (req : http.Request) (key value : string)
  : IO http.Request :=
  logged_ok (call_Header_Set key value) (http.Header_Set req key value).

Definition Do (req : http.Request) : IO (result http.Response) :=
  logged (call_Do req) (client_Do req).

(** [io.ReadAll(resp.Body)]; its error is dropped by every caller. *)
Definition ReadAll (resp : http.Response) : IO bytes :=
  logged_ok call_ReadAll (http.RespBody resp).

(** [json.NewDecoder(resp.Body).Decode(&v)] for [v] a zero variable of
    type [t]: the variable's content afterwards, or the error (the
    callers drop the variable when there is one). *)
Definition Decode (resp : http.Response) (t : gotype)
  : IO (result goval) :=
  logged call_Decode
    match json_scan (http.RespBody resp) with
    | None => Fail SyntaxError
    | Some j =>
        match json.Unmarshal strconv_ParseFloat j t with
        | (v, None) => OK v
        | (_, Some e) => Fail (TypeError e)
        end
    end.

(** [json.Unmarshal(data, &v)] *)
Definition Unmarshal (data : bytes) (t : gotype)
  : IO (result goval) :=
  logged call_Unmarshal
    match json_scan_all data with
    | None => Fail SyntaxError
    | Some j =>
        match json.Unmarshal strconv_ParseFloat j t with
        | (v, None) => OK v
        | (_, Some e) => Fail (TypeError e)
        end
    end.

Definition Printf (format : string) (args : list arg) : IO unit :=
  logged_ok (call_Printf (fmt.Sprintf format args)) tt.

Definition CreateEmbeddings (req : openai.EmbeddingRequest)
  : IO (result openai.EmbeddingResponse) :=
  logged (call_CreateEmbeddings req) (openai_CreateEmbeddings req).

End Calls.

(** The Go idiom [x, err := f(...); if err != nil { return h }]. *)
Notation "'try' x <- m 'catch' err => h ;; k" :=
  (bind m (fun r => match r with
                    | OK x => k
                    | Fail err => ret h
                    end))
  (at level 61, x pattern, err name, m at next level, h at next level,
   right associativity).

Definition nil_slice : goval := VSlice None.
Definition nil_ptr : goval := VPtr None.
(** [&v] *)
Definition addr (v : goval) : goval := VPtr (Some v).

(** * The package *)

(** ** files.go *)

Module files.

(** File holds response data for a file upload *)
Definition File : gotype :=
  TStruct [ field "ID" TString "id";
            field "CreatedAt" TInt64 "created_at";
            field "Bytes" TInt64 "bytes";
            field "FileName" TString "filename";
            field "Purpose" TString "purpose" ].

Section Functions.

Context {W : World}.

Definition UploadContent (path : string) (content : bytes)
  : IO (string * option error) :=
  (* Prepare the request body *)
  let multiWriter := multipart.NewWriter randomBoundary in
  (* Add the "purpose" field required by the API *)
  '(multiWriter, r) <- CreateFormField multiWriter "purpose" ;;
  try purposeWriter <- ret r
    catch err => ("", Some (Errorf "failed to add purpose field: %w" [E_ err])) ;;
  '(multiWriter, r) <- Write multiWriter purposeWriter
                             (bytes_of_string "user_data") ;;
  try _ <- ret r
    catch err => ("", Some (Errorf "failed to write purpose to form: %w" [E_ err])) ;;
  (* Add the content directly *)
  '(multiWriter, r) <- CreateFormFile multiWriter "file" path ;;
  try fileWriter <- ret r
    catch err => ("", Some (Errorf "failed to create form file: %w" [E_ err])) ;;
  '(multiWriter, r) <- Write multiWriter fileWriter content ;;
  try _ <- ret r
    catch err => ("", Some (Errorf "failed to write content to form: %w" [E_ err])) ;;
  (* Close the multi-part writer to set the correct boundary *)
  multiWriter <- Close multiWriter ;;
  let requestBody := multipart.w multiWriter in
  (* Create the request *)
  let url := "https://api.openai.com/v1/files" in
  try req <- NewRequest "POST" url (Some requestBody)
    catch err => ("", Some (Errorf "failed to create request: %w" [E_ err])) ;;
  req <- Header_Set req "Authorization" ("Bearer " ++ openaiAPIKey) ;;
  req <- Header_Set req "Content-Type"
                    (multipart.FormDataContentType multiWriter) ;;
  try resp <- Do req
    catch err => ("", Some (Errorf "request failed: %w" [E_ err])) ;;
  if negb (http.StatusCode resp =? http.StatusOK) then
    body <- ReadAll resp ;;
    ret ("", Some (Errorf "upload failed with status %s: %s"
                          [S_ (http.Status resp); S_ (string_of_bytes body)]))
  else
  (* Decode response to get file ID *)
  try f <- Decode resp File
    catch err => ("", Some (Errorf "failed to decode response: %w" [E_ err])) ;;
  let ID := string_of (FieldByName File f "ID") in
  _ <- Printf ("Content for %s uploaded successfully with ID: %s" ++ LF)
              [S_ path; S_ ID] ;;
  ret (ID, None).

Definition UploadFile (path : string) : IO (string * option error) :=
  (* Read file content *)
  try content <- ReadFile path
    catch err => ("", Some (Errorf "failed to read file: %w" [E_ err])) ;;
  (* Check if the file is a .tsx and treat it as a .ts file *)
  let path := if strings.HasSuffix path ".tsx"
              then strings.TrimSuffix path ".tsx" ++ ".ts"
              else path in
  (* Use UploadContent *)
  UploadContent path content.

(** ListFiles retrieves a list of all files uploaded to ChatGPT *)
Definition ListFiles : IO (goval * option error) :=
  let url := "https://api.openai.com/v1/files" in
  try req <- NewRequest "GET" url None
    catch err => (nil_slice, Some (Errorf "failed to create request: %w" [E_ err])) ;;
  req <- Header_Set req "Authorization" ("Bearer " ++ openaiAPIKey) ;;
  try resp <- Do req
    catch err => (nil_slice, Some (Errorf "request failed: %w" [E_ err])) ;;
  if negb (http.StatusCode resp =? http.StatusOK) then
    body <- ReadAll resp ;;
    ret (nil_slice,
         Some (Errorf "retrieving files failed with status %s: %s"
                      [S_ (http.Status resp); S_ (string_of_bytes body)]))
  else
  (* Parse the response *)
  let response_t := TStruct [ field "Data" (TSlice File) "data" ] in
  try response <- Decode resp response_t
    catch err => (nil_slice, Some (Errorf "failed to decode response: %w" [E_ err])) ;;
  ret (FieldByName response_t response "Data", None).

(** RetrieveFile retrieves information about a specific file by file ID *)
Definition RetrieveFile (fileID : string) : IO (goval * option error) :=
  let url := fmt.Sprintf "https://api.openai.com/v1/files/%s"
                                 [S_ fileID] in
  try req <- NewRequest "GET" url None
    catch err => (nil_ptr, Some (Errorf "failed to create retrieve file request: %w" [E_ err])) ;;
  req <- Header_Set req "Authorization" ("Bearer " ++ openaiAPIKey) ;;
  req <- Header_Set req "Content-Type" "application/json" ;;
  try resp <- Do req
    catch err => (nil_ptr, Some (Errorf "file retrieval request failed: %w" [E_ err])) ;;
  if negb (http.StatusCode resp =? http.StatusOK) then
    body <- ReadAll resp ;;
    ret (nil_ptr,
         Some (Errorf "file retrieval failed with status %s: %s"
                      [S_ (http.Status resp); S_ (string_of_bytes body)]))
  else
  try file <- Decode resp File
    catch err => (nil_ptr, Some (Errorf "failed to decode file retrieval response: %w" [E_ err])) ;;
  _ <- Printf ("File %s retrieved successfully with ID: %s" ++ LF)
              [S_ (string_of (FieldByName File file "FileName"));
               S_ (string_of (FieldByName File file "ID"))] ;;
  ret (addr file, None).

(** DeleteFile deletes a file from ChatGPT by file ID *)
Definition DeleteFile (fileID : string) : IO (option error) :=
  let url := fmt.Sprintf "https://api.openai.com/v1/files/%s"
                                 [S_ fileID] in
  try req <- NewRequest "DELETE" url None
    catch err => Some (Errorf "failed to create delete request: %w" [E_ err]) ;;
  req <- Header_Set req "Authorization" ("Bearer " ++ openaiAPIKey) ;;
  try resp <- Do req
    catch err => Some (Errorf "delete request failed: %w" [E_ err]) ;;
  if negb (http.StatusCode resp =? http.StatusOK) then
    body <- ReadAll resp ;;
    ret (Some (Errorf "file deletion failed with status %s: %s"
                      [S_ (http.Status resp); S_ (string_of_bytes body)]))
  else
  _ <- Printf ("File with ID %s deleted successfully." ++ LF) [S_ fileID] ;;
  ret None.

End Functions.

End files.

(** ** files.go, continued: files of a vector store *)

Module vector_store_file.

(** The type of the field [Error] of [ErrorResponse]. *)
Definition ErrorResponse_Error : gotype :=
  TStruct [ field "Message" TString "message";
            field "Type" TString "type";
            field "Param" TString "param";
            field "Code" TString "code" ].

Definition ErrorResponse : gotype :=
  TStruct [ field "Error" ErrorResponse_Error "error" ].

(** VectorStoreFile represents the response for attaching a file to a
    vector store *)
Definition VectorStoreFile : gotype :=
  TStruct [ field "ID" TString "id";
            field "Object" TString "object";
            field "UsageBytes" TInt64 "usage_bytes";
            field "CreatedAt" TInt64 "created_at";
            field "VectorStoreID" TString "vector_store_id";
            field "Status" TString "status";
            field "LastError" (TPtr (TMap TInterface)) "last_error,omitempty";
            field "ChunkingStrategy" (TMap TInterface)
                  "chunking_strategy,omitempty" ].

(** VectorStoreFileListResponse represents the response from the list
    vector store files API *)
Definition VectorStoreFileListResponse : gotype :=
  TStruct [ field "Data" (TSlice VectorStoreFile) "data" ].

Section Functions.

Context {W : World}.

(** CreateVectorStoreFile attaches a file to a vector store;
    [chunkingStrategy] is a value of type [map[string]interface{}]. *)
Definition CreateVectorStoreFile (vectorStoreID fileID : string)
           (chunkingStrategy : goval) : IO (goval * option error) :=
  (* Prepare payload for attaching file *)
  let payload :=
    VMap (Some [ ("file_id", VInterface (Some (VString fileID)));
                 ("chunking_strategy", VInterface (Some chunkingStrategy)) ]) in
  try payloadBytes <- Marshal (TMap TInterface) payload
    catch err => (nil_ptr, Some (Errorf "failed to marshal vector store file payload: %w" [E_ err])) ;;
  (* Set up request to attach file to vector store *)
  let url := fmt.Sprintf
               "https://api.openai.com/v1/vector_stores/%s/files"
               [S_ vectorStoreID] in
  try req <- NewRequest "POST" url (Some payloadBytes)
    catch err => (nil_ptr, Some (Errorf "failed to create vector store file request: %w" [E_ err])) ;;
  req <- Header_Set req "Authorization" ("Bearer " ++ openaiAPIKey) ;;
  req <- Header_Set req "Content-Type" "application/json" ;;
  req <- Header_Set req "OpenAI-Beta" "assistants=v2" ;;
  try resp <- Do req
    catch err => (nil_ptr, Some (Errorf "vector store file request failed: %w" [E_ err])) ;;
  if negb (http.StatusCode resp =? http.StatusOK) then
    body <- ReadAll resp ;;
    try errorResp <- Unmarshal body ErrorResponse
      catch err => (nil_ptr,
                    Some (Errorf "vector store file creation failed with status %s: %s"
                                 [S_ (http.Status resp); S_ (string_of_bytes body)])) ;;
    let Error := FieldByName ErrorResponse errorResp "Error" in
    if String.eqb (string_of (FieldByName ErrorResponse_Error Error "Code"))
                  "unsupported_file"
    then ret (nil_ptr, Some (UnsupportedFileTypeError fileID))
    else ret (nil_ptr,
              Some (Errorf "vector store file creation failed: %s"
                           [S_ (string_of (FieldByName ErrorResponse_Error
                                                       Error "Message"))]))
  else
  (* Decode response to get file attachment details *)
  try vectorStoreFileResp <- Decode resp VectorStoreFile
    catch err => (nil_ptr, Some (Errorf "failed to decode vector store file response: %w" [E_ err])) ;;
  _ <- Printf ("File attached successfully to vector store with ID: %s" ++ LF)
              [S_ (string_of (FieldByName VectorStoreFile vectorStoreFileResp "ID"))] ;;
  ret (addr vectorStoreFileResp, None).

(** ListVectorStoreFiles lists files attached to a specific vector store *)
Definition ListVectorStoreFiles (vectorStoreID : string)
  : IO (goval * option error) :=
  (* Build the request URL *)
  let url := fmt.Sprintf
               "https://api.openai.com/v1/vector_stores/%s/files?limit=100"
               [S_ vectorStoreID] in
  (* Create the request *)
  try req <- NewRequest "GET" url None
    catch err => (nil_slice, Some (Errorf "failed to create list vector store files request: %w" [E_ err])) ;;
  req <- Header_Set req "Authorization" ("Bearer " ++ openaiAPIKey) ;;
  req <- Header_Set req "Content-Type" "application/json" ;;
  req <- Header_Set req "OpenAI-Beta" "assistants=v2" ;;
  (* Execute the request *)
  try resp <- Do req
    catch err => (nil_slice, Some (Errorf "list vector store files request failed: %w" [E_ err])) ;;
  if negb (http.StatusCode resp =? http.StatusOK) then
    body <- ReadAll resp ;;
    ret (nil_slice,
         Some (Errorf "list vector store files failed with status %s: %s"
                      [S_ (http.Status resp); S_ (string_of_bytes body)]))
  else
  (* Parse the response *)
  try vectorStoreFileList <- Decode resp VectorStoreFileListResponse
    catch err => (nil_slice, Some (Errorf "failed to decode list vector store files response: %w" [E_ err])) ;;
  ret (FieldByName VectorStoreFileListResponse vectorStoreFileList "Data",
       None).

(** RetrieveVectorStoreFile retrieves details of a specific file
    attached to a vector store *)
Definition RetrieveVectorStoreFile (vectorStoreID fileID : string)
  : IO (goval * option error) :=
  (* Build the request URL *)
  let url := fmt.Sprintf
               "https://api.openai.com/v1/vector_stores/%s/files/%s"
               [S_ vectorStoreID; S_ fileID] in
  (* Create the request *)
  try req <- NewRequest "GET" url None
    catch err => (nil_ptr, Some (Errorf "failed to create retrieve vector store file request: %w" [E_ err])) ;;
  req <- Header_Set req "Authorization" ("Bearer " ++ openaiAPIKey) ;;
  req <- Header_Set req "Content-Type" "application/json" ;;
  req <- Header_Set req "OpenAI-Beta" "assistants=v2" ;;
  (* Execute the request *)
  try resp <- Do req
    catch err => (nil_ptr, Some (Errorf "retrieve vector store file request failed: %w" [E_ err])) ;;
  if negb (http.StatusCode resp =? http.StatusOK) then
    body <- ReadAll resp ;;
    ret (nil_ptr,
         Some (Errorf "retrieve vector store file failed with status %s: %s"
                      [S_ (http.Status resp); S_ (string_of_bytes body)]))
  else
  (* Parse the response *)
  try vectorStoreFile <- Decode resp VectorStoreFile
    catch err => (nil_ptr, Some (Errorf "failed to decode retrieve vector store file response: %w" [E_ err])) ;;
  ret (addr vectorStoreFile, None).

(** DeleteVectorStoreFile deletes a specific file from a vector store *)
Definition DeleteVectorStoreFile (vectorStoreID fileID : string)
  : IO (option error) :=
  (* Build the request URL *)
  let url := fmt.Sprintf
               "https://api.openai.com/v1/vector_stores/%s/files/%s"
               [S_ vectorStoreID; S_ fileID] in
  (* Create the request *)
  try req <- NewRequest "DELETE" url None
    catch err => Some (Errorf "failed to create delete vector store file request: %w" [E_ err]) ;;
  req <- Header_Set req "Authorization" ("Bearer " ++ openaiAPIKey) ;;
  req <- Header_Set req "Content-Type" "application/json" ;;
  req <- Header_Set req "OpenAI-Beta" "assistants=v2" ;;
  (* Execute the request *)
  try resp <- Do req
    catch err => Some (Errorf "delete vector store file request failed: %w" [E_ err]) ;;
  if negb (http.StatusCode resp =? http.StatusOK) then
    body <- ReadAll resp ;;
    ret (Some (Errorf "delete vector store file failed with status %s: %s"
                      [S_ (http.Status resp); S_ (string_of_bytes body)]))
  else
  _ <- Printf ("File with ID %s deleted successfully from vector store %s" ++ LF)
              [S_ fileID; S_ vectorStoreID] ;;
  ret None.

End Functions.

End vector_store_file.

(** ** files.go, continued: threads *)

Module thread.

(** Thread represents the response from creating or retrieving a thread *)
Definition Thread : gotype :=
  TStruct [ field "ID" TString "id";
            field "Object" TString "object";
            field "CreatedAt" TInt64 "created_at";
            field "Metadata" (TMap TInterface) "metadata,omitempty";
            field "ToolResources" (TMap TInterface) "tool_resources,omitempty" ].

(** ThreadMessage represents the message structure in a thread *)
Definition ThreadMessage : gotype :=
  TStruct [ field "Role" TString "role";
            field "Content" TString "content" ].

(** CreateThreadParams defines the parameters for creating a thread *)
Definition CreateThreadParams : gotype :=
  TStruct [ field "Messages" (TSlice ThreadMessage) "messages,omitempty";
            field "ToolResources" (TMap TInterface) "tool_resources,omitempty";
            field "VectorStoreIDs" (TSlice TString) "vector_store_ids,omitempty";
            field "VectorStores" (TSlice (TMap TInterface))
                  "vector_stores,omitempty" ].

Section Functions.

Context {W : World}.

(** CreateThread creates a new thread with the specified parameters;
    [params] is a value of type [*CreateThreadParams]. *)
Definition CreateThread (params : goval) : IO (goval * option error) :=
  try payloadBytes <- Marshal (TPtr CreateThreadParams) params
    catch err => (nil_ptr, Some (Errorf "failed to marshal thread payload: %w" [E_ err])) ;;
  let url := "https://api.openai.com/v1/threads" in
  try req <- NewRequest "POST" url (Some payloadBytes)
    catch err => (nil_ptr, Some (Errorf "failed to create thread request: %w" [E_ err])) ;;
  req <- Header_Set req "Authorization" ("Bearer " ++ openaiAPIKey) ;;
  req <- Header_Set req "Content-Type" "application/json" ;;
  req <- Header_Set req "OpenAI-Beta" "assistants=v2" ;;
  try resp <- Do req
    catch err => (nil_ptr, Some (Errorf "thread request failed: %w" [E_ err])) ;;
  if negb (http.StatusCode resp =? http.StatusOK) then
    body <- ReadAll resp ;;
    ret (nil_ptr,
         Some (Errorf "thread creation failed with status %s: %s"
                      [S_ (http.Status resp); S_ (string_of_bytes body)]))
  else
  try response <- Decode resp Thread
    catch err => (nil_ptr, Some (Errorf "failed to decode thread response: %w" [E_ err])) ;;
  _ <- Printf ("Thread created successfully with ID: %s" ++ LF)
              [S_ (string_of (FieldByName Thread response "ID"))] ;;
  ret (addr response, None).

End Functions.

End thread.

(** ** message.go *)

Module message.

(** ContentText holds the textual content of a message *)
Definition ContentText : gotype :=
  TStruct [ field "Value" TString "value";
            field "Annotations" (TSlice TInterface) "annotations,omitempty" ].

(** MessageContent represents the content structure within a message *)
Definition MessageContent : gotype :=
  TStruct [ field "Type" TString "type";
            field "Text" ContentText "text" ].

(** Message represents a single message in a thread *)
Definition Message : gotype :=
  TStruct [ field "ID" TString "id";
            field "Object" TString "object";
            field "CreatedAt" TInt64 "created_at";
            field "AssistantID" (TPtr TString) "assistant_id,omitempty";
            field "ThreadID" TString "thread_id";
            field "RunID" (TPtr TString) "run_id,omitempty";
            field "Role" TString "role";
            field "Content" (TSlice MessageContent) "content";
            field "Attachments" (TSlice TInterface) "attachments,omitempty";
            field "Metadata" (TMap TInterface) "metadata,omitempty" ].

(** CreateMessageParams holds the parameters for creating a new message *)
Record CreateMessageParams : Type :=
  { ThreadID : string;   (* json:"-": only used to construct the URL *)
    Role : string;       (* json:"role" *)
    Content : string }.  (* json:"content" *)

Section Functions.

Context {W : World}.

(** CreateMessage creates a new message in a given thread.  [params]
    is the struct the (non-nil) pointer argument points to. *)
Definition CreateMessage (params : CreateMessageParams)
  : IO (goval * option error) :=
  if String.eqb (ThreadID params) "" then
    ret (nil_ptr, Some (Errorf "threadID is required" []))
  else
  if String.eqb (Role params) "" then
    ret (nil_ptr, Some (Errorf "role is required" []))
  else
  if String.eqb (Content params) "" then
    ret (nil_ptr, Some (Errorf "content is required" []))
  else
  let url := fmt.Sprintf
               "https://api.openai.com/v1/threads/%s/messages"
               [S_ (ThreadID params)] in
  try body <- Marshal (TMap TString)
                      (VMap (Some [ ("role", VString (Role params));
                                    ("content", VString (Content params)) ]))
    catch err => (nil_ptr, Some (Errorf "failed to marshal message content: %w" [E_ err])) ;;
  try req <- NewRequest "POST" url (Some body)
    catch err => (nil_ptr, Some (Errorf "failed to create request to create message: %w" [E_ err])) ;;
  req <- Header_Set req "Authorization" ("Bearer " ++ openaiAPIKey) ;;
  req <- Header_Set req "Content-Type" "application/json" ;;
  req <- Header_Set req "OpenAI-Beta" "assistants=v2" ;;
  try resp <- Do req
    catch err => (nil_ptr, Some (Errorf "request to create message failed: %w" [E_ err])) ;;
  if negb (http.StatusCode resp =? http.StatusOK)
     && negb (http.StatusCode resp =? http.StatusCreated) then
    body <- ReadAll resp ;;
    ret (nil_ptr,
         Some (Errorf "failed to create message with status %s: %s"
                      [S_ (http.Status resp); S_ (string_of_bytes body)]))
  else
  let result_t := TStruct [ field "Data" Message "data" ] in
  try result <- Decode resp result_t
    catch err => (nil_ptr, Some (Errorf "failed to decode message response: %w" [E_ err])) ;;
  ret (addr (FieldByName result_t result "Data"), None).

(** ListMessages retrieves a list of messages from a given thread with
    optional query parameters *)
Definition ListMessages (threadID : string) (limit : Z)
           (order after before runID : string)
  : IO (goval * option error) :=
  let url := fmt.Sprintf
               "https://api.openai.com/v1/threads/%s/messages"
               [S_ threadID] in
  try req <- NewRequest "GET" url None
    catch err => (nil_slice, Some (Errorf "failed to create request to list messages: %w" [E_ err])) ;;
  (* Set query parameters based on provided values *)
  let q := url_ParseQuery (url.RawQuery (http.URL req)) in
  let q := if 0 <? limit
           then url.Add q "limit" (fmt.Sprintf "%d" [D_ limit])
           else q in
  let q := if negb (String.eqb order "") then url.Add q "order" order else q in
  let q := if negb (String.eqb after "") then url.Add q "after" after else q in
  let q := if negb (String.eqb before "") then url.Add q "before" before else q in
  let q := if negb (String.eqb runID "") then url.Add q "run_id" runID else q in
  let req := http.set_RawQuery req (url_Encode q) in
  req <- Header_Set req "Authorization" ("Bearer " ++ openaiAPIKey) ;;
  req <- Header_Set req "Content-Type" "application/json" ;;
  req <- Header_Set req "OpenAI-Beta" "assistants=v2" ;;
  try resp <- Do req
    catch err => (nil_slice, Some (Errorf "request to list messages failed: %w" [E_ err])) ;;
  if negb (http.StatusCode resp =? http.StatusOK) then
    body <- ReadAll resp ;;
    ret (nil_slice,
         Some (Errorf "failed to list messages with status %s: %s"
                      [S_ (http.Status resp); S_ (string_of_bytes body)]))
  else
  let result_t := TStruct [ field "Data" (TSlice Message) "data" ] in
  try result <- Decode resp result_t
    catch err => (nil_slice, Some (Errorf "failed to decode messages response: %w" [E_ err])) ;;
  ret (FieldByName result_t result "Data", None).

End Functions.

End message.

(** ** run.go *)

Module run.

Definition CreateRunParams : gotype :=
  TStruct [ field "AssistantID" TString "assistant_id";
            field "Model" (TPtr TString) "model,omitempty";
            field "Instructions" (TPtr TString) "instructions,omitempty";
            field "AdditionalInstructions" (TPtr TString)
                  "additional_instructions,omitempty";
            field "AdditionalMessages" (TSlice thread.ThreadMessage)
                  "additional_messages,omitempty";
            field "Tools" (TSlice (TMap TInterface)) "tools,omitempty";
            field "Metadata" (TMap TString) "metadata,omitempty";
            field "Temperature" (TPtr TFloat64) "temperature,omitempty";
            field "TopP" (TPtr TFloat64) "top_p,omitempty";
            field "Stream" (TPtr TBool) "stream,omitempty";
            field "MaxPromptTokens" (TPtr TInt) "max_prompt_tokens,omitempty";
            field "MaxCompletionTokens" (TPtr TInt)
                  "max_completion_tokens,omitempty";
            field "TruncationStrategy" (TPtr (TMap TInterface))
                  "truncation_strategy,omitempty";
            field "ToolChoice" (TPtr (TMap TInterface)) "tool_choice,omitempty";
            field "ParallelToolCalls" (TPtr TBool)
                  "parallel_tool_calls,omitempty";
            field "ResponseFormat" (TPtr TInterface)
                  "response_format,omitempty" ].

Definition Run : gotype :=
  TStruct [ field "ID" TString "id";
            field "Object" TString "object";
            field "CreatedAt" TInt64 "created_at";
            field "AssistantID" TString "assistant_id";
            field "ThreadID" TString "thread_id";
            field "Status" TString "status";
            field "StartedAt" (TPtr TInt64) "started_at,omitempty";
            field "ExpiresAt" (TPtr TInt64) "expires_at,omitempty";
            field "CancelledAt" (TPtr TInt64) "cancelled_at,omitempty";
            field "FailedAt" (TPtr TInt64) "failed_at,omitempty";
            field "CompletedAt" (TPtr TInt64) "completed_at,omitempty";
            field "LastError" (TPtr TString) "last_error,omitempty";
            field "Model" TString "model";
            field "Instructions" (TPtr TString) "instructions,omitempty";
            field "Metadata" (TMap TInterface) "metadata,omitempty";
            field "IncompleteDetails" (TPtr TString)
                  "incomplete_details,omitempty";
            field "Usage"
                  (TStruct [ field "PromptTokens" TInt "prompt_tokens";
                             field "CompletionTokens" TInt "completion_tokens";
                             field "TotalTokens" TInt "total_tokens" ])
                  "usage";
            field "Temperature" (TPtr TFloat64) "temperature,omitempty";
            field "TopP" (TPtr TFloat64) "top_p,omitempty";
            field "MaxPromptTokens" (TPtr TInt) "max_prompt_tokens,omitempty";
            field "MaxCompletionTokens" (TPtr TInt)
                  "max_completion_tokens,omitempty";
            field "TruncationStrategy" (TMap TInterface)
                  "truncation_strategy,omitempty";
            field "ResponseFormat" TString "response_format";
            field "ToolChoice" TString "tool_choice";
            field "ParallelToolCalls" (TPtr TBool)
                  "parallel_tool_calls,omitempty" ].

Section Functions.

Context {W : World}.

(** CreateRun creates a run in a specified thread using the given
    parameters; [params] is a value of type [*CreateRunParams]. *)
Definition CreateRun (threadID : string) (params : goval)
           (include : list string) : IO (goval * option error) :=
  let url := fmt.Sprintf
               "https://api.openai.com/v1/threads/%s/runs" [S_ threadID] in
  let url :=
    match include with
    | [] => url
    | first :: rest =>
        let queryParams :=
          fold_left (fun queryParams field_ =>
                       queryParams ++ "&include=" ++ field_)
                    rest ("?include=" ++ first) in
        url ++ queryParams
    end in
  try payloadBytes <- Marshal (TPtr CreateRunParams) params
    catch err => (nil_ptr, Some (Errorf "failed to marshal run payload: %w" [E_ err])) ;;
  try req <- NewRequest "POST" url (Some payloadBytes)
    catch err => (nil_ptr, Some (Errorf "failed to create run request: %w" [E_ err])) ;;
  req <- Header_Set req "Authorization" ("Bearer " ++ openaiAPIKey) ;;
  req <- Header_Set req "Content-Type" "application/json" ;;
  req <- Header_Set req "OpenAI-Beta" "assistants=v2" ;;
  try resp <- Do req
    catch err => (nil_ptr, Some (Errorf "run request failed: %w" [E_ err])) ;;
  if negb (http.StatusCode resp =? http.StatusOK) then
    body <- ReadAll resp ;;
    ret (nil_ptr,
         Some (Errorf "run creation failed with status %s: %s"
                      [S_ (http.Status resp); S_ (string_of_bytes body)]))
  else
  (* Decode the JSON response *)
  try response <- Decode resp Run
    catch err => (nil_ptr, Some (Errorf "failed to decode run response: %w" [E_ err])) ;;
  _ <- Printf ("Run created successfully with ID: %s, Status: %s" ++ LF)
              [S_ (string_of (FieldByName Run response "ID"));
               S_ (string_of (FieldByName Run response "Status"))] ;;
  ret (addr response, None).

(** RetrieveRun retrieves the status and details of a specific run
    within a thread *)
Definition RetrieveRun (threadID runID : string)
  : IO (goval * option error) :=
  (* Construct the request URL *)
  let url := fmt.Sprintf
               "https://api.openai.com/v1/threads/%s/runs/%s"
               [S_ threadID; S_ runID] in
  (* Create the HTTP request *)
  try req <- NewRequest "GET" url None
    catch err => (nil_ptr, Some (Errorf "failed to create get run request: %w" [E_ err])) ;;
  req <- Header_Set req "Authorization" ("Bearer " ++ openaiAPIKey) ;;
  req <- Header_Set req "Content-Type" "application/json" ;;
  req <- Header_Set req "OpenAI-Beta" "assistants=v2" ;;
  (* Execute the request *)
  try resp <- Do req
    catch err => (nil_ptr, Some (Errorf "run retrieval request failed: %w" [E_ err])) ;;
  (* Handle non-200 status codes *)
  if negb (http.StatusCode resp =? http.StatusOK) then
    body <- ReadAll resp ;;
    ret (nil_ptr,
         Some (Errorf "run retrieval failed with status %s: %s"
                      [S_ (http.Status resp); S_ (string_of_bytes body)]))
  else
  (* Decode the JSON response into a Run struct *)
  try run <- Decode resp Run
    catch err => (nil_ptr, Some (Errorf "failed to decode run response: %w" [E_ err])) ;;
  ret (addr run, None).

End Functions.

End run.

(** [len(v)] of a slice value *)
Definition slice_len (v : goval) : nat :=
  match v with
  | VSlice (Some l) => List.length l
  | _ => O
  end.

(** ** embeddings.go *)

Module embeddings.

(** EmbeddingResponse represents the response from the embeddings API *)
Definition EmbeddingResponse : gotype :=
  TStruct [ field "Object" TString "object";
            field "Embedding" (TSlice TFloat64) "embedding";
            field "Index" TInt "index" ].

Section Functions.

Context {W : World}.

(** createEmbedding reads the content of a file, uploads it to OpenAI
    embeddings, and returns a generated ID for the embedding *)
Definition CreateEmbedding (filePath : string)
  : IO (string * option error) :=
  (* Read the file content *)
  try content <- ReadFile filePath
    catch err => ("", Some (Errorf "failed to read file %s: %w" [S_ filePath; E_ err])) ;;
  (* Create embedding request *)
  let embeddingReq :=
    {| openai.Input := [string_of_bytes content];
       openai.Model := openai.AdaEmbeddingV2 |} in
  (* Generate embedding using OpenAI client *)
  try resp <- CreateEmbeddings embeddingReq
    catch err => ("", Some (Errorf "error creating embedding: %w" [E_ err])) ;;
  if match openai.Data resp with
     | [] => true
     | d :: _ => (List.length (openai.Embedding_ d) =? 0)%nat
     end
  then ret ("", Some (Errorf "no embedding data returned" []))
  else
  (* Generate a unique ID for this embedding using SHA-1 hash of the
     content *)
  let embeddingID := hex.EncodeToString (sha1.Sum content) in
  ret (embeddingID, None).

(** CreateVectorForFile generates an embedding for the file content and
    returns a unique ID based on the embedding *)
Definition CreateVectorForFile (filePath : string)
  : IO (string * option error) :=
  (* Read the file content *)
  try content <- ReadFile filePath
    catch err => ("", Some (Errorf "failed to read file %s: %w" [S_ filePath; E_ err])) ;;
  (* Prepare payload for embedding request *)
  let payload :=
    VMap (Some [ ("input", VInterface (Some (VString (string_of_bytes content))));
                 ("model", VInterface (Some (VString "text-embedding-ada-002"))) ]) in
  try payloadBytes <- Marshal (TMap TInterface) payload
    catch err => ("", Some (Errorf "failed to marshal embedding payload: %w" [E_ err])) ;;
  (* Send request to embeddings API *)
  let url := "https://api.openai.com/v1/embeddings" in
  try req <- NewRequest "POST" url (Some payloadBytes)
    catch err => ("", Some (Errorf "failed to create embedding request: %w" [E_ err])) ;;
  req <- Header_Set req "Authorization" ("Bearer " ++ openaiAPIKey) ;;
  req <- Header_Set req "Content-Type" "application/json" ;;
  try resp <- Do req
    catch err => ("", Some (Errorf "embedding request failed: %w" [E_ err])) ;;
  if negb (http.StatusCode resp =? http.StatusOK) then
    body <- ReadAll resp ;;
    ret ("", Some (Errorf "embedding creation failed with status %s: %s"
                          [S_ (http.Status resp); S_ (string_of_bytes body)]))
  else
  (* Decode response to get embedding data *)
  try embeddingResp <- Decode resp EmbeddingResponse
    catch err => ("", Some (Errorf "failed to decode embedding response: %w" [E_ err])) ;;
  if (slice_len (FieldByName EmbeddingResponse embeddingResp "Embedding")
      =? 0)%nat
  then ret ("", Some (Errorf "no embedding data returned for file '%s'"
                             [S_ filePath]))
  else
  (* Generate a unique ID for this embedding using SHA-1 hash of the
     content *)
  let embeddingID := hex.EncodeToString (sha1.Sum (bytes_of_string content)) in
  _ <- Printf ("Embedding created successfully for %s with ID: %s" ++ LF)
              [S_ filePath; S_ embeddingID] ;;
  ret (embeddingID, None).

End Functions.

End embeddings.

(** ** vectorstore.go *)

Module vectorstore.

(** ExpirationPolicy represents the expiration policy for a vector store *)
Definition ExpirationPolicy : gotype :=
  TStruct [ field "Anchor" TString "anchor";
            field "Days" TInt "days" ].

(** ChunkingStrategy represents the chunking strategy options for file
    processing in the vector store *)
Definition ChunkingStrategy : gotype :=
  TStruct [ field "Type" TString "type";
            field "MaxChunkSizeTokens" TInt "max_chunk_size_tokens,omitempty";
            field "ChunkOverlapTokens" TInt "chunk_overlap_tokens,omitempty" ].

(** CreateVectorStoreParams defines parameters for creating a vector
    store *)
Definition CreateVectorStoreParams : gotype :=
  TStruct [ field "Name" TString "name,omitempty";
            field "FileIDs" (TSlice TString) "file_ids,omitempty";
            field "Metadata" (TMap TString) "metadata,omitempty";
            field "ExpiresAfter" (TPtr ExpirationPolicy) "expires_after,omitempty";
            field "ChunkingStrategy" (TPtr ChunkingStrategy)
                  "chunking_strategy,omitempty" ].

(** VectorStore represents the response for retrieving or creating a
    vector store *)
Definition VectorStore : gotype :=
  TStruct [ field "ID" TString "id";
            field "Object" TString "object";
            field "CreatedAt" TInt64 "created_at";
            field "Name" TString "name";
            field "UsageBytes" TInt64 "usage_bytes";
            field "Status" TString "status";
            field "ExpiresAfter" (TPtr ExpirationPolicy) "expires_after,omitempty";
            field "Metadata" (TMap TString) "metadata,omitempty";
            field "FileCounts" (TMap TInt) "file_counts,omitempty";
            field "ExpiresAt" (TPtr TInt64) "expires_at,omitempty";
            field "LastActiveAt" (TPtr TInt64) "last_active_at,omitempty" ].

(** VectorStoreListResponse represents the response from the list vector
    stores API *)
Definition VectorStoreListResponse : gotype :=
  TStruct [ field "Data" (TSlice VectorStore) "data" ].

Section Functions.

Context {W : World}.

(** CreateVectorStore creates a new vector store in OpenAI's storage;
    [params] is a value of type [*CreateVectorStoreParams]. *)
Definition CreateVectorStore (params : goval)
  : IO (goval * option error) :=
  (* Marshal the parameters to JSON *)
  try payloadBytes <- Marshal (TPtr CreateVectorStoreParams) params
    catch err => (nil_ptr, Some (Errorf "failed to marshal vector store payload: %w" [E_ err])) ;;
  (* Send request to vector store API *)
  let url := "https://api.openai.com/v1/vector_stores" in
  try req <- NewRequest "POST" url (Some payloadBytes)
    catch err => (nil_ptr, Some (Errorf "failed to create vector store request: %w" [E_ err])) ;;
  req <- Header_Set req "Authorization" ("Bearer " ++ openaiAPIKey) ;;
  req <- Header_Set req "Content-Type" "application/json" ;;
  req <- Header_Set req "OpenAI-Beta" "assistants=v2" ;;
  try resp <- Do req
    catch err => (nil_ptr, Some (Errorf "vector store request failed: %w" [E_ err])) ;;
  if negb (http.StatusCode resp =? http.StatusOK) then
    body <- ReadAll resp ;;
    ret (nil_ptr,
         Some (Errorf "vector store creation failed with status %s: %s"
                      [S_ (http.Status resp); S_ (string_of_bytes body)]))
  else
  (* Decode response to get vector store information *)
  try vectorStoreResp <- Decode resp VectorStore
    catch err => (nil_ptr, Some (Errorf "failed to decode vector store response: %w" [E_ err])) ;;
  _ <- Printf ("Vector store created successfully with ID: %s" ++ LF)
              [S_ (string_of (FieldByName VectorStore vectorStoreResp "ID"))] ;;
  ret (addr vectorStoreResp, None).

(** ListVectorStores lists vector stores with optional parameters for
    pagination and sorting *)
Definition ListVectorStores (limit : Z) (order after before : string)
  : IO (goval * option error) :=
  (* Prepare query parameters *)
  let params : url.Values := [] in
  let params := if 0 <? limit
                then url.Add params "limit" (strconv.Itoa limit)
                else params in
  let params := if negb (String.eqb order "")
                then url.Add params "order" order else params in
  let params := if negb (String.eqb after "")
                then url.Add params "after" after else params in
  let params := if negb (String.eqb before "")
                then url.Add params "before" before else params in
  (* Build the request URL *)
  let baseURL := "https://api.openai.com/v1/vector_stores" in
  let requestURL := fmt.Sprintf "%s?%s"
                                        [S_ baseURL; S_ (url_Encode params)] in
  (* Create the request *)
  try req <- NewRequest "GET" requestURL None
    catch err => (nil_slice, Some (Errorf "failed to create list vector stores request: %w" [E_ err])) ;;
  req <- Header_Set req "Authorization" ("Bearer " ++ openaiAPIKey) ;;
  req <- Header_Set req "Content-Type" "application/json" ;;
  req <- Header_Set req "OpenAI-Beta" "assistants=v2" ;;
  (* Execute the request *)
  try resp <- Do req
    catch err => (nil_slice, Some (Errorf "list vector stores request failed: %w" [E_ err])) ;;
  if negb (http.StatusCode resp =? http.StatusOK) then
    body <- ReadAll resp ;;
    ret (nil_slice,
         Some (Errorf "list vector stores failed with status %s: %s"
                      [S_ (http.Status resp); S_ (string_of_bytes body)]))
  else
  (* Parse the response *)
  try vectorStoreList <- Decode resp VectorStoreListResponse
    catch err => (nil_slice, Some (Errorf "failed to decode list vector stores response: %w" [E_ err])) ;;
  ret (FieldByName VectorStoreListResponse vectorStoreList "Data", None).

(** RetrieveVectorStore retrieves details of a specific vector store *)
Definition RetrieveVectorStore (vectorStoreID : string)
  : IO (goval * option error) :=
  (* Build the request URL *)
  let url := fmt.Sprintf
               "https://api.openai.com/v1/vector_stores/%s"
               [S_ vectorStoreID] in
  (* Create the request *)
  try req <- NewRequest "GET" url None
    catch err => (nil_ptr, Some (Errorf "failed to create retrieve vector store request: %w" [E_ err])) ;;
  req <- Header_Set req "Authorization" ("Bearer " ++ openaiAPIKey) ;;
  req <- Header_Set req "Content-Type" "application/json" ;;
  req <- Header_Set req "OpenAI-Beta" "assistants=v2" ;;
  (* Execute the request *)
  try resp <- Do req
    catch err => (nil_ptr, Some (Errorf "retrieve vector store request failed: %w" [E_ err])) ;;
  if negb (http.StatusCode resp =? http.StatusOK) then
    body <- ReadAll resp ;;
    ret (nil_ptr,
         Some (Errorf "retrieve vector store failed with status %s: %s"
                      [S_ (http.Status resp); S_ (string_of_bytes body)]))
  else
  (* Parse the response *)
  try vectorStore <- Decode resp VectorStore
    catch err => (nil_ptr, Some (Errorf "failed to decode retrieve vector store response: %w" [E_ err])) ;;
  ret (addr vectorStore, None).

(** DeleteVectorStore deletes a specific vector store *)
Definition DeleteVectorStore (vectorStoreID : string)
  : IO (option error) :=
  (* Build the request URL *)
  let url := fmt.Sprintf
               "https://api.openai.com/v1/vector_stores/%s"
               [S_ vectorStoreID] in
  (* Create the request *)
  try req <- NewRequest "DELETE" url None
    catch err => Some (Errorf "failed to create delete vector store request: %w" [E_ err]) ;;
  req <- Header_Set req "Authorization" ("Bearer " ++ openaiAPIKey) ;;
  req <- Header_Set req "Content-Type" "application/json" ;;
  req <- Header_Set req "OpenAI-Beta" "assistants=v2" ;;
  (* Execute the request *)
  try resp <- Do req
    catch err => Some (Errorf "delete vector store request failed: %w" [E_ err]) ;;
  if negb (http.StatusCode resp =? http.StatusOK) then
    body <- ReadAll resp ;;
    ret (Some (Errorf "delete vector store failed with status %s: %s"
                      [S_ (http.Status resp); S_ (string_of_bytes body)]))
  else
  _ <- Printf ("Vector store with ID %s deleted successfully" ++ LF)
              [S_ vectorStoreID] ;;
  ret None.

End Functions.

End vectorstore.

(** ** unnamed/part_000: a second files source *)

Module part_000.

(** File holds response data for a file upload *)
Definition File : gotype :=
  TStruct [ field "ID" TString "id";
            field "CreatedAt" TInt64 "created_at";
            field "Bytes" TInt64 "bytes";
            field "FileName" TString "filename";
            field "Purpose" TString "purpose" ].

Section Functions.

Context {W : World}.

(** UploadFile uploads a file as a multi-part form data to ChatGPT *)
Definition UploadFile (filePath : string) : IO (string * option error) :=
  try file <- Open filePath
    catch err => ("", Some (Errorf "failed to open file: %w" [E_ err])) ;;
  (* Prepare a multi-part form *)
  let multiWriter := multipart.NewWriter randomBoundary in
  (* Add the "purpose" field required by the API *)
  '(multiWriter, r) <- CreateFormField multiWriter "purpose" ;;
  try purposeWriter <- ret r
    catch err => ("", Some (Errorf "failed to add purpose field: %w" [E_ err])) ;;
  '(multiWriter, r) <- Write multiWriter purposeWriter
                             (bytes_of_string "user_data") ;;
  try _ <- ret r
    catch err => ("", Some (Errorf "failed to write purpose to form: %w" [E_ err])) ;;
  (* Add the file field *)
  '(multiWriter, r) <- CreateFormFile multiWriter "file" filePath ;;
  try fileWriter <- ret r
    catch err => ("", Some (Errorf "failed to create form file: %w" [E_ err])) ;;
  (* Copy the actual file content into fileWriter *)
  '(multiWriter, r) <- Copy multiWriter fileWriter file ;;
  try _ <- ret r
    catch err => ("", Some (Errorf "failed to write file content to form: %w" [E_ err])) ;;
  (* Close the multi-part writer to set the correct boundary *)
  multiWriter <- Close multiWriter ;;
  let requestBody := multipart.w multiWriter in
  (* Create the request *)
  let url := "https://api.openai.com/v1/files" in
  try req <- NewRequest "POST" url (Some requestBody)
    catch err => ("", Some (Errorf "failed to create request: %w" [E_ err])) ;;
  req <- Header_Set req "Authorization" ("Bearer " ++ openaiAPIKey) ;;
  req <- Header_Set req "Content-Type"
                    (multipart.FormDataContentType multiWriter) ;;
  try resp <- Do req
    catch err => ("", Some (Errorf "request failed: %w" [E_ err])) ;;
  if negb (http.StatusCode resp =? http.StatusOK) then
    body <- ReadAll resp ;;
    ret ("", Some (Errorf "upload failed with status %s: %s"
                          [S_ (http.Status resp); S_ (string_of_bytes body)]))
  else
  (* Decode response to get file ID *)
  try f <- Decode resp File
    catch err => ("", Some (Errorf "failed to decode response: %w" [E_ err])) ;;
  let ID := string_of (FieldByName File f "ID") in
  _ <- Printf ("File %s uploaded successfully with ID: %s" ++ LF)
              [S_ filePath; S_ ID] ;;
  ret (ID, None).

(** ListFiles retrieves a list of all files uploaded to ChatGPT *)
Definition ListFiles : IO (goval * option error) :=
  let url := "https://api.openai.com/v1/files" in
  try req <- NewRequest "GET" url None
    catch err => (nil_slice, Some (Errorf "failed to create request: %w" [E_ err])) ;;
  req <- Header_Set req "Authorization" ("Bearer " ++ openaiAPIKey) ;;
  try resp <- Do req
    catch err => (nil_slice, Some (Errorf "request failed: %w" [E_ err])) ;;
  if negb (http.StatusCode resp =? http.StatusOK) then
    body <- ReadAll resp ;;
    ret (nil_slice,
         Some (Errorf "retrieving files failed with status %s: %s"
                      [S_ (http.Status resp); S_ (string_of_bytes body)]))
  else
  (* Parse the response *)
  let response_t := TStruct [ field "Data" (TSlice File) "data" ] in
  try response <- Decode resp response_t
    catch err => (nil_slice, Some (Errorf "failed to decode response: %w" [E_ err])) ;;
  ret (FieldByName response_t response "Data", None).

(** RetrieveFile retrieves information about a specific file by file ID *)
Definition RetrieveFile (fileID : string) : IO (goval * option error) :=
  let url := fmt.Sprintf "https://api.openai.com/v1/files/%s"
                                 [S_ fileID] in
  try req <- NewRequest "GET" url None
    catch err => (nil_ptr, Some (Errorf "failed to create retrieve file request: %w" [E_ err])) ;;
  req <- Header_Set req "Authorization" ("Bearer " ++ openaiAPIKey) ;;
  req <- Header_Set req "Content-Type" "application/json" ;;
  try resp <- Do req
    catch err => (nil_ptr, Some (Errorf "file retrieval request failed: %w" [E_ err])) ;;
  if negb (http.StatusCode resp =? http.StatusOK) then
    body <- ReadAll resp ;;
    ret (nil_ptr,
         Some (Errorf "file retrieval failed with status %s: %s"
                      [S_ (http.Status resp); S_ (string_of_bytes body)]))
  else
  try file <- Decode resp File
    catch err => (nil_ptr, Some (Errorf "failed to decode file retrieval response: %w" [E_ err])) ;;
  _ <- Printf ("File %s retrieved successfully with ID: %s" ++ LF)
              [S_ (string_of (FieldByName File file "FileName"));
               S_ (string_of (FieldByName File file "ID"))] ;;
  ret (addr file, None).

(** DeleteFile deletes a file from ChatGPT by file ID *)
Definition DeleteFile (fileID : string) : IO (option error) :=
  let url := fmt.Sprintf "https://api.openai.com/v1/files/%s"
                                 [S_ fileID] in
  try req <- NewRequest "DELETE" url None
    catch err => Some (Errorf "failed to create delete request: %w" [E_ err]) ;;
  req <- Header_Set req "Authorization" ("Bearer " ++ openaiAPIKey) ;;
  try resp <- Do req
    catch err => Some (Errorf "delete request failed: %w" [E_ err]) ;;
  if negb (http.StatusCode resp =? http.StatusOK) then
    body <- ReadAll resp ;;
    ret (Some (Errorf "file deletion failed with status %s: %s"
                      [S_ (http.Status resp); S_ (string_of_bytes body)]))
  else
  _ <- Printf ("File with ID %s deleted successfully." ++ LF) [S_ fileID] ;;
  ret None.

End Functions.

End part_000.

(** ** unnamed/part_001: assistants *)

Module part_001.

(** Assistant represents an individual assistant's information *)
Definition Assistant : gotype :=
  TStruct [ field "ID" TString "id";
            field "Name" TString "name";
            field "Model" TString "model";
            field "CreatedAt" TInt64 "created_at";
            field "Status" TString "status";
            field "Description" TString "description" ].

Definition RankingOptions : gotype :=
  TStruct [ field "Ranker" TString "ranker,omitempty";
            field "ScoreThreshold" TFloat64 "score_threshold" ].

Definition FileSearchConfig : gotype :=
  TStruct [ field "MaxNumResults" TInt "max_num_results,omitempty";
            field "RankingOptions" (TPtr RankingOptions)
                  "ranking_options,omitempty" ].

Definition CodeInterpreterConfig : gotype :=
  TStruct [ field "FileIDs" (TSlice TString) "file_ids,omitempty" ].

Definition Tool : gotype :=
  TStruct [ field "Type" TString "type";
            field "FileSearch" (TPtr FileSearchConfig) "file_search,omitempty";
            field "CodeInterpreter" (TPtr CodeInterpreterConfig)
                  "code_interpreter,omitempty" ].

Definition CreateAssistantParams : gotype :=
  TStruct [ field "Name" TString "name,omitempty";
            field "Description" TString "description,omitempty";
            field "Model" TString "model";
            field "Instructions" TString "instructions,omitempty";
            field "Tools" (TSlice Tool) "tools,omitempty";
            field "ToolResources" (TMap TInterface) "tool_resources,omitempty";
            field "Temperature" (TPtr TFloat64) "temperature,omitempty";
            field "TopP" (TPtr TFloat64) "top_p,omitempty";
            field "ResponseFormat" TInterface "response_format,omitempty";
            field "Metadata" (TMap TString) "metadata,omitempty" ].

Section Functions.

Context {W : World}.

(** ListAssistants retrieves a list of all assistants *)
Definition ListAssistants : IO (goval * option error) :=
  let url := "https://api.openai.com/v1/assistants" in
  try req <- NewRequest "GET" url None
    catch err => (nil_slice, Some (Errorf "failed to create request: %w" [E_ err])) ;;
  req <- Header_Set req "Authorization" ("Bearer " ++ openaiAPIKey) ;;
  req <- Header_Set req "OpenAI-Beta" "assistants=v2" ;;
  try resp <- Do req
    catch err => (nil_slice, Some (Errorf "request failed: %w" [E_ err])) ;;
  if negb (http.StatusCode resp =? http.StatusOK) then
    body <- ReadAll resp ;;
    ret (nil_slice,
         Some (Errorf "retrieving assistants failed with status %s: %s"
                      [S_ (http.Status resp); S_ (string_of_bytes body)]))
  else
  (* Parse the response *)
  let response_t := TStruct [ field "Data" (TSlice Assistant) "data" ] in
  try response <- Decode resp response_t
    catch err => (nil_slice, Some (Errorf "failed to decode response: %w" [E_ err])) ;;
  ret (FieldByName response_t response "Data", None).

(** CreateAssistant creates an assistant with the provided
    configuration; [params] is a value of type
    [*CreateAssistantParams]. *)
Definition CreateAssistant (params : goval)
  : IO (string * option error) :=
  try payloadBytes <- Marshal (TPtr CreateAssistantParams) params
    catch err => ("", Some (Errorf "failed to marshal assistant payload: %w" [E_ err])) ;;
  let url := "https://api.openai.com/v1/assistants" in
  try req <- NewRequest "POST" url (Some payloadBytes)
    catch err => ("", Some (Errorf "failed to create assistant request: %w" [E_ err])) ;;
  req <- Header_Set req "Authorization" ("Bearer " ++ openaiAPIKey) ;;
  req <- Header_Set req "Content-Type" "application/json" ;;
  req <- Header_Set req "OpenAI-Beta" "assistants=v2" ;;
  try resp <- Do req
    catch err => ("", Some (Errorf "assistant request failed: %w" [E_ err])) ;;
  if negb (http.StatusCode resp =? http.StatusOK) then
    body <- ReadAll resp ;;
    ret ("", Some (Errorf "assistant creation failed with status %s: %s"
                          [S_ (http.Status resp); S_ (string_of_bytes body)]))
  else
  try response <- Decode resp (TMap TInterface)
    catch err => ("", Some (Errorf "failed to decode assistant response: %w" [E_ err])) ;;
  (* assistantID, _ := response["id"].(string) *)
  let assistantID :=
    match response with
    | VMap (Some m) =>
        match json.MapIndex m "id" with
        | Some (VInterface (Some (VString s))) => s
        | _ => ""
        end
    | _ => ""
    end in
  _ <- Printf ("Assistant created successfully with ID: %s" ++ LF)
              [S_ assistantID] ;;
  ret (assistantID, None).

(** DeleteAssistant deletes an assistant by its ID *)
Definition DeleteAssistant (assistantID : string) : IO (option error) :=
  let url := fmt.Sprintf "https://api.openai.com/v1/assistants/%s"
                                 [S_ assistantID] in
  try req <- NewRequest "DELETE" url None
    catch err => Some (Errorf "failed to create delete request: %w" [E_ err]) ;;
  req <- Header_Set req "Authorization" ("Bearer " ++ openaiAPIKey) ;;
  req <- Header_Set req "OpenAI-Beta" "assistants=v2" ;;
  try resp <- Do req
    catch err => Some (Errorf "delete request failed: %w" [E_ err]) ;;
  if negb (http.StatusCode resp =? http.StatusOK) then
    body <- ReadAll resp ;;
    ret (Some (Errorf "assistant deletion failed with status %s: %s"
                      [S_ (http.Status resp); S_ (string_of_bytes body)]))
  else
  _ <- Printf ("Assistant with ID %s deleted successfully." ++ LF)
              [S_ assistantID] ;;
  ret None.

End Functions.

End part_001.

(** ** unnamed/part_002: a second messages source *)

Module part_002.

(** ContentText holds the textual content of a message *)
Definition ContentText : gotype :=
  TStruct [ field "Value" TString "value";
            field "Annotations" (TSlice TInterface) "annotations,omitempty" ].

(** MessageContent represents the content structure within a message *)
Definition MessageContent : gotype :=
  TStruct [ field "Type" TString "type";
            field "Text" ContentText "text" ].

(** Message represents a single message in a thread *)
Definition Message : gotype :=
  TStruct [ field "ID" TString "id";
            field "Object" TString "object";
            field "CreatedAt" TInt64 "created_at";
            field "AssistantID" (TPtr TString) "assistant_id,omitempty";
            field "ThreadID" TString "thread_id";
            field "RunID" (TPtr TString) "run_id,omitempty";
            field "Role" TString "role";
            field "Content" (TSlice MessageContent) "content";
            field "Attachments" (TSlice TInterface) "attachments,omitempty";
            field "Metadata" (TMap TInterface) "metadata,omitempty" ].

Section Functions.

Context {W : World}.

(** ListMessages retrieves a list of messages from a given thread with
    optional query parameters *)
Definition ListMessages (threadID : string) (limit : Z)
           (order after before runID : string)
  : IO (goval * option error) :=
  let url := fmt.Sprintf
               "https://api.openai.com/v1/threads/%s/messages"
               [S_ threadID] in
  try req <- NewRequest "GET" url None
    catch err => (nil_slice, Some (Errorf "failed to create request to list messages: %w" [E_ err])) ;;
  (* Set query parameters based on provided values *)
  let q := url_ParseQuery (url.RawQuery (http.URL req)) in
  let q := if 0 <? limit
           then url.Add q "limit" (fmt.Sprintf "%d" [D_ limit])
           else q in
  let q := if negb (String.eqb order "") then url.Add q "order" order else q in
  let q := if negb (String.eqb after "") then url.Add q "after" after else q in
  let q := if negb (String.eqb before "") then url.Add q "before" before else q in
  let q := if negb (String.eqb runID "") then url.Add q "run_id" runID else q in
  let req := http.set_RawQuery req (url_Encode q) in
  req <- Header_Set req "Authorization" ("Bearer " ++ openaiAPIKey) ;;
  req <- Header_Set req "Content-Type" "application/json" ;;
  req <- Header_Set req "OpenAI-Beta" "assistants=v2" ;;
  try resp <- Do req
    catch err => (nil_slice, Some (Errorf "request to list messages failed: %w" [E_ err])) ;;
  if negb (http.StatusCode resp =? http.StatusOK) then
    body <- ReadAll resp ;;
    ret (nil_slice,
         Some (Errorf "failed to list messages with status %s: %s"
                      [S_ (http.Status resp); S_ (string_of_bytes body)]))
  else
  let result_t := TStruct [ field "Data" (TSlice Message) "data" ] in
  try result <- Decode resp result_t
    catch err => (nil_slice, Some (Errorf "failed to decode messages response: %w" [E_ err])) ;;
  ret (FieldByName result_t result "Data", None).

End Functions.

End part_002.

(** * The client functions, taken together *)

(** A call of one of the package's exported request functions. *)
Inductive client_call : Type :=
| files_UploadFile (path : string)
| files_UploadContent (path : string) (content : bytes)
| files_ListFiles
| files_RetrieveFile (fileID : string)
| files_DeleteFile (fileID : string)
| files_CreateVectorStoreFile (vectorStoreID fileID : string)
                              (chunkingStrategy : goval)
| files_ListVectorStoreFiles (vectorStoreID : string)
| files_RetrieveVectorStoreFile (vectorStoreID fileID : string)
| files_DeleteVectorStoreFile (vectorStoreID fileID : string)
| files_CreateThread (params : goval)
| message_CreateMessage (params : message.CreateMessageParams)
| message_ListMessages (threadID : string) (limit : Z)
                       (order after before runID : string)
| run_CreateRun (threadID : string) (params : goval) (include : list string)
| run_RetrieveRun (threadID runID : string)
| embeddings_CreateEmbedding (filePath : string)
| embeddings_CreateVectorForFile (filePath : string)
| vectorstore_CreateVectorStore (params : goval)
| vectorstore_ListVectorStores (limit : Z) (order after before : string)
| vectorstore_RetrieveVectorStore (vectorStoreID : string)
| vectorstore_DeleteVectorStore (vectorStoreID : string)
| part_000_UploadFile (filePath : string)
| part_000_ListFiles
| part_000_RetrieveFile (fileID : string)
| part_000_DeleteFile (fileID : string)
| part_001_ListAssistants
| part_001_CreateAssistant (params : goval)
| part_001_DeleteAssistant (assistantID : string)
| part_002_ListMessages (threadID : string) (limit : Z)
                        (order after before runID : string).

(** What a function hands back beside its [error]. *)
Inductive returned : Type :=
| a_string (s : string)       (* a function returning a string and an error *)
| a_value (v : goval)         (* one returning a pointer or a slice, and an error *)
| nothing.                    (* one returning an error only *)

Definition outcome : Type := (returned * option error)%type.

(** The result returned along with an error: the empty string, the nil
    pointer, the nil slice. *)
Definition no_result (r : returned) : bool :=
  match r with
  | a_string EmptyString => true
  | a_value (VPtr None) => true
  | a_value (VSlice None) => true
  | nothing => true
  | _ => false
  end.

Definition with_string (m : IO (string * option error)) : IO outcome :=
  x <- m ;; ret (a_string (fst x), snd x).

Definition with_value (m : IO (goval * option error)) : IO outcome :=
  x <- m ;; ret (a_value (fst x), snd x).

Definition with_nothing (m : IO (option error)) : IO outcome :=
  x <- m ;; ret (nothing, x).

Definition exec {W : World} (c : client_call) : IO outcome :=
  match c with
  | files_UploadFile path => with_string (files.UploadFile path)
  | files_UploadContent path content =>
      with_string (files.UploadContent path content)
  | files_ListFiles => with_value files.ListFiles
  | files_RetrieveFile fileID => with_value (files.RetrieveFile fileID)
  | files_DeleteFile fileID => with_nothing (files.DeleteFile fileID)
  | files_CreateVectorStoreFile vectorStoreID fileID chunkingStrategy =>
      with_value (vector_store_file.CreateVectorStoreFile
                    vectorStoreID fileID chunkingStrategy)
  | files_ListVectorStoreFiles vectorStoreID =>
      with_value (vector_store_file.ListVectorStoreFiles vectorStoreID)
  | files_RetrieveVectorStoreFile vectorStoreID fileID =>
      with_value (vector_store_file.RetrieveVectorStoreFile vectorStoreID fileID)
  | files_DeleteVectorStoreFile vectorStoreID fileID =>
      with_nothing (vector_store_file.DeleteVectorStoreFile vectorStoreID fileID)
  | files_CreateThread params => with_value (thread.CreateThread params)
  | message_CreateMessage params => with_value (message.CreateMessage params)
  | message_ListMessages threadID limit order after before runID =>
      with_value (message.ListMessages threadID limit order after before runID)
  | run_CreateRun threadID params include =>
      with_value (run.CreateRun threadID params include)
  | run_RetrieveRun threadID runID =>
      with_value (run.RetrieveRun threadID runID)
  | embeddings_CreateEmbedding filePath =>
      with_string (embeddings.CreateEmbedding filePath)
  | embeddings_CreateVectorForFile filePath =>
      with_string (embeddings.CreateVectorForFile filePath)
  | vectorstore_CreateVectorStore params =>
      with_value (vectorstore.CreateVectorStore params)
  | vectorstore_ListVectorStores limit order after before =>
      with_value (vectorstore.ListVectorStores limit order after before)
  | vectorstore_RetrieveVectorStore vectorStoreID =>
      with_value (vectorstore.RetrieveVectorStore vectorStoreID)
  | vectorstore_DeleteVectorStore vectorStoreID =>
      with_nothing (vectorstore.DeleteVectorStore vectorStoreID)
  | part_000_UploadFile filePath => with_string (part_000.UploadFile filePath)
  | part_000_ListFiles => with_value part_000.ListFiles
  | part_000_RetrieveFile fileID => with_value (part_000.RetrieveFile fileID)
  | part_000_DeleteFile fileID => with_nothing (part_000.DeleteFile fileID)
  | part_001_ListAssistants => with_value part_001.ListAssistants
  | part_001_CreateAssistant params =>
      with_string (part_001.CreateAssistant params)
  | part_001_DeleteAssistant assistantID =>
      with_nothing (part_001.DeleteAssistant assistantID)
  | part_002_ListMessages threadID limit order after before runID =>
      with_value (part_002.ListMessages threadID limit order after before runID)
  end.

(** ** What the log shows *)

(** The request went on the wire (the package's own [client.Do]), or was
    handed to the third-party client. *)
Definition is_send (e : event) : bool :=
  match call e with
  | call_Do _ | call_CreateEmbeddings _ => true
  | _ => false
  end.

Definition is_decode (e : event) : bool :=
  match call e with
  | call_Decode => true
  | _ => false
  end.

(** The steps of the request pattern, and the step each call belongs to;
    the message printed after a success comes last. *)
Inductive step : Type :=
| BuildRequest | SetHeaders | Send | CheckStatus | DecodeJSON | Report.

Definition step_of (c : libcall) : step :=
  match c with
  | call_ReadFile _ | call_Open _ | call_Copy
  | call_CreateFormField _ | call_CreateFormFile _ _ | call_Write _
  | call_Close | call_Marshal | call_NewRequest _ _ => BuildRequest
  | call_Header_Set _ _ => SetHeaders
  | call_Do _ | call_CreateEmbeddings _ => Send
  | call_ReadAll | call_Unmarshal => CheckStatus
  | call_Decode => DecodeJSON
  | call_Printf _ => Report
  end.

Definition rank (s : step) : nat :=
  match s with
  | BuildRequest => 0
  | SetHeaders => 1
  | Send => 2
  | CheckStatus => 3
  | DecodeJSON => 4
  | Report => 5
  end.

(** The steps of a log come in the order of the pattern. *)
Fixpoint in_order (from : nat) (t : list event) : bool :=
  match t with
  | [] => true
  | e :: r =>
      (from <=? rank (step_of (call e)))%nat
      && in_order (rank (step_of (call e))) r
  end.

(** A call that failed is the last call of the log. *)
Fixpoint stops_at_failure (t : list event) : bool :=
  match t with
  | [] => true
  | e :: r => (if failed e then match r with [] => true | _ => false end
               else true)
              && stops_at_failure r
  end.

Definition has_failure (t : list event) : bool := existsb failed t.

(** The statuses a function accepts. *)
Definition accepts (c : client_call) (status : Z) : bool :=
  match c with
  | message_CreateMessage _ =>
      (status =? http.StatusOK) || (status =? http.StatusCreated)
  | _ => status =? http.StatusOK
  end.

(** A call of the request-building step failed. *)
Definition build_failed (t : list event) : bool :=
  existsb (fun e => failed e && (rank (step_of (call e)) =? 0)%nat) t.

(** The status check, as the specification words it: whatever the
    function, a response whose status is not 200 gives an error and no
    result. *)
Definition checks_status_for_200 {W : World} (c : client_call) : Prop :=
  forall req resp,
    In (call_Do req) (map call (snd (exec c))) ->
    client_Do req = OK resp ->
    http.StatusCode resp <> http.StatusOK ->
    snd (fst (exec c)) <> None /\ no_result (fst (fst (exec c))) = true.

(** ** The two embedding functions *)

Inductive embedder : Type := by_client | by_request.

Definition embedding_id {W : World} (f : embedder) (filePath : string)
  : IO (string * option error) :=
  match f with
  | by_client => embeddings.CreateEmbedding filePath
  | by_request => embeddings.CreateVectorForFile filePath
  end.

(** ** Sample environments *)

(** An environment in which every file holds [content], every URL parses,
    every payload marshals, and the service answers every request with the
    given status and a body that scans as [body]. *)
Definition sample_world (content : bytes) (status : Z)
           (body : option json.value) : World :=
  {| openaiAPIKey := "sk-sample";
     os_ReadFile := fun _ => OK content;
     os_Open := fun _ => OK (OK content);
     randomBoundary := "0123456789abcdef";
     json_Marshal := fun _ _ => OK "{}";
     url_Parse := fun u => OK {| url.address := u; url.RawQuery := "" |};
     url_ParseQuery := fun _ => [];
     url_Encode := fun _ => "";
     client_Do := fun _ => OK {| http.StatusCode := status;
                                 http.Status := strconv.Itoa status;
                                 http.RespBody := "(body)" |};
     json_scan := fun _ => body;
     json_scan_all := fun _ => body;
     strconv_ParseFloat := fun _ => Some 0;
     openai_CreateEmbeddings :=
       fun _ => OK {| openai.Data := [ {| openai.Embedding_ := [0; 0] |} ] |} |}.


Definition sample_params : message.CreateMessageParams :=
  {| message.ThreadID := "thread_1";
     message.Role := "user";
     message.Content := "hello" |}.

(** ** The form the specification describes *)

(** A part of a form: a field with its value, or a file with its name and
    its bytes. *)
Inductive form_part : Type :=
| FormField (name value : string)
| FormFile (name filename : string) (content : bytes).

(** The [multipart/form-data] text of a form (RFC 7578): each part is
    introduced by the boundary line and its headers, and followed by a line
    break; the closing boundary line ends the form.  Quotes and backslashes
    in names are escaped. *)
Definition spec_form_part (boundary : string) (p : form_part) : string :=
  "--" ++ boundary ++ multipart.CRLF
  ++ match p with
     | FormField name value =>
         "Content-Disposition: form-data; name="
           ++ multipart.dquote ++ multipart.escapeQuotes name ++ multipart.dquote
           ++ multipart.CRLF
           ++ multipart.CRLF ++ value
     | FormFile name filename content =>
         "Content-Disposition: form-data; name="
           ++ multipart.dquote ++ multipart.escapeQuotes name ++ multipart.dquote
           ++ "; filename="
           ++ multipart.dquote ++ multipart.escapeQuotes filename ++ multipart.dquote
           ++ multipart.CRLF
           ++ "Content-Type: application/octet-stream" ++ multipart.CRLF
           ++ multipart.CRLF ++ content
     end
  ++ multipart.CRLF.

Definition spec_multipart_form (boundary : string) (parts : list form_part)
  : string :=
  String.concat "" (map (spec_form_part boundary) parts)
  ++ "--" ++ boundary ++ "--" ++ multipart.CRLF.

(** The form [UploadContent] is to send, by the specification. *)
Definition spec_upload_form (boundary path : string) (content : bytes)
  : string :=
  spec_multipart_form boundary
    [ FormField "purpose" "user_data"; FormFile "file" path content ].

(** ** Responses that carry their result under "data" *)

(** The member keys the decoder stores in a field tagged ["data"]: the
    key itself, in any mix of upper and lower case. *)
Definition names_data (key : string) : bool :=
  String.eqb (json.foldName key) "DATA".

(** The values of those members, in the order of the text. *)
Definition data_members (members : list (string * json.value))
  : list json.value :=
  map snd (filter (fun m => names_data (fst m)) members).

(** The element type of the slice a list function returns. *)
Definition list_element (c : client_call) : option gotype :=
  match c with
  | files_ListFiles => Some files.File
  | files_ListVectorStoreFiles _ => Some vector_store_file.VectorStoreFile
  | message_ListMessages _ _ _ _ _ _ => Some message.Message
  | vectorstore_ListVectorStores _ _ _ _ => Some vectorstore.VectorStore
  | part_000_ListFiles => Some part_000.File
  | part_001_ListAssistants => Some part_001.Assistant
  | part_002_ListMessages _ _ _ _ _ _ => Some part_002.Message
  | _ => None
  end.

(** The list functions, as the specification words them: a response with
    status 200 whose body is an object with a ["data"] array gives a slice
    with one element for each element of the array, and a nil error. *)
Definition lists_any_data_array {W : World} (c : client_call) : Prop :=
  forall req resp members elems,
    In (call_Do req) (map call (snd (exec c))) ->
    client_Do req = OK resp ->
    http.StatusCode resp = http.StatusOK ->
    json_scan (http.RespBody resp) = Some (json.Object members) ->
    In ("data", json.Array elems) members ->
    snd (fst (exec c)) = None
    /\ exists vs, fst (fst (exec c)) = a_value (VSlice (Some vs))
                  /\ List.length vs = List.length elems.

(** [CreateMessage], as the specification words it: a response with status
    200 or 201 whose body is valid JSON gives a message and a nil error. *)
Definition returns_message_for_valid_json {W : World}
           (params : message.CreateMessageParams) : Prop :=
  forall req resp j,
    In (call_Do req) (map call (snd (message.CreateMessage params))) ->
    client_Do req = OK resp ->
    http.StatusCode resp = http.StatusOK
    \/ http.StatusCode resp = http.StatusCreated ->
    json_scan (http.RespBody resp) = Some j ->
    snd (fst (message.CreateMessage params)) = None
    /\ exists m, fst (fst (message.CreateMessage params)) = addr m.

(** ** The value and the log of a computation *)

(** [wp m Q]: the computation [m] ends with a value and a log that
    satisfy [Q]. *)
Definition wp {A} (m : IO A) (Q : A -> list event -> Prop) : Prop :=
  Q (fst m) (snd m).

(** * Further views of a run *)

Definition is_printf (e : event) : bool :=
  match call e with
  | call_Printf _ => true
  | _ => false
  end.

(** The names of the files a run read or opened, in order. *)
Fixpoint files_read (t : list event) : list string :=
  match t with
  | [] => []
  | e :: r =>
      match call e with
      | call_ReadFile name | call_Open name => name :: files_read r
      | _ => files_read r
      end
  end.

(** The file a call names, for the functions that take one. *)
Definition file_argument (c : client_call) : option string :=
  match c with
  | files_UploadFile path => Some path
  | embeddings_CreateEmbedding filePath => Some filePath
  | embeddings_CreateVectorForFile filePath => Some filePath
  | part_000_UploadFile filePath => Some filePath
  | _ => None
  end.

(** The functions that delete a resource: they return an [error] only. *)
Definition is_delete (c : client_call) : bool :=
  match c with
  | files_DeleteFile _ | files_DeleteVectorStoreFile _ _
  | vectorstore_DeleteVectorStore _ | part_000_DeleteFile _
  | part_001_DeleteAssistant _ => true
  | _ => false
  end.

(** The functions that set the header [OpenAI-Beta]. *)
Definition sets_beta_header (c : client_call) : bool :=
  match c with
  | files_UploadFile _ | files_UploadContent _ _ | files_ListFiles
  | files_RetrieveFile _ | files_DeleteFile _
  | embeddings_CreateEmbedding _ | embeddings_CreateVectorForFile _
  | part_000_UploadFile _ | part_000_ListFiles | part_000_RetrieveFile _
  | part_000_DeleteFile _ => false
  | _ => true
  end.

(** The root of every URL the package requests. *)
Definition api_root : string := "https://api.openai.com/v1/".

(** The query a list of [include] fields makes: nothing for no field, else
    [?include=f1&include=f2...]. *)
Definition include_query (include : list string) : string :=
  match include with
  | [] => ""
  | first :: rest =>
      "?include=" ++ first
      ++ String.concat "" (map (fun f => "&include=" ++ f) rest)
  end.

(** The parameters a list request carries: those that are given (a
    positive limit, a non-empty string), in the order of the code. *)
Definition given (key value : string) : url.Values :=
  if String.eqb value "" then [] else [(key, [value])].

Definition paging_values (limit : Z) (order after before : string)
  : url.Values :=
  ((if 0 <? limit then [("limit", [strconv.Itoa limit])] else [])
     ++ given "order" order ++ given "after" after ++ given "before" before)%list.

(** A lower-case hexadecimal digit. *)
Definition is_hex_digit (c : ascii) : bool :=
  let b := byte_of c in
  ((48 <=? b) && (b <=? 57)) || ((97 <=? b) && (b <=? 102)).

Fixpoint all_hex (s : string) : bool :=
  match s with
  | EmptyString => true
  | String c r => is_hex_digit c && all_hex r
  end.

(** The loop of [json.decode] that stores the members of an object in a
    map, by name. *)
Section MapLoop.

Variable ParseFloat : string -> option float64.
Variable et : gotype.

Fixpoint object_into_map (ms : list (string * json.value))
         (m : list (string * goval))
         (err : option json.UnmarshalTypeError) {struct ms}
  : list (string * goval) * option json.UnmarshalTypeError :=
  match ms with
  | [] => (m, err)
  | (k, j') :: r =>
      let '(x, e1) := json.decode ParseFloat j' et (zero et) in
      object_into_map r (json.SetMapIndex m k x) (json.saveError err e1)
  end.

End MapLoop.

(** The value of the last member named [key], exactly, if there is one. *)
Definition last_member (key : string) (ms : list (string * json.value))
  : option json.value :=
  fold_left (fun found m => if String.eqb (fst m) key then Some (snd m)
                            else found)
            ms None.

(** A world in which the file opens but cannot be read. *)
Definition sample_world_unreadable : World :=
  {| openaiAPIKey := "sk-sample";
     os_ReadFile := fun _ => Fail (LibraryError "read: is a directory");
     os_Open := fun _ => OK (Fail (LibraryError "read: is a directory"));
     randomBoundary := "0123456789abcdef";
     json_Marshal := fun _ _ => OK "{}";
     url_Parse := fun u => OK {| url.address := u; url.RawQuery := "" |};
     url_ParseQuery := fun _ => [];
     url_Encode := fun _ => "";
     client_Do := fun _ => OK {| http.StatusCode := 200;
                                 http.Status := "200 OK";
                                 http.RespBody := "{}" |};
     json_scan := fun _ => Some (json.Object []);
     json_scan_all := fun _ => Some (json.Object []);
     strconv_ParseFloat := fun _ => Some 0;
     openai_CreateEmbeddings :=
       fun _ => OK {| openai.Data := [ {| openai.Embedding_ := [0; 0] |} ] |} |}.

(** The member keys the decoder stores in a field tagged [tag]: the tag
    itself, in any mix of upper and lower case. *)
Definition names (tag key : string) : bool :=
  String.eqb (json.foldName key) (json.foldName tag).

(** No member of the object is stored in a field tagged [tag]. *)
Definition lacks_member (tag : string) (ms : list (string * json.value))
  : bool :=
  forallb (fun m => negb (names tag (fst m))) ms.


(** The string the decoder leaves in a string field tagged [tag] that held
    [init]: the value of the last member that names the field and is a
    string; a member of that name with another value leaves the field as
    it is. *)
Definition string_member (tag : string) (ms : list (string * json.value))
           (init : string) : string :=
  fold_left (fun cur m => if names tag (fst m)
                          then match snd m with
                               | json.String_ s => s
                               | _ => cur
                               end
                          else cur)
            ms init.

(** The members of the error objects of a response body: those of every
    object under a member named "error", in the order of the text. *)
Definition error_members (j : json.value) : list (string * json.value) :=
  match j with
  | json.Object ms =>
      flat_map (fun m => if names "error" (fst m)
                         then match snd m with
                              | json.Object es => es
                              | _ => []
                              end
                         else [])
               ms
  | _ => []
  end.
(** * Properties *)

Unset Implicit Arguments.

(** ** Test vectors of the library models *)

Example sha1_abc :
  hex.EncodeToString (sha1.Sum "abc")
  = "a9993e364706816aba3e25717850c26c9cd0d89d".
Proof. vm_compute. reflexivity. Qed.

Example sha1_empty :
  hex.EncodeToString (sha1.Sum "")
  = "da39a3ee5e6b4b0d3255bfef95601890afd80709".
Proof. vm_compute. reflexivity. Qed.

Example sha1_two_blocks :
  hex.EncodeToString
    (sha1.Sum "abcdbcdecdefdefgefghfghighijhijkijkljklmklmnlmnomnopnopq")
  = "84983e441c3bd26ebaae4aa1f95129e5e54670f1".
Proof. vm_compute. reflexivity. Qed.

Example ParseInt_examples :
  strconv.ParseInt "120" = Some 120
  /\ strconv.ParseInt "-7" = Some (-7)
  /\ strconv.ParseInt "1.5" = None
  /\ strconv.ParseInt "1e3" = None
  /\ strconv.ParseInt "-" = None
  /\ strconv.ParseInt "9223372036854775807" = Some 9223372036854775807
  /\ strconv.ParseInt "9223372036854775808" = None
  /\ strconv.ParseInt "-9223372036854775808" = Some (-9223372036854775808).
Proof. vm_compute. repeat split. Qed.

Example Sprintf_example :
  fmt.Sprintf "https://api.openai.com/v1/threads/%s/runs/%s"
              [S_ "thread_1"; S_ "run_2"]
  = "https://api.openai.com/v1/threads/thread_1/runs/run_2"
  /\ fmt.Sprintf "%d" [D_ 25] = "25"
  /\ strconv.Itoa 0 = "0"
  /\ strconv.Itoa (-12) = "-12".
Proof. vm_compute. repeat split. Qed.

Example CanonicalHeaderKey_example :
  http.CanonicalHeaderKey "OpenAI-Beta" = "Openai-Beta"
  /\ http.CanonicalHeaderKey "Content-Type" = "Content-Type"
  /\ http.CanonicalHeaderKey "authorization" = "Authorization".
Proof. vm_compute. repeat split. Qed.

Example HasSuffix_examples :
  strings.HasSuffix "src/App.tsx" ".tsx" = true
  /\ strings.TrimSuffix "src/App.tsx" ".tsx" = "src/App"
  /\ strings.HasSuffix "src/App.ts" ".tsx" = false
  /\ strings.HasSuffix "tsx" ".tsx" = false
  /\ strings.TrimSuffix ".tsx" ".tsx" = "".
Proof. vm_compute. repeat split. Qed.

(** Member keys select fields by their tag, exactly or in another letter
    case; unknown members are skipped; null leaves a string alone. *)
Example decode_File_example :
  json.Unmarshal (fun _ => None)
    (json.Object [ ("id", json.String_ "file-1");
                   ("BYTES", json.Number "120");
                   ("purpose", json.Null);
                   ("status", json.String_ "processed") ])
    files.File
  = (VStruct [VString "file-1"; VInt 0; VInt 120; VString ""; VString ""],
     None).
Proof. vm_compute. reflexivity. Qed.

(** A value of the wrong kind is a type error, and decoding goes on. *)
Example decode_type_error_example :
  json.Unmarshal (fun _ => None)
    (json.Object [ ("id", json.Number "1"); ("filename", json.String_ "a.txt") ])
    files.File
  = (VStruct [VString ""; VInt 0; VInt 0; VString "a.txt"; VString ""],
     Some {| json.Value := "number"; json.Type_ := TString |}).
Proof. vm_compute. reflexivity. Qed.

(** Pointers are allocated on the way, and set to nil by null. *)
Example decode_pointer_example :
  json.Unmarshal (fun _ => None)
    (json.Object [ ("assistant_id", json.String_ "asst_1");
                   ("run_id", json.Null);
                   ("content",
                    json.Array
                      [ json.Object
                          [ ("type", json.String_ "text");
                            ("text", json.Object [("value", json.String_ "hi")]) ] ]) ])
    message.Message
  = (VStruct [ VString ""; VString ""; VInt 0; VPtr (Some (VString "asst_1"));
               VString ""; VPtr None; VString "";
               VSlice (Some [ VStruct [ VString "text";
                                        VStruct [VString "hi"; VSlice None] ] ]);
               VSlice None; VMap None ],
     None).
Proof. vm_compute. reflexivity. Qed.

(** The Kelvin sign (bytes E2 84 AA) folds to K, the long s (C5 BF) to S. *)
Example foldName_example :
  json.foldName "dAtA" = "DATA"
  /\ json.foldName (String (ascii_of_Z 226) (String (ascii_of_Z 132)
                      (String (ascii_of_Z 170) "ey"))) = "KEY"
  /\ json.foldName (String (ascii_of_Z 197) (String (ascii_of_Z 191) "tatus"))
     = "STATUS".
Proof. vm_compute. repeat split. Qed.

(** ** Reasoning about a run: the value and the log of a computation *)

Lemma wp_ret {A} (a : A) (Q : A -> list event -> Prop) :
  Q a [] -> wp (ret a) Q.
Proof. exact (fun H => H). Qed.

Lemma wp_bind {A B} (m : IO A) (k : A -> IO B) (Q : B -> list event -> Prop) :
  wp m (fun a t => wp (k a) (fun b t' => Q b (t ++ t')%list)) ->
  wp (bind m k) Q.
Proof.
  unfold wp, bind. destruct m as [a t]. simpl.
  destruct (k a) as [b t']. simpl. exact (fun H => H).
Qed.

Lemma wp_logged_with {A} (c : libcall) (f : A -> bool) (a : A)
      (Q : A -> list event -> Prop) :
  (forall x, x = a -> Q x [{| call := c; failed := f x |}]) ->
  wp (logged_with c f a) Q.
Proof. intros H. apply H. reflexivity. Qed.

Lemma wp_exec {A} (m : IO A) (Q : A -> list event -> Prop) :
  wp m Q -> Q (fst m) (snd m).
Proof. exact (fun H => H). Qed.

Ltac unfold_calls :=
  unfold ReadFile, Open, CreateFormField, CreateFormFile, Write, Copy, Close,
    Marshal, NewRequest, Header_Set, Do, ReadAll, Decode, Unmarshal, Printf,
    CreateEmbeddings, logged, logged_ok.

Ltac unfold_client :=
  unfold exec, with_string, with_value, with_nothing,
    files.UploadFile, files.UploadContent, files.ListFiles, files.RetrieveFile,
    files.DeleteFile,
    vector_store_file.CreateVectorStoreFile,
    vector_store_file.ListVectorStoreFiles,
    vector_store_file.RetrieveVectorStoreFile,
    vector_store_file.DeleteVectorStoreFile,
    thread.CreateThread, message.CreateMessage, message.ListMessages,
    run.CreateRun, run.RetrieveRun,
    embeddings.CreateEmbedding, embeddings.CreateVectorForFile,
    vectorstore.CreateVectorStore, vectorstore.ListVectorStores,
    vectorstore.RetrieveVectorStore, vectorstore.DeleteVectorStore,
    part_000.UploadFile, part_000.ListFiles, part_000.RetrieveFile,
    part_000.DeleteFile,
    part_001.ListAssistants, part_001.CreateAssistant,
    part_001.DeleteAssistant, part_002.ListMessages.

(** One step through a computation: a call is replaced by a variable for
    its result, a branch is split. *)
Ltac io_step :=
  lazymatch goal with
  | |- wp (bind _ _) _ => apply wp_bind
  | |- wp (ret _) _ => apply wp_ret
  | |- wp (logged_with _ _ _) _ =>
      apply wp_logged_with; let x := fresh "x" in
                            let Hx := fresh "Hx" in intros x Hx
  | |- wp (match ?x with _ => _ end) _ => destruct x eqn:?
  | |- wp (let _ := _ in _) _ => cbv zeta
  | |- wp _ _ => cbv beta
  end.

Ltac run_io := unfold_client; unfold_calls; cbv zeta; repeat io_step; cbv beta.

Ltac log_simpl :=
  cbn [app map call failed In fst snd no_result nil_slice nil_ptr addr accepts
       in_order stops_at_failure has_failure build_failed existsb filter
       is_send is_decode step_of rank Nat.leb Nat.eqb andb orb negb is_fail
       List.length].

(** The response a logged request got is the one the function examined. *)
Ltac same_response :=
  match goal with
  | Hdo : client_Do ?r = OK ?resp, Hx : OK ?a = client_Do ?r |- _ =>
      assert (a = resp) by congruence; subst a
  | Hdo : client_Do ?r = OK ?resp, Hx : Fail ?e = client_Do ?r |- _ =>
      congruence
  end.

Ltac split_status :=
  repeat match goal with
         | H : context [Z.eqb ?a ?b] |- _ => destruct (Z.eqb a b)
         end.

Ltac pick_request Hin :=
  repeat match type of Hin with
         | _ \/ _ => destruct Hin as [Hin | Hin]
         end;
  first [ discriminate Hin | contradiction Hin | injection Hin as <- ].

(** ** No retry *)

(** C8: whatever the call and whatever happens to it (transport error,
    refused status, undecodable body), the log of a client function holds
    at most one request sent: the package never sends a request twice. *)
Theorem no_retry (W : World) (c : client_call) :
  (List.length (filter is_send (snd (exec c))) <= 1)%nat.
Proof.
  apply (wp_exec (exec c)
           (fun _ t => (List.length (filter is_send t) <= 1)%nat)).
  destruct c; run_io; log_simpl; lia.
Qed.

(** ** The status check *)

(** C1, as amended: a function that sends its own request returns an error
    and no result unless the response's status is 200 or, for
    [CreateMessage] alone, 201. *)
Theorem status_check (W : World) (c : client_call)
        (req : http.Request) (resp : http.Response) :
  In (call_Do req) (map call (snd (exec c))) ->
  client_Do req = OK resp ->
  accepts c (http.StatusCode resp) = false ->
  snd (fst (exec c)) <> None /\ no_result (fst (fst (exec c))) = true.
Proof.
  revert req resp.
  apply (wp_exec (exec c) (fun out t => forall req resp,
    In (call_Do req) (map call t) ->
    client_Do req = OK resp ->
    accepts c (http.StatusCode resp) = false ->
    snd out <> None /\ no_result (fst out) = true)).
  destruct c; run_io; log_simpl; intros req resp Hin Hdo Hacc;
    first [ split; [ discriminate | reflexivity ]
          | exfalso; pick_request Hin; same_response; split_status;
            discriminate ].
Qed.

(** ** The order of the steps *)


(** A refused request is not sent again. *)
Example one_request_example :
  List.length
    (filter is_send
       (snd (exec (W := sample_world "abc" 500 None) files_ListFiles))) = 1%nat.
Proof. vm_compute. reflexivity. Qed.

(** C1, as the specification words it, fails: [CreateMessage] returns a
    message and a nil error for a response with status 201. *)
Lemma status_check_201_counterexample :
  ~ checks_status_for_200 (W := sample_world "" 201 (Some (json.Object [])))
      (message_CreateMessage sample_params).
Proof.
  intro H.
  assert (Hlog : exists req,
             nth_error (map call (snd (exec (W := sample_world "" 201 (Some (json.Object [])))
                                            (message_CreateMessage sample_params)))) 5
             = Some (call_Do req)).
  { vm_compute. eexists. reflexivity. }
  destruct Hlog as [req Hreq].
  destruct (H req {| http.StatusCode := 201; http.Status := "201";
                     http.RespBody := "(body)" |}) as [Herr _].
  - eapply nth_error_In. exact Hreq.
  - reflexivity.
  - vm_compute. discriminate.
  - apply Herr. vm_compute. reflexivity.
Qed.

Lemma status_check_witness :
  snd (fst (exec (W := sample_world "" 404 None) files_ListFiles)) <> None
  /\ no_result (fst (fst (exec (W := sample_world "" 404 None) files_ListFiles)))
     = true.
Proof.
  assert (Hlog : exists req,
             nth_error (map call (snd (exec (W := sample_world "" 404 None)
                                            files_ListFiles))) 2
             = Some (call_Do req)).
  { vm_compute. eexists. reflexivity. }
  destruct Hlog as [req Hreq].
  apply (@status_check (sample_world "" 404 None) files_ListFiles req
           {| http.StatusCode := 404; http.Status := "404";
              http.RespBody := "(body)" |}).
  - eapply nth_error_In. exact Hreq.
  - reflexivity.
  - reflexivity.
Defined.


(** ** Validation of the parameters of [CreateMessage] *)

(** C7: with an empty [ThreadID], [Role] or [Content], [CreateMessage]
    returns a nil message and a non-nil error, and its log is empty: no
    request is sent (and no other call made), so the service is not
    touched. *)
Theorem CreateMessage_requires_fields
        (W : World) (params : message.CreateMessageParams) :
  message.ThreadID params = "" \/ message.Role params = ""
  \/ message.Content params = "" ->
  fst (fst (message.CreateMessage params)) = nil_ptr
  /\ snd (fst (message.CreateMessage params)) <> None
  /\ filter is_send (snd (message.CreateMessage params)) = []
  /\ snd (message.CreateMessage params) = [].
Proof.
  intros H. unfold message.CreateMessage.
  destruct (String.eqb_spec (message.ThreadID params) "") as [Ht | Ht].
  { cbn. repeat split; discriminate. }
  destruct (String.eqb_spec (message.Role params) "") as [Hr | Hr].
  { cbn. repeat split; discriminate. }
  destruct (String.eqb_spec (message.Content params) "") as [Hc | Hc].
  { cbn. repeat split; discriminate. }
  exfalso. destruct H as [H | [H | H]]; contradiction.
Qed.

Lemma CreateMessage_requires_fields_witness :
  fst (fst (message.CreateMessage
              (W := sample_world "" 200 None)
              {| message.ThreadID := "thread_1"; message.Role := "";
                 message.Content := "hello" |})) = nil_ptr
  /\ snd (fst (message.CreateMessage
                 (W := sample_world "" 200 None)
                 {| message.ThreadID := "thread_1"; message.Role := "";
                    message.Content := "hello" |})) <> None
  /\ filter is_send
       (snd (message.CreateMessage
               (W := sample_world "" 200 None)
               {| message.ThreadID := "thread_1"; message.Role := "";
                  message.Content := "hello" |})) = []
  /\ snd (message.CreateMessage
            (W := sample_world "" 200 None)
            {| message.ThreadID := "thread_1"; message.Role := "";
               message.Content := "hello" |}) = [].
Proof.
  apply (@CreateMessage_requires_fields (sample_world "" 200 None)).
  right. left. reflexivity.
Defined.

(** ** The identifier of an embedding *)

Lemma embedding_id_sha1 (W : World) (f : embedder) (filePath id : string) :
  fst (embedding_id f filePath) = (id, None) ->
  exists content,
    os_ReadFile filePath = OK content
    /\ id = hex.EncodeToString (sha1.Sum content).
Proof.
  revert id.
  apply (wp_exec (embedding_id f filePath) (fun out _ => forall id,
    out = (id, None) ->
    exists content,
      os_ReadFile filePath = OK content
      /\ id = hex.EncodeToString (sha1.Sum content))).
  destruct f; unfold embedding_id; run_io; intros id Hout;
    try discriminate Hout;
    injection Hout as <-;
    match goal with
    | H : OK ?c = os_ReadFile _ |- _ => exists c; split; [ now symmetry | reflexivity ]
    end.
Qed.

(** C3: when [CreateEmbedding] or [CreateVectorForFile] succeeds, the
    identifier it returns is the lower-case hexadecimal SHA-1 digest of the
    content read from the file; hence two successful invocations, of either
    function and in any two environments (whatever vectors the service
    returns), on files of equal content return equal identifiers. *)
Theorem embedding_id_is_content_digest :
  (forall (W : World) (filePath id : string),
      fst (embeddings.CreateEmbedding filePath) = (id, None) ->
      exists content,
        os_ReadFile filePath = OK content
        /\ id = hex.EncodeToString (sha1.Sum content))
  /\ (forall (W : World) (filePath id : string),
         fst (embeddings.CreateVectorForFile filePath) = (id, None) ->
         exists content,
           os_ReadFile filePath = OK content
           /\ id = hex.EncodeToString (sha1.Sum content))
  /\ (forall (W1 W2 : World) (f1 f2 : embedder) (path1 path2 id1 id2 : string)
             (content : bytes),
         @os_ReadFile W1 path1 = OK content ->
         @os_ReadFile W2 path2 = OK content ->
         fst (@embedding_id W1 f1 path1) = (id1, None) ->
         fst (@embedding_id W2 f2 path2) = (id2, None) ->
         id1 = id2).
Proof.
  split; [ | split ].
  - intros W filePath id. apply (@embedding_id_sha1 W by_client).
  - intros W filePath id. apply (@embedding_id_sha1 W by_request).
  - intros W1 W2 f1 f2 path1 path2 id1 id2 content Hr1 Hr2 H1 H2.
    apply embedding_id_sha1 in H1. apply embedding_id_sha1 in H2.
    destruct H1 as [c1 [Hc1 ->]]. destruct H2 as [c2 [Hc2 ->]].
    congruence.
Qed.

Lemma embedding_id_is_content_digest_witness :
  (exists content,
      @os_ReadFile (sample_world "abc" 200 None) "notes.txt" = OK content
      /\ "a9993e364706816aba3e25717850c26c9cd0d89d"
         = hex.EncodeToString (sha1.Sum content))
  /\ fst (@embedding_id
            (sample_world "abc" 200
               (Some (json.Object [("embedding", json.Array [json.Number "1"])])))
            by_request "copy.txt")
     = fst (@embedding_id (sample_world "abc" 200 None) by_client "notes.txt").
Proof.
  split.
  - apply (proj1 embedding_id_is_content_digest
             (sample_world "abc" 200 None) "notes.txt").
    vm_compute. reflexivity.
  - assert (H : "a9993e364706816aba3e25717850c26c9cd0d89d"
                = "a9993e364706816aba3e25717850c26c9cd0d89d").
    { apply (proj2 (proj2 embedding_id_is_content_digest)
               (sample_world "abc" 200
                  (Some (json.Object [("embedding", json.Array [json.Number "1"])])))
               (sample_world "abc" 200 None)
               by_request by_client "copy.txt" "notes.txt" _ _ "abc").
      - reflexivity.
      - reflexivity.
      - vm_compute. reflexivity.
      - vm_compute. reflexivity. }
    vm_compute. reflexivity.
Defined.

(** ** The duplicated declarations *)

(** C2, as the specification words it, fails: the two declarations of
    [File] are not different in structure, nor are the two of [Message]. *)
Lemma duplicate_types_counterexample :
  ~ (type_identical files.File part_000.File = false
     /\ type_identical message.Message part_002.Message = false).
Proof. vm_compute. intros [H _]. discriminate H. Qed.

(** C2, as amended: the declaration of [File] in files.go and the one in
    unnamed/part_000 have the same fields, with the same names, types and
    tags, in the same order, and so have the declarations of [Message] in
    message.go and in unnamed/part_002 (and of the types [Message] is made
    of): each pair is one definition written twice. *)
Theorem duplicate_types_identical :
  type_identical files.File part_000.File = true
  /\ type_identical message.Message part_002.Message = true
  /\ files.File = part_000.File
  /\ message.Message = part_002.Message
  /\ message.MessageContent = part_002.MessageContent
  /\ message.ContentText = part_002.ContentText.
Proof. repeat split. Qed.

(** ** Strings *)

Lemma append_assoc (a b c : string) : (a ++ b) ++ c = a ++ (b ++ c).
Proof. induction a as [| x a IH]; simpl; [ reflexivity | now rewrite IH ]. Qed.

Lemma append_nil_r (a : string) : a ++ "" = a.
Proof. induction a as [| x a IH]; simpl; [ reflexivity | now rewrite IH ]. Qed.

Lemma length_append (a b : string) :
  String.length (a ++ b) = (String.length a + String.length b)%nat.
Proof. induction a as [| x a IH]; simpl; [ reflexivity | now rewrite IH ]. Qed.

Lemma substring_all (s : string) : substring 0 (String.length s) s = s.
Proof. induction s as [| x s IH]; simpl; [ reflexivity | now rewrite IH ]. Qed.

Lemma substring_prefix (a b : string) :
  substring 0 (String.length a) (a ++ b) = a.
Proof.
  induction a as [| x a IH]; simpl.
  - destruct b; reflexivity.
  - now rewrite IH.
Qed.

Lemma substring_suffix (a b : string) (n : nat) :
  substring (String.length a) n (a ++ b) = substring 0 n b.
Proof. induction a as [| x a IH]; simpl; [ reflexivity | exact IH ]. Qed.

(** A string is its first [n] bytes followed by the rest. *)
Lemma substring_split (s : string) : forall n m,
  (n + m = String.length s)%nat ->
  s = substring 0 n s ++ substring n m s.
Proof.
  induction s as [| x s IH]; intros n m H; simpl in H.
  - destruct n; [ | discriminate ]. destruct m; [ | discriminate ]. reflexivity.
  - destruct n as [| n].
    + simpl in H. subst m. simpl. now rewrite substring_all.
    + simpl. f_equal. apply IH. simpl in H. lia.
Qed.

Lemma HasSuffix_append (base suffix : string) :
  strings.HasSuffix (base ++ suffix) suffix = true.
Proof.
  unfold strings.HasSuffix, len. rewrite length_append.
  replace (String.length base + String.length suffix - String.length suffix)%nat
    with (String.length base) by lia.
  rewrite substring_suffix, substring_all, String.eqb_refl.
  rewrite andb_true_r. apply Nat.leb_le. lia.
Qed.

Lemma TrimSuffix_append (base suffix : string) :
  strings.TrimSuffix (base ++ suffix) suffix = base.
Proof.
  unfold strings.TrimSuffix. rewrite HasSuffix_append.
  unfold len. rewrite length_append.
  replace (String.length base + String.length suffix - String.length suffix)%nat
    with (String.length base) by lia.
  apply substring_prefix.
Qed.

(** [HasSuffix] holds exactly of the strings that end in the suffix. *)
Lemma HasSuffix_spec (s suffix : string) :
  strings.HasSuffix s suffix = true <-> exists base, s = base ++ suffix.
Proof.
  split.
  - unfold strings.HasSuffix, len. intros H.
    apply andb_true_iff in H. destruct H as [Hlen Heq].
    apply Nat.leb_le in Hlen. apply String.eqb_eq in Heq.
    exists (substring 0 (String.length s - String.length suffix) s).
    transitivity
      (substring 0 (String.length s - String.length suffix) s
       ++ substring (String.length s - String.length suffix)
                    (String.length suffix) s).
    + apply substring_split. lia.
    + now rewrite Heq.
  - intros [base ->]. apply HasSuffix_append.
Qed.

(** ** The upload form *)

(** The four writes of [UploadContent] and [Close], on the buffer of a new
    writer, leave the text of the two-part form. *)
Lemma writer_builds_form (boundary path : string) (content : bytes)
      (w0 w1 w2 w3 : multipart.Writer) (p0 p2 : multipart.part) (n1 n3 : nat) :
  (w0, OK p0) = multipart.CreateFormField (multipart.NewWriter boundary) "purpose" ->
  (w1, OK n1) = multipart.Write w0 p0 (bytes_of_string "user_data") ->
  (w2, OK p2) = multipart.CreateFormFile w1 "file" path ->
  (w3, OK n3) = multipart.Write w2 p2 content ->
  multipart.w (fst (multipart.Close w3))
  = spec_upload_form boundary path content.
Proof.
  unfold multipart.CreateFormField, multipart.CreateFormFile,
    multipart.CreatePart, multipart.NewWriter.
  intros H0 H1 H2 H3.
  injection H0 as -> ->.
  cbn [multipart.Write multipart.lastpart multipart.parts Nat.eqb multipart.w
       multipart.boundary] in H1.
  injection H1 as -> _.
  cbn [multipart.lastpart multipart.parts multipart.w multipart.boundary] in H2.
  injection H2 as -> ->.
  cbn [multipart.Write multipart.lastpart multipart.parts Nat.eqb multipart.w
       multipart.boundary] in H3.
  injection H3 as -> _.
  unfold spec_upload_form, spec_multipart_form, spec_form_part,
    bytes_of_string.
  cbn [multipart.Close fst multipart.w multipart.boundary map String.concat
       multipart.header_lines].
  replace (multipart.escapeQuotes "purpose") with "purpose" by reflexivity.
  replace (multipart.escapeQuotes "file") with "file" by reflexivity.
  repeat (progress (repeat rewrite append_assoc; cbn [String.append])).
  reflexivity.
Qed.

(** The writes of [UploadContent] on a [bytes.Buffer] do not fail. *)
Ltac multipart_step :=
  match goal with
  | H : (_, _) = multipart.CreateFormField _ _ |- _ =>
      unfold multipart.CreateFormField, multipart.CreatePart,
        multipart.NewWriter in H;
      cbn [multipart.lastpart multipart.parts multipart.w multipart.boundary]
        in H;
      first [ discriminate H | injection H as -> -> ]
  | H : (_, _) = multipart.CreateFormFile _ _ _ |- _ =>
      unfold multipart.CreateFormFile, multipart.CreatePart in H;
      cbn [multipart.lastpart multipart.parts multipart.w multipart.boundary]
        in H;
      first [ discriminate H | injection H as -> -> ]
  | H : (_, _) = multipart.Write _ _ _ |- _ =>
      cbn [multipart.Write multipart.lastpart multipart.parts Nat.eqb
           multipart.w multipart.boundary] in H;
      first [ discriminate H | injection H as -> -> ]
  end.

Ltac parsed_url :=
  match goal with
  | H : OK _ = match url_Parse ?u with _ => _ end |- _ =>
      destruct (url_Parse u) eqn:?; [ injection H as -> | discriminate H ]
  | H : Fail _ = match url_Parse ?u with _ => _ end |- _ =>
      destruct (url_Parse u) eqn:?; [ discriminate H | ]
  end.

Lemma UploadContent_request (W : World) (path : string) (content : bytes) :
  (forall u, url_Parse "https://api.openai.com/v1/files" = OK u ->
             exists req,
               In (call_Do req) (map call (snd (files.UploadContent path content))))
  /\ (forall req,
         In (call_Do req) (map call (snd (files.UploadContent path content))) ->
         http.Method req = "POST"
         /\ http.Header_ req
            = [ ("Authorization", ["Bearer " ++ openaiAPIKey]);
                ("Content-Type",
                 [multipart.FormDataContentType
                    (multipart.NewWriter randomBoundary)]) ]
         /\ http.Body req
            = Some (spec_upload_form randomBoundary path content)).
Proof.
  apply (wp_exec (files.UploadContent path content) (fun _ t =>
    (forall u, url_Parse "https://api.openai.com/v1/files" = OK u ->
               exists req, In (call_Do req) (map call t))
    /\ (forall req,
           In (call_Do req) (map call t) ->
           http.Method req = "POST"
           /\ http.Header_ req
              = [ ("Authorization", ["Bearer " ++ openaiAPIKey]);
                  ("Content-Type",
                   [multipart.FormDataContentType
                      (multipart.NewWriter randomBoundary)]) ]
           /\ http.Body req
              = Some (spec_upload_form randomBoundary path content)))).
  run_io; log_simpl; split;
    first
         [ (* a request was sent: its body is the buffer of the writer *)
           intros req Hin; pick_request Hin; subst; parsed_url;
           cbn [http.Header_Set http.Body http.Method http.Header_];
           (split; [ reflexivity | split ];
            [ repeat multipart_step; reflexivity
            | f_equal; eapply writer_builds_form; eassumption ])
         | intros u Hu; eexists;
           do 10 (first [ left; reflexivity | right ]); fail
         | (* the URL did not parse *)
           intros u Hu; parsed_url; congruence
         | (* a write to the buffer failed: it does not *)
           exfalso; repeat multipart_step; fail ].
Qed.

(** C4: the request [UploadContent] sends (and it sends one whenever the
    URL of the endpoint parses) is a POST whose content type is
    multipart/form-data with the writer's boundary and whose body is the
    multipart form of exactly two parts: the field ["purpose"] with the
    value ["user_data"], then the file part ["file"] whose filename is
    [path] and whose bytes are [content]. *)
Theorem UploadContent_sends_multipart_form
        (W : World) (path : string) (content : bytes) :
  (forall u, url_Parse "https://api.openai.com/v1/files" = OK u ->
             exists req,
               In (call_Do req) (map call (snd (files.UploadContent path content))))
  /\ (forall req,
         In (call_Do req) (map call (snd (files.UploadContent path content))) ->
         http.Method req = "POST"
         /\ http.Header_ req
            = [ ("Authorization", ["Bearer " ++ openaiAPIKey]);
                ("Content-Type",
                 [multipart.FormDataContentType
                    (multipart.NewWriter randomBoundary)]) ]
         /\ http.Body req
            = Some (spec_multipart_form randomBoundary
                      [ FormField "purpose" "user_data";
                        FormFile "file" path content ])).
Proof.
  destruct (UploadContent_request W path content) as [Hsent Hform].
  split.
  - exact Hsent.
  - intros req Hin. destruct (Hform req Hin) as [Hmethod [Hheader Hbody]].
    unfold spec_upload_form in Hbody. auto.
Qed.

Lemma UploadContent_sends_multipart_form_witness :
  exists req,
    In (call_Do req)
       (map call (snd (files.UploadContent (W := sample_world "" 200 None)
                                           "notes.txt" "hello")))
    /\ http.Body req
       = Some (spec_multipart_form "0123456789abcdef"
                 [ FormField "purpose" "user_data";
                   FormFile "file" "notes.txt" "hello" ]).
Proof.
  destruct (@UploadContent_sends_multipart_form
              (sample_world "" 200 None) "notes.txt" "hello") as [Hsent Hform].
  destruct (Hsent {| url.address := "https://api.openai.com/v1/files";
                     url.RawQuery := "" |} eq_refl) as [req Hreq].
  exists req. split; [ exact Hreq | apply (Hform req Hreq) ].
Defined.

(** ** [UploadFile] and the suffix .tsx *)

(** [UploadFile] reads the file at [path], then uploads what it read under
    the name it computes. *)
Lemma UploadFile_log (W : World) (path : string) (content : bytes) :
  os_ReadFile path = OK content ->
  snd (files.UploadFile path)
  = {| call := call_ReadFile path; failed := false |}
      :: snd (files.UploadContent
                (if strings.HasSuffix path ".tsx"
                 then strings.TrimSuffix path ".tsx" ++ ".ts"
                 else path)
                content).
Proof.
  intros Hread.
  unfold files.UploadFile, ReadFile, logged, logged_with, bind.
  rewrite Hread. cbn [is_fail].
  destruct (files.UploadContent _ content) as [v t]. reflexivity.
Qed.

(** C6: [UploadFile] of files.go reads the bytes at the path it is given
    and, whenever the URL of the endpoint parses, sends a request; when the
    path ends in ".tsx" it uploads the bytes under the path with that
    suffix replaced by ".ts", and otherwise under the path unchanged: in
    either case the form it sends has that filename and those bytes. *)
Theorem UploadFile_renames_tsx (W : World) (path : string) (content : bytes) :
  os_ReadFile path = OK content ->
  hd_error (map call (snd (files.UploadFile path))) = Some (call_ReadFile path)
  /\ (forall u,
         url_Parse "https://api.openai.com/v1/files" = OK u ->
         exists req,
           In (call_Do req) (map call (snd (files.UploadFile path))))
  /\ (forall base req,
         path = base ++ ".tsx" ->
         In (call_Do req) (map call (snd (files.UploadFile path))) ->
         In (call_CreateFormFile "file" (base ++ ".ts"))
            (map call (snd (files.UploadFile path)))
         /\ http.Body req
            = Some (spec_multipart_form randomBoundary
                      [ FormField "purpose" "user_data";
                        FormFile "file" (base ++ ".ts") content ]))
  /\ (forall req,
         (forall base, path <> base ++ ".tsx") ->
         In (call_Do req) (map call (snd (files.UploadFile path))) ->
         In (call_CreateFormFile "file" path)
            (map call (snd (files.UploadFile path)))
         /\ http.Body req
            = Some (spec_multipart_form randomBoundary
                      [ FormField "purpose" "user_data";
                        FormFile "file" path content ])).
Proof.
  intros Hread. rewrite (@UploadFile_log W path content Hread).
  split; [ reflexivity | split; [ | split ] ].
  - intros u Hu.
    destruct (proj1 (UploadContent_request W
                       (if strings.HasSuffix path ".tsx"
                        then strings.TrimSuffix path ".tsx" ++ ".ts"
                        else path) content) u Hu) as [req Hreq].
    exists req. right. exact Hreq.
  - intros base req -> Hin.
    rewrite HasSuffix_append, TrimSuffix_append in *.
    cbn [map call In] in Hin. destruct Hin as [Hin | Hin]; [ discriminate | ].
    split.
    + right. revert Hin. apply (wp_exec (files.UploadContent (base ++ ".ts") content)
                                  (fun _ t => In (call_Do req) (map call t) ->
                                              In (call_CreateFormFile "file" (base ++ ".ts"))
                                                 (map call t))).
      run_io; log_simpl; intros Hin;
        first [ do 12 (first [ left; reflexivity | right ]); fail
              | exfalso; pick_request Hin; fail ].
    + apply (proj2 (UploadContent_request W _ content)). exact Hin.
  - intros req Hno Hin.
    destruct (strings.HasSuffix path ".tsx") eqn:Hsuf.
    { apply HasSuffix_spec in Hsuf. destruct Hsuf as [base Hb].
      exfalso. exact (Hno base Hb). }
    cbn [map call In] in Hin. destruct Hin as [Hin | Hin]; [ discriminate | ].
    split.
    + right. revert Hin. apply (wp_exec (files.UploadContent path content)
                                  (fun _ t => In (call_Do req) (map call t) ->
                                              In (call_CreateFormFile "file" path)
                                                 (map call t))).
      run_io; log_simpl; intros Hin;
        first [ do 12 (first [ left; reflexivity | right ]); fail
              | exfalso; pick_request Hin; fail ].
    + apply (proj2 (UploadContent_request W _ content)). exact Hin.
Qed.

Lemma UploadFile_renames_tsx_witness :
  (* a path that ends in .tsx *)
  (exists req,
      In (call_Do req)
         (map call (snd (files.UploadFile (W := sample_world "export {}" 200 None)
                                          "src/App.tsx")))
      /\ In (call_CreateFormFile "file" "src/App.ts")
            (map call (snd (files.UploadFile (W := sample_world "export {}" 200 None)
                                             "src/App.tsx")))
      /\ http.Body req
         = Some (spec_multipart_form "0123456789abcdef"
                   [ FormField "purpose" "user_data";
                     FormFile "file" "src/App.ts" "export {}" ]))
  (* a path that does not *)
  /\ (exists req,
         In (call_Do req)
            (map call (snd (files.UploadFile (W := sample_world "hello" 200 None)
                                             "notes.txt")))
         /\ In (call_CreateFormFile "file" "notes.txt")
               (map call (snd (files.UploadFile (W := sample_world "hello" 200 None)
                                                "notes.txt")))
         /\ http.Body req
            = Some (spec_multipart_form "0123456789abcdef"
                      [ FormField "purpose" "user_data";
                        FormFile "file" "notes.txt" "hello" ])).
Proof.
  split.
  - destruct (@UploadFile_renames_tsx (sample_world "export {}" 200 None)
                "src/App.tsx" "export {}" eq_refl)
      as [_ [Hsent [Htsx _]]].
    destruct (Hsent {| url.address := "https://api.openai.com/v1/files";
                       url.RawQuery := "" |} eq_refl) as [req Hreq].
    exists req. split; [ exact Hreq | ].
    exact (Htsx "src/App" req eq_refl Hreq).
  - destruct (@UploadFile_renames_tsx (sample_world "hello" 200 None)
                "notes.txt" "hello" eq_refl)
      as [_ [Hsent [_ Hother]]].
    destruct (Hsent {| url.address := "https://api.openai.com/v1/files";
                       url.RawQuery := "" |} eq_refl) as [req Hreq].
    exists req. split; [ exact Hreq | ].
    apply (Hother req); [ | exact Hreq ].
    intros base Hb.
    assert (Hsuf : strings.HasSuffix "notes.txt" ".tsx" = true).
    { rewrite Hb. apply HasSuffix_append. }
    vm_compute in Hsuf. discriminate Hsuf.
Defined.

(** ** The decoder on the shapes of the package's responses *)

Section DecoderFacts.

Variable ParseFloat : string -> option float64.

Lemma decode_Array_slice (es : list json.value) (et : gotype) (v : goval) :
  json.decode ParseFloat (json.Array es) (TSlice et) v
  = let '(vs, err) :=
      json.array_into_slice ParseFloat et es
        match v with VSlice (Some l) => l | _ => [] end in
    (VSlice (Some vs), err).
Proof. reflexivity. Qed.

Lemma decode_Object_struct (ms : list (string * json.value))
      (fs : list field_decl) (v : goval) :
  json.decode ParseFloat (json.Object ms) (TStruct fs) v
  = let '(fv, err) :=
      json.object_into_struct ParseFloat fs ms
        match v with VStruct l => l | _ => [] end None in
    (VStruct fv, err).
Proof. reflexivity. Qed.

(** Elements that decode one by one decode as an array, in order. *)
Lemma array_into_nil_slice (et : gotype) (es : list json.value)
      (vs : list goval) :
  Forall2 (fun e v => json.Unmarshal ParseFloat e et = (v, None)) es vs ->
  json.array_into_slice ParseFloat et es [] = (vs, None).
Proof.
  induction 1 as [| e v es vs He _ IH]; cbn [json.array_into_slice hd tl].
  - reflexivity.
  - unfold json.Unmarshal in He. rewrite He, IH. reflexivity.
Qed.

Lemma find_field_data (t : gotype) (key : string) :
  json.find_field [field "Data" t "data"] key
  = if names_data key then Some (O, t) else None.
Proof.
  unfold json.find_field, names_data, json.index_where, json.key_is,
    json.key_folds_to, json.field_key, fd_tag, fd_name, fd_type, field.
  cbn [fst snd].
  change (String.eqb "data" "-") with false.
  change (json.tag_name "data") with "data".
  change (String.eqb "data" "") with false.
  cbn iota.
  change (json.foldName "data") with "DATA".
  destruct (String.eqb_spec "data" key) as [<- | Hne].
  - reflexivity.
  - rewrite (String.eqb_sym "DATA").
    destruct (String.eqb (json.foldName key) "DATA"); reflexivity.
Qed.

(** An object with a single member named "data" decodes into the struct
    with the one field [Data]: the member's value goes into the field and
    the other members are skipped. *)
Lemma object_into_data_field (t : gotype) (ms : list (string * json.value)) :
  forall (x : goval) (err : option json.UnmarshalTypeError),
    (data_members ms = [] ->
     json.object_into_struct ParseFloat [field "Data" t "data"] ms [x] err
     = ([x], err))
    /\ (forall j v,
           data_members ms = [j] ->
           json.decode ParseFloat j t x = (v, None) ->
           json.object_into_struct ParseFloat [field "Data" t "data"] ms [x] err
           = ([v], err)).
Proof.
  induction ms as [| [k j'] ms IH]; intros x err.
  - split; [ reflexivity | discriminate ].
  - cbn [json.object_into_struct]. rewrite find_field_data.
    unfold data_members in *. cbn [filter fst].
    destruct (names_data k); cbn [map snd].
    + split; [ discriminate | ].
      intros j v Hms Hj. injection Hms as -> Hrest.
      cbn [nth]. rewrite Hj. cbn [json.set_nth].
      rewrite (proj1 (IH v (json.saveError err None)) Hrest).
      destruct err; reflexivity.
    + apply IH.
Qed.

Lemma Unmarshal_data_object (t : gotype) (ms : list (string * json.value))
      (j : json.value) (v : goval) :
  data_members ms = [j] ->
  json.Unmarshal ParseFloat j t = (v, None) ->
  json.Unmarshal ParseFloat (json.Object ms) (TStruct [field "Data" t "data"])
  = (VStruct [v], None).
Proof.
  intros Hms Hj. unfold json.Unmarshal in *.
  rewrite decode_Object_struct.
  cbn [zero map fst snd field].
  rewrite (proj2 (object_into_data_field t ms (zero t) None) j v Hms Hj).
  reflexivity.
Qed.

Lemma Unmarshal_array (et : gotype) (es : list json.value) (vs : list goval) :
  Forall2 (fun e v => json.Unmarshal ParseFloat e et = (v, None)) es vs ->
  json.Unmarshal ParseFloat (json.Array es) (TSlice et)
  = (VSlice (Some vs), None).
Proof.
  intros H. unfold json.Unmarshal. rewrite decode_Array_slice.
  cbn [zero]. rewrite (array_into_nil_slice et es vs H). reflexivity.
Qed.

End DecoderFacts.

(** ** Results decoded from the response *)

Ltac decoded_response Hscan Hdec :=
  match goal with
  | H : _ = match json_scan _ with _ => _ end |- _ =>
      unfold vector_store_file.VectorStoreFileListResponse,
        vectorstore.VectorStoreListResponse in *;
      rewrite Hscan, Hdec in H;
      first [ discriminate H | injection H as -> ; reflexivity ]
  end.

Ltac refused_status Hst :=
  match goal with
  | H : _ = true |- _ => rewrite Hst in H; discriminate H
  end.

(** A list function whose response has status 200 and a body that decodes
    without a type error returns the field [Data] of what it decoded. *)
Lemma list_decoded (W : World) (c : client_call) :
  forall T req resp j v,
    list_element c = Some T ->
    In (call_Do req) (map call (snd (exec c))) ->
    client_Do req = OK resp ->
    http.StatusCode resp = http.StatusOK ->
    json_scan (http.RespBody resp) = Some j ->
    json.Unmarshal strconv_ParseFloat j (TStruct [field "Data" (TSlice T) "data"])
    = (v, None) ->
    fst (exec c)
    = (a_value (FieldByName (TStruct [field "Data" (TSlice T) "data"]) v "Data"),
       None).
Proof.
  apply (wp_exec (exec c) (fun out t => forall T req resp j v,
    list_element c = Some T ->
    In (call_Do req) (map call t) ->
    client_Do req = OK resp ->
    http.StatusCode resp = http.StatusOK ->
    json_scan (http.RespBody resp) = Some j ->
    json.Unmarshal strconv_ParseFloat j (TStruct [field "Data" (TSlice T) "data"])
    = (v, None) ->
    out
    = (a_value (FieldByName (TStruct [field "Data" (TSlice T) "data"]) v "Data"),
       None))).
  destruct c;
    try (intros T req resp j v HT; discriminate HT);
    run_io; log_simpl;
    intros T req resp j v HT Hin Hdo Hst Hscan Hdec;
    cbn [list_element] in HT; injection HT as <-;
    pick_request Hin; same_response;
    first [ refused_status Hst | decoded_response Hscan Hdec ].
Qed.

Lemma message_decoded (W : World) (params : message.CreateMessageParams) :
  forall req resp j v,
    In (call_Do req) (map call (snd (message.CreateMessage params))) ->
    client_Do req = OK resp ->
    http.StatusCode resp = http.StatusOK
    \/ http.StatusCode resp = http.StatusCreated ->
    json_scan (http.RespBody resp) = Some j ->
    json.Unmarshal strconv_ParseFloat j
                   (TStruct [field "Data" message.Message "data"])
    = (v, None) ->
    fst (message.CreateMessage params)
    = (addr (FieldByName (TStruct [field "Data" message.Message "data"]) v "Data"),
       None).
Proof.
  apply (wp_exec (message.CreateMessage params) (fun out t => forall req resp j v,
    In (call_Do req) (map call t) ->
    client_Do req = OK resp ->
    http.StatusCode resp = http.StatusOK
    \/ http.StatusCode resp = http.StatusCreated ->
    json_scan (http.RespBody resp) = Some j ->
    json.Unmarshal strconv_ParseFloat j
                   (TStruct [field "Data" message.Message "data"])
    = (v, None) ->
    out
    = (addr (FieldByName (TStruct [field "Data" message.Message "data"]) v "Data"),
       None))).
  run_io; log_simpl;
    intros req resp j v Hin Hdo Hst Hscan Hdec;
    pick_request Hin; same_response;
    first [ destruct Hst as [Hst | Hst]; refused_status Hst
          | decoded_response Hscan Hdec ].
Qed.

(** *** The list functions *)

(** C5, as the specification words it, fails: on a 200 response whose body
    is [{"data": [1]}] (an object with a ["data"] array), [ListFiles]
    returns an error, since the number does not decode into a [File]. *)
Lemma list_data_array_counterexample :
  ~ lists_any_data_array
      (W := sample_world "" 200
              (Some (json.Object [("data", json.Array [json.Number "1"])])))
      files_ListFiles.
Proof.
  intro H.
  assert (Hlog : exists req,
             nth_error
               (map call
                    (snd (exec (W := sample_world "" 200
                                       (Some (json.Object
                                                [("data", json.Array [json.Number "1"])])))
                               files_ListFiles))) 2
             = Some (call_Do req)).
  { vm_compute. eexists. reflexivity. }
  destruct Hlog as [req Hreq].
  destruct (H req {| http.StatusCode := 200; http.Status := "200";
                     http.RespBody := "(body)" |}
              [("data", json.Array [json.Number "1"])] [json.Number "1"])
    as [Herr _].
  - eapply nth_error_In. exact Hreq.
  - reflexivity.
  - reflexivity.
  - reflexivity.
  - left. reflexivity.
  - vm_compute in Herr. discriminate Herr.
Qed.

(** A second member whose name differs from "data" only in letter case is
    decoded into the same field: here it makes [ListFiles] fail. *)
Example list_second_data_member_example :
  snd (fst (exec (W := sample_world "" 200
                         (Some (json.Object [ ("data", json.Array []);
                                              ("Data", json.Number "5") ])))
                 files_ListFiles))
  = Some (Errorf "failed to decode response: %w"
                 [E_ (TypeError {| json.Value := "number";
                                   json.Type_ := TSlice files.File |})]).
Proof. vm_compute. reflexivity. Qed.

(** C5, as amended: each list function ([ListFiles], [ListAssistants],
    [ListMessages], [ListVectorStores], [ListVectorStoreFiles], and the
    second [ListFiles] and [ListMessages]), given a response with status
    200 whose body is a JSON object with exactly one member named "data"
    (in any letter case), an array whose elements each decode into the
    element type without a type error, returns exactly the decoded
    elements, in the order of the array, and a nil error. *)
Theorem list_returns_decoded_data
        (W : World) (c : client_call) (T : gotype)
        (req : http.Request) (resp : http.Response)
        (members : list (string * json.value)) (elems : list json.value)
        (vs : list goval) :
  list_element c = Some T ->
  In (call_Do req) (map call (snd (exec c))) ->
  client_Do req = OK resp ->
  http.StatusCode resp = http.StatusOK ->
  json_scan (http.RespBody resp) = Some (json.Object members) ->
  data_members members = [json.Array elems] ->
  Forall2 (fun e v => json.Unmarshal strconv_ParseFloat e T = (v, None))
          elems vs ->
  fst (exec c) = (a_value (VSlice (Some vs)), None).
Proof.
  intros HT Hin Hdo Hst Hscan Hdata Helems.
  rewrite (list_decoded W c T req resp (json.Object members)
             (VStruct [VSlice (Some vs)]) HT Hin Hdo Hst Hscan).
  - reflexivity.
  - apply (Unmarshal_data_object strconv_ParseFloat (TSlice T) members
             (json.Array elems) (VSlice (Some vs)) Hdata).
    apply Unmarshal_array. exact Helems.
Qed.

Lemma list_returns_decoded_data_witness :
  fst (exec (W := sample_world "" 200
                    (Some (json.Object
                             [("object", json.String_ "list");
                              ("data",
                               json.Array
                                 [json.Object [("id", json.String_ "file-1");
                                               ("bytes", json.Number "120")];
                                  json.Object [("id", json.String_ "file-2")]])])))
            files_ListFiles)
  = (a_value
       (VSlice (Some [ VStruct [VString "file-1"; VInt 0; VInt 120;
                                VString ""; VString ""];
                       VStruct [VString "file-2"; VInt 0; VInt 0;
                                VString ""; VString ""] ])),
     None).
Proof.
  assert (Hlog : exists req,
             nth_error
               (map call
                    (snd (exec (W := sample_world "" 200
                    (Some (json.Object
                             [("object", json.String_ "list");
                              ("data",
                               json.Array
                                 [json.Object [("id", json.String_ "file-1");
                                               ("bytes", json.Number "120")];
                                  json.Object [("id", json.String_ "file-2")]])])))
                               files_ListFiles))) 2
             = Some (call_Do req)).
  { vm_compute. eexists. reflexivity. }
  destruct Hlog as [req Hreq].
  eapply (@list_returns_decoded_data _ files_ListFiles files.File req
            {| http.StatusCode := 200; http.Status := "200";
               http.RespBody := "(body)" |}).
  - reflexivity.
  - eapply nth_error_In. exact Hreq.
  - reflexivity.
  - reflexivity.
  - reflexivity.
  - reflexivity.
  - repeat constructor.
Defined.

(** *** [CreateMessage] *)

(** C10, as the specification words it, fails: on a 200 response whose body
    is the valid JSON text [{"data": 5}], [CreateMessage] returns an error
    and no message. *)
Lemma CreateMessage_valid_json_counterexample :
  ~ returns_message_for_valid_json
      (W := sample_world "" 200
              (Some (json.Object [("data", json.Number "5")])))
      sample_params.
Proof.
  intro H.
  assert (Hlog : exists req,
             nth_error
               (map call
                    (snd (message.CreateMessage
                            (W := sample_world "" 200
                                    (Some (json.Object [("data", json.Number "5")])))
                            sample_params))) 5
             = Some (call_Do req)).
  { vm_compute. eexists. reflexivity. }
  destruct Hlog as [req Hreq].
  destruct (H req {| http.StatusCode := 200; http.Status := "200";
                     http.RespBody := "(body)" |}
              (json.Object [("data", json.Number "5")]))
    as [Herr _].
  - eapply nth_error_In. exact Hreq.
  - reflexivity.
  - left. reflexivity.
  - reflexivity.
  - vm_compute in Herr. discriminate Herr.
Qed.

(** C10, as amended: on a response with status 200 or 201 whose body is
    valid JSON that decodes without a type error into the struct with the
    one field [Data] tagged "data", [CreateMessage] returns a pointer to
    that field and a nil error; in particular, when the body is an object
    with exactly one member named "data" whose value decodes into a
    [Message], it returns that message. *)
Theorem CreateMessage_returns_data
        (W : World) (params : message.CreateMessageParams)
        (req : http.Request) (resp : http.Response) :
  In (call_Do req) (map call (snd (message.CreateMessage params))) ->
  client_Do req = OK resp ->
  http.StatusCode resp = http.StatusOK
  \/ http.StatusCode resp = http.StatusCreated ->
  (forall j v,
      json_scan (http.RespBody resp) = Some j ->
      json.Unmarshal strconv_ParseFloat j
                     (TStruct [field "Data" message.Message "data"])
      = (v, None) ->
      fst (message.CreateMessage params)
      = (addr (FieldByName (TStruct [field "Data" message.Message "data"])
                           v "Data"),
         None))
  /\ (forall members j m,
         json_scan (http.RespBody resp) = Some (json.Object members) ->
         data_members members = [j] ->
         json.Unmarshal strconv_ParseFloat j message.Message = (m, None) ->
         fst (message.CreateMessage params) = (addr m, None)).
Proof.
  intros Hin Hdo Hst. split.
  - intros j v Hscan Hdec.
    exact (message_decoded W params req resp j v Hin Hdo Hst Hscan Hdec).
  - intros members j m Hscan Hdata Hdec.
    rewrite (message_decoded W params req resp (json.Object members)
               (VStruct [m]) Hin Hdo Hst Hscan).
    + reflexivity.
    + exact (Unmarshal_data_object strconv_ParseFloat message.Message members
               j m Hdata Hdec).
Qed.

Lemma CreateMessage_returns_data_witness :
  exists m,
    fst (message.CreateMessage
           (W := sample_world "" 201
                   (Some (json.Object
                            [("data",
                              json.Object [("id", json.String_ "msg_1");
                                           ("role", json.String_ "user")])])))
           sample_params)
    = (addr m, None)
    /\ FieldByName message.Message m "ID" = VString "msg_1".
Proof.
  assert (Hlog : exists req,
             nth_error
               (map call
                    (snd (message.CreateMessage
           (W := sample_world "" 201
                   (Some (json.Object
                            [("data",
                              json.Object [("id", json.String_ "msg_1");
                                           ("role", json.String_ "user")])])))
                            sample_params))) 5
             = Some (call_Do req)).
  { vm_compute. eexists. reflexivity. }
  destruct Hlog as [req Hreq].
  eexists. split.
  - eapply (proj2 (@CreateMessage_returns_data _ sample_params req
              {| http.StatusCode := 201; http.Status := "201";
                 http.RespBody := "(body)" |}
              (nth_error_In _ _ Hreq) eq_refl (or_intror eq_refl))).
    + reflexivity.
    + reflexivity.
    + vm_compute. reflexivity.
  - reflexivity.
Defined.

(** * Further properties of the client functions *)

(** ** What a run prints and reads *)

(** X1: a client function prints its message only in a run that succeeds:
    when the log holds a [fmt.Printf], the function returns a nil error,
    and the message is the last call of the run. *)
Theorem prints_only_on_success (W : World) (c : client_call) :
  existsb is_printf (snd (exec c)) = true ->
  snd (fst (exec c)) = None
  /\ option_map is_printf (last (map Some (snd (exec c))) None) = Some true.
Proof.
  apply (wp_exec (exec c) (fun out t =>
    existsb is_printf t = true ->
    snd out = None
    /\ option_map is_printf (last (map Some t) None) = Some true)).
  destruct c; run_io;
    cbn [app map call failed fst snd existsb is_printf orb last option_map];
    first [ discriminate | intros _; split; reflexivity ].
Qed.

Lemma prints_only_on_success_witness :
  snd (fst (exec (W := sample_world "" 200 (Some (json.Object [])))
                 (files_DeleteFile "file-1"))) = None
  /\ option_map is_printf
       (last (map Some (snd (exec (W := sample_world "" 200 (Some (json.Object [])))
                                  (files_DeleteFile "file-1")))) None)
     = Some true.
Proof.
  apply (@prints_only_on_success (sample_world "" 200 (Some (json.Object [])))
                                 (files_DeleteFile "file-1")).
  vm_compute. reflexivity.
Defined.

(** X2: the only file a client function reads or opens is the one it is
    given, and it does so exactly once, whatever happens afterwards; the
    functions that take no file touch none. *)
Theorem reads_only_the_given_file (W : World) (c : client_call) :
  files_read (snd (exec c))
  = match file_argument c with
    | Some path => [path]
    | None => []
    end.
Proof.
  apply (wp_exec (exec c) (fun _ t =>
    files_read t = match file_argument c with
                   | Some path => [path]
                   | None => []
                   end)).
  destruct c; run_io; cbn [app call files_read file_argument]; reflexivity.
Qed.

(** ** The functions that delete *)

Ltac accepted_status :=
  match goal with
  | H : negb (http.StatusCode ?r =? http.StatusOK) = false |- _ =>
      apply negb_false_iff in H; apply Z.eqb_eq in H
  end.

(** X3: a delete function ([DeleteFile], [DeleteVectorStoreFile],
    [DeleteVectorStore], [DeleteAssistant]) returns a nil error exactly
    when its request got a response with status 200; it never decodes the
    body of the response. *)
Theorem delete_succeeds_iff_200 (W : World) (c : client_call) :
  is_delete c = true ->
  (snd (fst (exec c)) = None <->
   exists req resp,
     In (call_Do req) (map call (snd (exec c)))
     /\ client_Do req = OK resp
     /\ http.StatusCode resp = http.StatusOK)
  /\ filter is_decode (snd (exec c)) = []
  /\ fst (fst (exec c)) = nothing.
Proof.
  apply (wp_exec (exec c) (fun out t =>
    is_delete c = true ->
    (snd out = None <->
     exists req resp,
       In (call_Do req) (map call t)
       /\ client_Do req = OK resp
       /\ http.StatusCode resp = http.StatusOK)
    /\ filter is_decode t = []
    /\ fst out = nothing)).
  destruct c; try (intros Hd; discriminate Hd);
    run_io; log_simpl; intros _;
    (split; [ | split; reflexivity ]);
    (split;
     [ intros Hnil;
       first [ discriminate Hnil
             | accepted_status;
               match goal with
               | H : OK ?a = client_Do ?x |- _ =>
                   exists x, a; split; [ tauto | split; [ now symmetry | assumption ] ]
               end ]
     | intros [req [resp [Hin [Hdo Hst]]]];
       first [ reflexivity
             | exfalso; pick_request Hin; same_response;
               match goal with
               | H : negb (_ =? _) = true |- _ => rewrite Hst in H; discriminate H
               end ] ]).
Qed.

Lemma delete_succeeds_iff_200_witness :
  snd (fst (exec (W := sample_world "" 200 None)
                 (vectorstore_DeleteVectorStore "vs_1"))) = None.
Proof.
  assert (Hlog : exists req,
             nth_error (map call (snd (exec (W := sample_world "" 200 None)
                                            (vectorstore_DeleteVectorStore "vs_1")))) 4
             = Some (call_Do req)).
  { vm_compute. eexists. reflexivity. }
  destruct Hlog as [req Hreq].
  apply (proj1 (@delete_succeeds_iff_200 (sample_world "" 200 None)
                  (vectorstore_DeleteVectorStore "vs_1") eq_refl)).
  exists req, {| http.StatusCode := 200; http.Status := "200";
                 http.RespBody := "(body)" |}.
  split; [ eapply nth_error_In; exact Hreq | split; reflexivity ].
Defined.

(** ** The error for a refused status *)

(** X4: when the status of the response is refused, the error a function
    returns carries the status text of the response and the whole of its
    body ([CreateVectorStoreFile], which reads the body as an error
    object first, is treated apart). *)
Theorem refused_status_error_carries_body
        (W : World) (c : client_call)
        (req : http.Request) (resp : http.Response) :
  (forall v f s, c <> files_CreateVectorStoreFile v f s) ->
  In (call_Do req) (map call (snd (exec c))) ->
  client_Do req = OK resp ->
  accepts c (http.StatusCode resp) = false ->
  exists format,
    snd (fst (exec c))
    = Some (Errorf format [ S_ (http.Status resp);
                            S_ (string_of_bytes (http.RespBody resp)) ]).
Proof.
  revert req resp.
  apply (wp_exec (exec c) (fun out t => forall req resp,
    (forall v f s, c <> files_CreateVectorStoreFile v f s) ->
    In (call_Do req) (map call t) ->
    client_Do req = OK resp ->
    accepts c (http.StatusCode resp) = false ->
    exists format,
      snd out
      = Some (Errorf format [ S_ (http.Status resp);
                              S_ (string_of_bytes (http.RespBody resp)) ]))).
  destruct c;
    try (intros req resp Hc; exfalso; exact (Hc _ _ _ eq_refl));
    run_io; log_simpl; intros req resp _ Hin Hdo Hacc;
    pick_request Hin; same_response;
    first [ subst; eexists; reflexivity
          | exfalso; split_status; discriminate ].
Qed.

Lemma refused_status_error_carries_body_witness :
  exists format,
    snd (fst (exec (W := sample_world "" 429 None) (files_RetrieveFile "file-1")))
    = Some (Errorf format [ S_ "429"; S_ "(body)" ]).
Proof.
  assert (Hlog : exists req,
             nth_error (map call (snd (exec (W := sample_world "" 429 None)
                                            (files_RetrieveFile "file-1")))) 3
             = Some (call_Do req)).
  { vm_compute. eexists. reflexivity. }
  destruct Hlog as [req Hreq].
  apply (@refused_status_error_carries_body (sample_world "" 429 None)
           (files_RetrieveFile "file-1") req
           {| http.StatusCode := 429; http.Status := "429";
              http.RespBody := "(body)" |}).
  - intros v f s. discriminate.
  - eapply nth_error_In. exact Hreq.
  - reflexivity.
  - reflexivity.
Defined.

(** ** The headers and the address of a request *)

Lemma set_key_keeps (h : http.Header) (k key value : string) (vs : list string) :
  String.eqb k key = false ->
  In (k, vs) h -> In (k, vs) (http.set_key h key value).
Proof.
  intros Hne. induction h as [| [k' vs'] h IH]; intros Hin.
  - destruct Hin.
  - cbn [http.set_key]. destruct (String.eqb_spec k' key) as [-> | Hk].
    + destruct Hin as [Heq | Hin].
      * injection Heq as -> ->. rewrite String.eqb_refl in Hne. discriminate.
      * right. exact Hin.
    + destruct Hin as [Heq | Hin]; [ left; exact Heq | right; exact (IH Hin) ].
Qed.

Lemma set_key_sets (h : http.Header) (key value : string) :
  In (key, [value]) (http.set_key h key value).
Proof.
  induction h as [| [k' vs'] h IH]; cbn [http.set_key].
  - left. reflexivity.
  - destruct (String.eqb_spec k' key) as [-> | Hk].
    + left. reflexivity.
    + right. exact IH.
Qed.

(** A header that was set stays, under its canonical key, when other keys
    are set after it. *)
Ltac header_kept :=
  cbn [http.Header_Set http.set_RawQuery http.Header_];
  repeat first
    [ apply set_key_sets
    | apply set_key_keeps; [ vm_compute; reflexivity | ] ].

(** X5: every request a client function sends carries the header
    [Authorization: Bearer <openaiAPIKey>], and the functions of the
    assistants interface carry [assistants=v2] under the canonical key
    [Openai-Beta]. *)
Theorem sent_requests_are_authorized
        (W : World) (c : client_call) (req : http.Request) :
  In (call_Do req) (map call (snd (exec c))) ->
  In ("Authorization", ["Bearer " ++ openaiAPIKey]) (http.Header_ req)
  /\ (sets_beta_header c = true ->
      In ("Openai-Beta", ["assistants=v2"]) (http.Header_ req)).
Proof.
  revert req.
  apply (wp_exec (exec c) (fun _ t => forall req,
    In (call_Do req) (map call t) ->
    In ("Authorization", ["Bearer " ++ openaiAPIKey]) (http.Header_ req)
    /\ (sets_beta_header c = true ->
        In ("Openai-Beta", ["assistants=v2"]) (http.Header_ req)))).
  destruct c; run_io; log_simpl; intros req Hin;
    pick_request Hin; subst;
    (split; [ | first [ intros Hb; discriminate Hb | intros _ ] ]);
    header_kept.
Qed.

Lemma sent_requests_are_authorized_witness :
  exists req,
    In (call_Do req)
       (map call (snd (exec (W := sample_world "" 200 None)
                            (run_RetrieveRun "thread_1" "run_1"))))
    /\ In ("Authorization", ["Bearer sk-sample"]) (http.Header_ req)
    /\ In ("Openai-Beta", ["assistants=v2"]) (http.Header_ req).
Proof.
  assert (Hlog : exists req,
             nth_error (map call (snd (exec (W := sample_world "" 200 None)
                                            (run_RetrieveRun "thread_1" "run_1")))) 4
             = Some (call_Do req)).
  { vm_compute. eexists. reflexivity. }
  destruct Hlog as [req Hreq].
  exists req.
  destruct (@sent_requests_are_authorized (sample_world "" 200 None)
              (run_RetrieveRun "thread_1" "run_1") req
              (nth_error_In _ _ Hreq)) as [Hauth Hbeta].
  split; [ eapply nth_error_In; exact Hreq | split ].
  - exact Hauth.
  - apply Hbeta. reflexivity.
Defined.

(** X6: every request a client function constructs is a GET, a POST or a
    DELETE to an address under https://api.openai.com/v1/, whatever the
    identifiers it is given (they are pasted after that root). *)
Theorem requests_go_to_the_api
        (W : World) (c : client_call) (method u : string) :
  In (call_NewRequest method u) (map call (snd (exec c))) ->
  prefix api_root u = true
  /\ (method = "GET" \/ method = "POST" \/ method = "DELETE").
Proof.
  revert method u.
  apply (wp_exec (exec c) (fun _ t => forall method u,
    In (call_NewRequest method u) (map call t) ->
    prefix api_root u = true
    /\ (method = "GET" \/ method = "POST" \/ method = "DELETE"))).
  destruct c;
    try match goal with
        | include : list string |- _ => destruct include
        end;
    run_io; log_simpl; intros method u Hin;
    repeat match type of Hin with
           | _ \/ _ => destruct Hin as [Hin | Hin]
           end;
    first [ discriminate Hin
          | contradiction Hin
          | injection Hin as <- <-;
            (split; [ vm_compute; reflexivity | tauto ]) ].
Qed.

Lemma requests_go_to_the_api_witness :
  prefix api_root "https://api.openai.com/v1/files/../../admin" = true
  /\ ("DELETE" = "GET" \/ "DELETE" = "POST" \/ "DELETE" = "DELETE").
Proof.
  apply (@requests_go_to_the_api (sample_world "" 200 None)
           (files_DeleteFile "../../admin")).
  vm_compute. left. reflexivity.
Defined.

(** ** The addresses of [CreateRun] and of the list functions *)

Lemma include_fold (rest : list string) : forall acc,
  fold_left (fun queryParams field_ => queryParams ++ "&include=" ++ field_)
            rest acc
  = acc ++ String.concat "" (map (fun f => "&include=" ++ f) rest).
Proof.
  induction rest as [| f rest IH]; intros acc; cbn [fold_left map].
  - cbn [String.concat]. now rewrite append_nil_r.
  - rewrite IH. rewrite append_assoc. f_equal.
    destruct rest as [| g rest'].
    + cbn [map String.concat]. now rewrite append_nil_r.
    + cbn [map String.concat]. reflexivity.
Qed.

(** X7: [CreateRun] posts to the runs of the thread; the [include] fields
    make the query [?include=f1&include=f2...], each field pasted as it
    is, and no query at all when there is none. *)
Theorem CreateRun_address
        (W : World) (threadID : string) (params : goval)
        (include : list string) (method u : string) :
  In (call_NewRequest method u)
     (map call (snd (run.CreateRun threadID params include))) ->
  method = "POST"
  /\ u = "https://api.openai.com/v1/threads/" ++ threadID ++ "/runs"
         ++ include_query include.
Proof.
  revert method u.
  apply (wp_exec (run.CreateRun threadID params include) (fun _ t =>
    forall method u,
      In (call_NewRequest method u) (map call t) ->
      method = "POST"
      /\ u = "https://api.openai.com/v1/threads/" ++ threadID ++ "/runs"
             ++ include_query include)).
  run_io; log_simpl; intros method u Hin;
    repeat match type of Hin with
           | _ \/ _ => destruct Hin as [Hin | Hin]
           end;
    first [ discriminate Hin
          | contradiction Hin
          | injection Hin as <- <-; split; [ reflexivity | ] ].
  all: change (fmt.Sprintf "https://api.openai.com/v1/threads/%s/runs"
                          [S_ threadID])
         with ("https://api.openai.com/v1/threads/" ++ threadID ++ "/runs").
  all: destruct include as [| first rest]; cbn [include_query].
  all: rewrite ?include_fold, ?append_assoc, ?append_nil_r; reflexivity.
Qed.

Lemma CreateRun_address_witness :
  "POST" = "POST"
  /\ "https://api.openai.com/v1/threads/thread_1/runs?include=a&include=b"
     = "https://api.openai.com/v1/threads/" ++ "thread_1" ++ "/runs"
         ++ include_query ["a"; "b"].
Proof.
  apply (@CreateRun_address (sample_world "" 200 None) "thread_1" nil_ptr
                            ["a"; "b"]).
  vm_compute. right. left. reflexivity.
Defined.

Lemma NewRequest_inj (m u m' u' : string) :
  call_NewRequest m u = call_NewRequest m' u' -> m = m' /\ u = u'.
Proof. intros H. injection H as -> ->. split; reflexivity. Qed.

Lemma Sprintf_int (n : Z) : fmt.Sprintf "%d" [D_ n] = strconv.Itoa n.
Proof.
  cbn [fmt.Sprintf fmt.operand Ascii.eqb Bool.eqb orb andb].
  apply append_nil_r.
Qed.

Lemma Sprintf_two_strings (a b : string) :
  fmt.Sprintf "%s?%s" [S_ a; S_ b] = a ++ "?" ++ b.
Proof.
  cbn [fmt.Sprintf fmt.operand Ascii.eqb Bool.eqb orb andb].
  rewrite append_nil_r. reflexivity.
Qed.

(** X8: [ListVectorStores] requests the address of the vector stores
    followed by a question mark and the encoded parameters, of which it
    passes exactly those that are given: a limit only when it is positive,
    each of order, after and before only when it is not empty. *)
Theorem ListVectorStores_address
        (W : World) (limit : Z) (order after before : string)
        (method u : string) :
  In (call_NewRequest method u)
     (map call (snd (vectorstore.ListVectorStores limit order after before))) ->
  method = "GET"
  /\ u = "https://api.openai.com/v1/vector_stores" ++ "?"
         ++ url_Encode (paging_values limit order after before).
Proof.
  revert method u.
  apply (wp_exec (vectorstore.ListVectorStores limit order after before)
           (fun _ t => forall method u,
                In (call_NewRequest method u) (map call t) ->
                method = "GET"
                /\ u = "https://api.openai.com/v1/vector_stores" ++ "?"
                       ++ url_Encode (paging_values limit order after before))).
  run_io; log_simpl; intros method u Hin;
    repeat match type of Hin with
           | _ \/ _ => destruct Hin as [Hin | Hin]
           end;
    first [ discriminate Hin
          | contradiction Hin
          | apply NewRequest_inj in Hin; destruct Hin as [<- <-];
            split; [ reflexivity | ] ];
    rewrite Sprintf_two_strings; unfold paging_values, given;
    destruct (0 <? limit), (String.eqb order ""), (String.eqb after ""),
      (String.eqb before ""); reflexivity.
Qed.

Lemma ListVectorStores_address_witness :
  "GET" = "GET"
  /\ "https://api.openai.com/v1/vector_stores?"
     = "https://api.openai.com/v1/vector_stores" ++ "?"
         ++ @url_Encode (sample_world "" 200 None)
              (paging_values 0 "" "vs_9" "").
Proof.
  apply (@ListVectorStores_address (sample_world "" 200 None) 0 "" "vs_9" "").
  vm_compute. left. reflexivity.
Defined.

(** X9: [ListMessages] sends a GET without body to the messages of the
    thread; when the address it parsed has no query of its own, the query
    it sends is the encoding of exactly the parameters that are given, in
    the order limit, order, after, before, run_id. *)
Theorem ListMessages_query
        (W : World) (threadID : string) (limit : Z)
        (order after before runID : string)
        (pu : url.URL) (req : http.Request) :
  url_Parse ("https://api.openai.com/v1/threads/" ++ threadID ++ "/messages")
  = OK pu ->
  url_ParseQuery (url.RawQuery pu) = [] ->
  In (call_Do req)
     (map call (snd (message.ListMessages threadID limit order after before runID))) ->
  http.Method req = "GET"
  /\ http.Body req = None
  /\ http.URL req
     = {| url.address := url.address pu;
          url.RawQuery :=
            url_Encode (paging_values limit order after before
                          ++ given "run_id" runID)%list |}.
Proof.
  intros Hparse Hquery. revert req.
  apply (wp_exec (message.ListMessages threadID limit order after before runID)
           (fun _ t => forall req,
                In (call_Do req) (map call t) ->
                http.Method req = "GET"
                /\ http.Body req = None
                /\ http.URL req
                   = {| url.address := url.address pu;
                        url.RawQuery :=
                          url_Encode (paging_values limit order after before
                                        ++ given "run_id" runID)%list |})).
  run_io; log_simpl; intros req Hin; pick_request Hin; subst.
  all: match goal with
       | H : OK _ = match url_Parse ?u with _ => _ end |- _ =>
           change u
             with ("https://api.openai.com/v1/threads/" ++ threadID ++ "/messages")
             in H;
           rewrite Hparse in H; injection H as ->
       end.
  all: cbn [http.Header_Set http.set_RawQuery http.Method http.Body http.URL
            url.RawQuery url.address].
  all: rewrite Hquery, Sprintf_int; unfold paging_values, given.
  all: destruct (0 <? limit), (String.eqb order ""), (String.eqb after ""),
         (String.eqb before ""), (String.eqb runID "");
    repeat split; reflexivity.
Qed.

Lemma ListMessages_query_witness :
  exists req,
    In (call_Do req)
       (map call (snd (message.ListMessages (W := sample_world "" 200 None)
                                            "thread_1" 20 "desc" "" "" "run_7")))
    /\ http.URL req
       = {| url.address := "https://api.openai.com/v1/threads/thread_1/messages";
            url.RawQuery :=
              @url_Encode (sample_world "" 200 None)
                [ ("limit", ["20"]); ("order", ["desc"]); ("run_id", ["run_7"]) ] |}.
Proof.
  assert (Hlog : exists req,
             nth_error
               (map call (snd (message.ListMessages
                                 (W := sample_world "" 200 None)
                                 "thread_1" 20 "desc" "" "" "run_7"))) 4
             = Some (call_Do req)).
  { vm_compute. eexists. reflexivity. }
  destruct Hlog as [req Hreq].
  exists req. split; [ eapply nth_error_In; exact Hreq | ].
  apply (@ListMessages_query (sample_world "" 200 None)
           "thread_1" 20 "desc" "" "" "run_7"
           {| url.address := "https://api.openai.com/v1/threads/thread_1/messages";
              url.RawQuery := "" |} req eq_refl eq_refl).
  eapply nth_error_In. exact Hreq.
Defined.

(** ** Responses without the member "data" *)

Lemma Unmarshal_object_without_data
      (ParseFloat : string -> option float64) (t : gotype)
      (ms : list (string * json.value)) :
  data_members ms = [] ->
  json.Unmarshal ParseFloat (json.Object ms) (TStruct [field "Data" t "data"])
  = (VStruct [zero t], None).
Proof.
  intros Hms. unfold json.Unmarshal.
  rewrite decode_Object_struct. cbn [zero map fst snd field].
  rewrite (proj1 (object_into_data_field ParseFloat t ms (zero t) None) Hms).
  reflexivity.
Qed.

(** X10: a list function whose 200 response is a JSON object without a
    member named "data", or with the one member ["data": null], returns
    the nil slice and a nil error: the caller cannot tell a response of
    another shape from an empty list. *)
Theorem list_without_data_is_nil
        (W : World) (c : client_call) (T : gotype)
        (req : http.Request) (resp : http.Response)
        (members : list (string * json.value)) :
  list_element c = Some T ->
  In (call_Do req) (map call (snd (exec c))) ->
  client_Do req = OK resp ->
  http.StatusCode resp = http.StatusOK ->
  json_scan (http.RespBody resp) = Some (json.Object members) ->
  data_members members = [] \/ data_members members = [json.Null] ->
  fst (exec c) = (a_value nil_slice, None).
Proof.
  intros HT Hin Hdo Hst Hscan [Hnone | Hnull].
  - rewrite (list_decoded W c T req resp (json.Object members)
               (VStruct [zero (TSlice T)]) HT Hin Hdo Hst Hscan).
    + reflexivity.
    + apply Unmarshal_object_without_data. exact Hnone.
  - rewrite (list_decoded W c T req resp (json.Object members)
               (VStruct [VSlice None]) HT Hin Hdo Hst Hscan).
    + reflexivity.
    + apply (Unmarshal_data_object strconv_ParseFloat (TSlice T) members
               json.Null (VSlice None) Hnull).
      reflexivity.
Qed.

Lemma list_without_data_is_nil_witness :
  fst (exec (W := sample_world "" 200
                    (Some (json.Object
                             [ ("error", json.Object
                                           [("message", json.String_ "no")]) ])))
            part_001_ListAssistants)
  = (a_value nil_slice, None).
Proof.
  assert (Hlog : exists req,
             nth_error
               (map call
                    (snd (exec (W := sample_world "" 200
                    (Some (json.Object
                             [ ("error", json.Object
                                           [("message", json.String_ "no")]) ])))
                               part_001_ListAssistants))) 3
             = Some (call_Do req)).
  { vm_compute. eexists. reflexivity. }
  destruct Hlog as [req Hreq].
  eapply (@list_without_data_is_nil _ part_001_ListAssistants part_001.Assistant
            req {| http.StatusCode := 200; http.Status := "200";
                   http.RespBody := "(body)" |}).
  - reflexivity.
  - eapply nth_error_In. exact Hreq.
  - reflexivity.
  - reflexivity.
  - reflexivity.
  - left. reflexivity.
Defined.

(** X11: when the body of a 200 or 201 response is a JSON object without
    a member named "data" (a message object as such, say), [CreateMessage]
    returns a nil error and a pointer to the zero [Message]: empty
    strings, zero time, nil pointers, slices and map. *)
Theorem CreateMessage_without_data_is_zero
        (W : World) (params : message.CreateMessageParams)
        (req : http.Request) (resp : http.Response)
        (members : list (string * json.value)) :
  In (call_Do req) (map call (snd (message.CreateMessage params))) ->
  client_Do req = OK resp ->
  http.StatusCode resp = http.StatusOK
  \/ http.StatusCode resp = http.StatusCreated ->
  json_scan (http.RespBody resp) = Some (json.Object members) ->
  data_members members = [] ->
  fst (message.CreateMessage params) = (addr (zero message.Message), None).
Proof.
  intros Hin Hdo Hst Hscan Hnone.
  rewrite (message_decoded W params req resp (json.Object members)
             (VStruct [zero message.Message]) Hin Hdo Hst Hscan).
  - reflexivity.
  - apply Unmarshal_object_without_data. exact Hnone.
Qed.

Lemma CreateMessage_without_data_is_zero_witness :
  fst (message.CreateMessage
         (W := sample_world "" 200
                 (Some (json.Object [ ("id", json.String_ "msg_1");
                                      ("object", json.String_ "thread.message");
                                      ("role", json.String_ "user") ])))
         sample_params)
  = (addr (VStruct [ VString ""; VString ""; VInt 0; VPtr None; VString "";
                     VPtr None; VString ""; VSlice None; VSlice None;
                     VMap None ]),
     None).
Proof.
  assert (Hlog : exists req,
             nth_error
               (map call
                    (snd (message.CreateMessage
         (W := sample_world "" 200
                 (Some (json.Object [ ("id", json.String_ "msg_1");
                                      ("object", json.String_ "thread.message");
                                      ("role", json.String_ "user") ])))
                            sample_params))) 5
             = Some (call_Do req)).
  { vm_compute. eexists. reflexivity. }
  destruct Hlog as [req Hreq].
  eapply (@CreateMessage_without_data_is_zero _ sample_params req
            {| http.StatusCode := 200; http.Status := "200";
               http.RespBody := "(body)" |}).
  - eapply nth_error_In. exact Hreq.
  - reflexivity.
  - left. reflexivity.
  - reflexivity.
  - reflexivity.
Defined.

(** ** The form of an embedding identifier *)

Lemma EncodeToString_length (s : bytes) :
  String.length (hex.EncodeToString s) = (2 * String.length s)%nat.
Proof.
  induction s as [| c s IH]; cbn [hex.EncodeToString String.length].
  - reflexivity.
  - rewrite IH. lia.
Qed.

Lemma hex_digits_of_byte (c : ascii) :
  is_hex_digit (hex.digit (Z.shiftr (byte_of c) 4)) = true
  /\ is_hex_digit (hex.digit (Z.land (byte_of c) 15)) = true.
Proof.
  destruct c as [[] [] [] [] [] [] [] []]; vm_compute; split; reflexivity.
Qed.

Lemma EncodeToString_all_hex (s : bytes) :
  all_hex (hex.EncodeToString s) = true.
Proof.
  induction s as [| c s IH]; cbn [hex.EncodeToString all_hex].
  - reflexivity.
  - destruct (hex_digits_of_byte c) as [-> ->]. exact IH.
Qed.

Lemma sha1_Sum_length (data : bytes) : String.length (sha1.Sum data) = 20%nat.
Proof.
  unfold sha1.Sum.
  destruct (sha1.blocks _ _ _) as [[[[h0 h1] h2] h3] h4].
  reflexivity.
Qed.

(** X12: the identifier [CreateEmbedding] or [CreateVectorForFile] returns
    on success is 40 characters long, each a digit or a letter from a to
    f, whatever the file holds. *)
Theorem embedding_id_format
        (W : World) (f : embedder) (filePath id : string) :
  fst (embedding_id f filePath) = (id, None) ->
  String.length id = 40%nat /\ all_hex id = true.
Proof.
  intros H. apply embedding_id_sha1 in H. destruct H as [content [_ ->]].
  split.
  - rewrite EncodeToString_length, sha1_Sum_length. reflexivity.
  - apply EncodeToString_all_hex.
Qed.

Lemma embedding_id_format_witness :
  String.length "da39a3ee5e6b4b0d3255bfef95601890afd80709" = 40%nat
  /\ all_hex "da39a3ee5e6b4b0d3255bfef95601890afd80709" = true.
Proof.
  apply (@embedding_id_format (sample_world "" 200 None) by_client "empty.txt").
  vm_compute. reflexivity.
Defined.

(** ** When [CreateEmbedding] succeeds *)

(** X13: [CreateEmbedding] hands the third-party client one request, for
    the model text-embedding-ada-002 with the whole content of the file as
    its single input, and succeeds exactly when the file could be read,
    the client returned no error and the first entry of the data it
    returned holds a non-empty vector (which is then dropped). *)
Theorem CreateEmbedding_succeeds_iff (W : World) (filePath : string) :
  snd (fst (embeddings.CreateEmbedding filePath)) = None <->
  exists content resp d rest,
    os_ReadFile filePath = OK content
    /\ openai_CreateEmbeddings
         {| openai.Input := [string_of_bytes content];
            openai.Model := "text-embedding-ada-002" |} = OK resp
    /\ openai.Data resp = d :: rest
    /\ openai.Embedding_ d <> [].
Proof.
  apply (wp_exec (embeddings.CreateEmbedding filePath) (fun out _ =>
    snd out = None <->
    exists content resp d rest,
      os_ReadFile filePath = OK content
      /\ openai_CreateEmbeddings
           {| openai.Input := [string_of_bytes content];
              openai.Model := "text-embedding-ada-002" |} = OK resp
      /\ openai.Data resp = d :: rest
      /\ openai.Embedding_ d <> [])).
  run_io; cbn [fst snd]; unfold openai.AdaEmbeddingV2 in *; split;
    try (intros H; discriminate H); try (intros _; reflexivity).
  - (* the data hold no vector *)
    intros [content [resp [d [rest [Hr [Hc [Hd Hne]]]]]]]. exfalso.
    assert (a = content) by congruence; subst a.
    assert (a0 = resp) by congruence; subst a0.
    rewrite Hd in Heqb.
    destruct (openai.Embedding_ d); [ now apply Hne | discriminate Heqb ].
  - (* success *)
    intros _. exists a, a0.
    destruct (openai.Data a0) as [| d rest]; [ discriminate Heqb | ].
    exists d, rest. repeat split; try (symmetry; assumption).
    intros Hempty. rewrite Hempty in Heqb. discriminate Heqb.
  - (* the client returned an error *)
    intros [content [resp [d [rest [Hr [Hc _]]]]]]. exfalso.
    assert (a = content) by congruence; subst a. congruence.
  - (* the file could not be read *)
    intros [content [resp [d [rest [Hr _]]]]]. exfalso. congruence.
Qed.

Lemma CreateEmbedding_succeeds_iff_witness :
  snd (fst (embeddings.CreateEmbedding (W := sample_world "abc" 200 None)
                                       "notes.txt")) = None.
Proof.
  apply (proj2 (@CreateEmbedding_succeeds_iff (sample_world "abc" 200 None)
                  "notes.txt")).
  exists "abc", {| openai.Data := [ {| openai.Embedding_ := [0; 0] |} ] |},
         {| openai.Embedding_ := [0; 0] |}, [].
  repeat split. discriminate.
Defined.

(** ** The second [UploadFile] *)

(** X14: [UploadFile] of unnamed/part_000 opens the file and copies it into
    the form: when the file is read to its end, the request it sends is a
    POST whose body is the two-part form with the path as the filename,
    unchanged whatever its suffix, and the bytes of the file; when reading
    fails, it returns that error and sends nothing. *)
Theorem part_000_UploadFile_form (W : World) (filePath : string) :
  (forall content req,
      os_Open filePath = OK (OK content) ->
      In (call_Do req) (map call (snd (part_000.UploadFile filePath))) ->
      http.Method req = "POST"
      /\ http.Body req
         = Some (spec_multipart_form randomBoundary
                   [ FormField "purpose" "user_data";
                     FormFile "file" filePath content ]))
  /\ (forall e,
         os_Open filePath = OK (Fail e) ->
         fst (part_000.UploadFile filePath)
         = ("", Some (Errorf "failed to write file content to form: %w" [E_ e]))
         /\ filter is_send (snd (part_000.UploadFile filePath)) = []).
Proof.
  apply (wp_exec (part_000.UploadFile filePath) (fun out t =>
    (forall content req,
        os_Open filePath = OK (OK content) ->
        In (call_Do req) (map call t) ->
        http.Method req = "POST"
        /\ http.Body req
           = Some (spec_multipart_form randomBoundary
                     [ FormField "purpose" "user_data";
                       FormFile "file" filePath content ]))
    /\ (forall e,
           os_Open filePath = OK (Fail e) ->
           out = ("", Some (Errorf "failed to write file content to form: %w" [E_ e]))
           /\ filter is_send t = []))).
  run_io; log_simpl; split;
    first
         [ (* a request was sent *)
           intros content req Hopen Hin; pick_request Hin; subst;
           match goal with
           | H : OK ?f = os_Open _ |- _ =>
               rewrite Hopen in H; injection H as ->
           end;
           cbv iota beta in *;
           parsed_url; cbn [http.Header_Set http.Body http.Method];
           (split; [ reflexivity
                   | f_equal;
                     change (spec_multipart_form randomBoundary
                               [ FormField "purpose" "user_data";
                                 FormFile "file" filePath content ])
                       with (spec_upload_form randomBoundary filePath content);
                     match goal with
                     | H : (?w3, OK _) = multipart.Write _ _ content |- _ =>
                         change (multipart.w (fst (multipart.Close w3))
                                 = spec_upload_form randomBoundary filePath
                                     content)
                     end;
                     eapply writer_builds_form; eassumption ])
         | (* reading failed *)
           intros ? Hopen;
           match goal with
           | H : OK ?f = os_Open _ |- _ =>
               rewrite Hopen in H; injection H as ->
           end;
           cbv iota beta in *;
           match goal with
           | H : (_, _) = (_, Fail _) |- _ =>
               first [ discriminate H
                     | injection H as -> ->; split; reflexivity ]
           end
         | (* the file did not open *)
           intros; congruence
         | (* a write to the buffer failed: it does not *)
           exfalso; repeat multipart_step; fail ].
Qed.

Lemma part_000_UploadFile_form_witness :
  (exists req,
      In (call_Do req)
         (map call (snd (part_000.UploadFile
                           (W := sample_world "export {}" 200 None)
                           "src/App.tsx")))
      /\ http.Method req = "POST"
      /\ http.Body req
         = Some (spec_multipart_form "0123456789abcdef"
                   [ FormField "purpose" "user_data";
                     FormFile "file" "src/App.tsx" "export {}" ]))
  /\ fst (part_000.UploadFile (W := sample_world_unreadable) "src")
     = ("", Some (Errorf "failed to write file content to form: %w"
                    [E_ (LibraryError "read: is a directory")]))
  /\ filter is_send (snd (part_000.UploadFile (W := sample_world_unreadable)
                                               "src")) = [].
Proof.
  split.
  - assert (Hlog : exists req,
               nth_error
                 (map call (snd (part_000.UploadFile
                                   (W := sample_world "export {}" 200 None)
                                   "src/App.tsx"))) 9
               = Some (call_Do req)).
    { vm_compute. eexists. reflexivity. }
    destruct Hlog as [req Hreq].
    exists req. split; [ eapply nth_error_In; exact Hreq | ].
    apply (proj1 (@part_000_UploadFile_form
                    (sample_world "export {}" 200 None) "src/App.tsx")
                 "export {}" req eq_refl).
    eapply nth_error_In. exact Hreq.
  - apply (proj2 (@part_000_UploadFile_form sample_world_unreadable "src")
                 (LibraryError "read: is a directory") eq_refl).
Defined.

(** ** The errors of CreateVectorStoreFile *)

Section ErrorResponseFacts.

Variable ParseFloat : string -> option float64.

Lemma names_exclusive (t1 t2 key : string) :
  names t1 key = true ->
  String.eqb (json.foldName t1) (json.foldName t2) = false ->
  names t2 key = false.
Proof.
  unfold names. intros H1 H2. apply String.eqb_eq in H1.
  rewrite H1. exact H2.
Qed.

(** The field of [ErrorResponse.Error] a member key selects. *)
Lemma find_field_Error (key : string) :
  json.find_field
    [ field "Message" TString "message"; field "Type" TString "type";
      field "Param" TString "param"; field "Code" TString "code" ] key
  = if names "message" key then Some (0%nat, TString)
    else if names "type" key then Some (1%nat, TString)
    else if names "param" key then Some (2%nat, TString)
    else if names "code" key then Some (3%nat, TString)
    else None.
Proof.
  unfold json.find_field, json.index_where, json.key_is,
    json.key_folds_to, json.field_key, fd_tag, fd_name, fd_type, field.
  cbn [fst snd].
  change (String.eqb "message" "-") with false.
  change (String.eqb "type" "-") with false.
  change (String.eqb "param" "-") with false.
  change (String.eqb "code" "-") with false.
  change (json.tag_name "message") with "message".
  change (json.tag_name "type") with "type".
  change (json.tag_name "param") with "param".
  change (json.tag_name "code") with "code".
  change (String.eqb "message" "") with false.
  change (String.eqb "type" "") with false.
  change (String.eqb "param" "") with false.
  change (String.eqb "code" "") with false.
  cbn iota.
  destruct (String.eqb_spec "message" key) as [<- | _ ]; [ reflexivity | ].
  destruct (String.eqb_spec "type" key) as [<- | _ ]; [ reflexivity | ].
  destruct (String.eqb_spec "param" key) as [<- | _ ]; [ reflexivity | ].
  destruct (String.eqb_spec "code" key) as [<- | _ ]; [ reflexivity | ].
  unfold names.
  rewrite (String.eqb_sym (json.foldName key) (json.foldName "message")),
    (String.eqb_sym (json.foldName key) (json.foldName "type")),
    (String.eqb_sym (json.foldName key) (json.foldName "param")),
    (String.eqb_sym (json.foldName key) (json.foldName "code")).
  reflexivity.
Qed.

(** A JSON value stored in a string variable: a string replaces the
    content, anything else leaves it. *)
Lemma decode_string (j : json.value) (cur : string) :
  fst (json.decode ParseFloat j TString (VString cur))
  = VString match j with json.String_ s => s | _ => cur end.
Proof.
  destruct j; reflexivity.
Qed.

(** The members of an error object, stored in the four fields. *)
Lemma object_into_Error (es : list (string * json.value)) :
  forall (m t p c : string) (err : option json.UnmarshalTypeError),
    fst (json.object_into_struct ParseFloat
           [ field "Message" TString "message"; field "Type" TString "type";
             field "Param" TString "param"; field "Code" TString "code" ]
           es [ VString m; VString t; VString p; VString c ] err)
    = [ VString (string_member "message" es m);
        VString (string_member "type" es t);
        VString (string_member "param" es p);
        VString (string_member "code" es c) ].
Proof.
  induction es as [ | [k j] r IH ]; intros m t p c err.
  - reflexivity.
  - cbn [json.object_into_struct]. rewrite find_field_Error.
    unfold string_member. cbn [fold_left fst snd].
    fold (string_member "message" r). fold (string_member "type" r).
    fold (string_member "param" r). fold (string_member "code" r).
    destruct (names "message" k) eqn:Em.
    { rewrite (names_exclusive "message" "type" k Em eq_refl),
        (names_exclusive "message" "param" k Em eq_refl),
        (names_exclusive "message" "code" k Em eq_refl).
      cbn [nth zero].
      pose proof (decode_string j m) as Hd.
      destruct (json.decode ParseFloat j TString (VString m)) as [x e1].
      cbn [fst] in Hd. subst x. cbn [json.set_nth]. apply IH. }
    destruct (names "type" k) eqn:Et.
    { rewrite (names_exclusive "type" "param" k Et eq_refl),
        (names_exclusive "type" "code" k Et eq_refl).
      cbn [nth zero].
      pose proof (decode_string j t) as Hd.
      destruct (json.decode ParseFloat j TString (VString t)) as [x e1].
      cbn [fst] in Hd. subst x. cbn [json.set_nth]. apply IH. }
    destruct (names "param" k) eqn:Ep.
    { rewrite (names_exclusive "param" "code" k Ep eq_refl).
      cbn [nth zero].
      pose proof (decode_string j p) as Hd.
      destruct (json.decode ParseFloat j TString (VString p)) as [x e1].
      cbn [fst] in Hd. subst x. cbn [json.set_nth]. apply IH. }
    destruct (names "code" k) eqn:Ec.
    { cbn [nth zero].
      pose proof (decode_string j c) as Hd.
      destruct (json.decode ParseFloat j TString (VString c)) as [x e1].
      cbn [fst] in Hd. subst x. cbn [json.set_nth]. apply IH. }
    apply IH.
Qed.

Lemma string_member_app (tag : string) (es1 es2 : list (string * json.value))
      (init : string) :
  string_member tag (es1 ++ es2)%list init
  = string_member tag es2 (string_member tag es1 init).
Proof. unfold string_member. apply fold_left_app. Qed.

(** The key that selects the field [Error]. *)
Lemma find_field_error (t : gotype) (key : string) :
  json.find_field [field "Error" t "error"] key
  = if names "error" key then Some (O, t) else None.
Proof.
  unfold json.find_field, names, json.index_where, json.key_is,
    json.key_folds_to, json.field_key, fd_tag, fd_name, fd_type, field.
  cbn [fst snd].
  change (String.eqb "error" "-") with false.
  change (json.tag_name "error") with "error".
  change (String.eqb "error" "") with false.
  cbn iota.
  destruct (String.eqb_spec "error" key) as [<- | Hne].
  - reflexivity.
  - rewrite (String.eqb_sym (json.foldName key)).
    destruct (String.eqb (json.foldName "error") (json.foldName key));
      reflexivity.
Qed.

(** A JSON value stored in the field [Error]: the members of an object go
    into the four fields, anything else leaves them. *)
Lemma decode_Error (j : json.value) (m t p c : string) :
  fst (json.decode ParseFloat j vector_store_file.ErrorResponse_Error
         (VStruct [ VString m; VString t; VString p; VString c ]))
  = VStruct
      [ VString (string_member "message"
                   match j with json.Object es => es | _ => [] end m);
        VString (string_member "type"
                   match j with json.Object es => es | _ => [] end t);
        VString (string_member "param"
                   match j with json.Object es => es | _ => [] end p);
        VString (string_member "code"
                   match j with json.Object es => es | _ => [] end c) ].
Proof.
  destruct j as [ | b | lit | s | es | es ]; try reflexivity.
  unfold vector_store_file.ErrorResponse_Error.
  rewrite decode_Object_struct.
  pose proof (object_into_Error es m t p c None) as Hobj.
  destruct (json.object_into_struct ParseFloat _ es _ None) as [fv e].
  cbn [fst] in Hobj. subst fv. reflexivity.
Qed.

(** The members of a response body, stored in [ErrorResponse]. *)
Lemma object_into_ErrorResponse (ms : list (string * json.value)) :
  forall (m t p c : string) (err : option json.UnmarshalTypeError),
    fst (json.object_into_struct ParseFloat
           [ field "Error" vector_store_file.ErrorResponse_Error "error" ]
           ms [ VStruct [ VString m; VString t; VString p; VString c ] ] err)
    = [ VStruct
          [ VString (string_member "message"
                       (error_members (json.Object ms)) m);
            VString (string_member "type"
                       (error_members (json.Object ms)) t);
            VString (string_member "param"
                       (error_members (json.Object ms)) p);
            VString (string_member "code"
                       (error_members (json.Object ms)) c) ] ].
Proof.
  induction ms as [ | [k j] r IH ]; intros m t p c err.
  - reflexivity.
  - cbn [json.object_into_struct]. rewrite find_field_error.
    cbn [error_members flat_map fst snd] in *.
    destruct (names "error" k).
    + cbn [nth].
      pose proof (decode_Error j m t p c) as Hd.
      destruct (json.decode ParseFloat j vector_store_file.ErrorResponse_Error
                  (VStruct [ VString m; VString t; VString p; VString c ]))
        as [x e1].
      cbn [fst] in Hd. subst x. cbn [json.set_nth].
      rewrite IH. rewrite !string_member_app. reflexivity.
    + cbn [app]. apply IH.
Qed.

(** What a response body leaves in [ErrorResponse], type error or not. *)
Lemma Unmarshal_ErrorResponse (j : json.value) :
  fst (json.Unmarshal ParseFloat j vector_store_file.ErrorResponse)
  = VStruct
      [ VStruct
          [ VString (string_member "message" (error_members j) "");
            VString (string_member "type" (error_members j) "");
            VString (string_member "param" (error_members j) "");
            VString (string_member "code" (error_members j) "") ] ].
Proof.
  unfold json.Unmarshal.
  destruct j as [ | b | lit | s | es | ms ]; try reflexivity.
  unfold vector_store_file.ErrorResponse.
  rewrite decode_Object_struct.
  cbn [zero map fst snd field fd_type vector_store_file.ErrorResponse_Error].
  pose proof (object_into_ErrorResponse ms "" "" "" "" None) as Hobj.
  unfold vector_store_file.ErrorResponse_Error in Hobj.
  destruct (json.object_into_struct ParseFloat _ ms _ None) as [fv e].
  cbn [fst] in Hobj. subst fv. reflexivity.
Qed.

End ErrorResponseFacts.

(** X15: when the status of the response is not 200,
    [CreateVectorStoreFile] reads the body as an error object.  A body that
    is not JSON, or that does not decode into [ErrorResponse] without a
    type error, gives an error with the status text and the body.
    Otherwise the code and the message are the strings of the last members
    named "code" and "message" (in any letter case, and the empty string
    when there is none) of the objects under the members named "error":
    the code "unsupported_file" gives [UnsupportedFileTypeError] whose
    [FileName] is the file ID that was passed, and any other code gives an
    error with the message. *)
Theorem CreateVectorStoreFile_refused
        (W : World) (vectorStoreID fileID : string) (chunkingStrategy : goval)
        (req : http.Request) (resp : http.Response) :
  In (call_Do req)
     (map call (snd (vector_store_file.CreateVectorStoreFile
                       vectorStoreID fileID chunkingStrategy))) ->
  client_Do req = OK resp ->
  http.StatusCode resp <> http.StatusOK ->
  (json_scan_all (http.RespBody resp) = None
   \/ (exists j e,
          json_scan_all (http.RespBody resp) = Some j
          /\ snd (json.Unmarshal strconv_ParseFloat j
                    vector_store_file.ErrorResponse) = Some e) ->
   fst (vector_store_file.CreateVectorStoreFile
          vectorStoreID fileID chunkingStrategy)
   = (nil_ptr,
      Some (Errorf "vector store file creation failed with status %s: %s"
              [ S_ (http.Status resp);
                S_ (string_of_bytes (http.RespBody resp)) ])))
  /\ (forall j,
         json_scan_all (http.RespBody resp) = Some j ->
         snd (json.Unmarshal strconv_ParseFloat j
                vector_store_file.ErrorResponse) = None ->
         fst (vector_store_file.CreateVectorStoreFile
                vectorStoreID fileID chunkingStrategy)
         = (nil_ptr,
            Some (if String.eqb (string_member "code" (error_members j) "")
                                "unsupported_file"
                  then UnsupportedFileTypeError fileID
                  else Errorf "vector store file creation failed: %s"
                         [ S_ (string_member "message" (error_members j)
                                 "") ]))).
Proof.
  revert req resp.
  apply (wp_exec (vector_store_file.CreateVectorStoreFile
                    vectorStoreID fileID chunkingStrategy)
           (fun out t => forall req resp,
    In (call_Do req) (map call t) ->
    client_Do req = OK resp ->
    http.StatusCode resp <> http.StatusOK ->
    (json_scan_all (http.RespBody resp) = None
     \/ (exists j e,
            json_scan_all (http.RespBody resp) = Some j
            /\ snd (json.Unmarshal strconv_ParseFloat j
                      vector_store_file.ErrorResponse) = Some e) ->
     out
     = (nil_ptr,
        Some (Errorf "vector store file creation failed with status %s: %s"
                [ S_ (http.Status resp);
                  S_ (string_of_bytes (http.RespBody resp)) ])))
    /\ (forall j,
           json_scan_all (http.RespBody resp) = Some j ->
           snd (json.Unmarshal strconv_ParseFloat j
                  vector_store_file.ErrorResponse) = None ->
           out
           = (nil_ptr,
              Some (if String.eqb (string_member "code" (error_members j) "")
                                  "unsupported_file"
                    then UnsupportedFileTypeError fileID
                    else Errorf "vector store file creation failed: %s"
                           [ S_ (string_member "message" (error_members j)
                                   "") ]))))).
  run_io; log_simpl; intros req resp Hin Hdo Hst;
    pick_request Hin; same_response;
    try (exfalso; apply Hst; apply Z.eqb_eq;
         match goal with
         | H : negb _ = false |- _ =>
             apply Bool.negb_false_iff in H; exact H
         end);
    subst;
    (split;
     [ intros [Hnone | [body [? [Hsome Herr]]]];
       match goal with
       | H : _ = match json_scan_all _ with _ => _ end |- _ =>
           first
             [ rewrite Hnone in H
             | rewrite Hsome in H;
               destruct (json.Unmarshal strconv_ParseFloat body
                           vector_store_file.ErrorResponse) as [v o];
               cbn [snd] in Herr; subst o ];
           first [ discriminate H | reflexivity ]
       end
     | intros body Hsome Hok;
       pose proof (Unmarshal_ErrorResponse strconv_ParseFloat body) as Hv;
       match goal with
       | H : _ = match json_scan_all _ with _ => _ end |- _ =>
           rewrite Hsome in H;
           destruct (json.Unmarshal strconv_ParseFloat body
                       vector_store_file.ErrorResponse) as [v o];
           cbn [snd] in Hok; cbn [fst] in Hv; subst o v;
           first [ discriminate H | injection H as -> ]
       end;
       match goal with
       | H : String.eqb _ _ = ?b |- _ =>
           change (String.eqb (string_member "code" (error_members body) "")
                              "unsupported_file" = b) in H;
           rewrite H; reflexivity
       end ]).
Qed.

Lemma CreateVectorStoreFile_refused_witness :
  fst (vector_store_file.CreateVectorStoreFile
         (W := sample_world "" 502 None) "vs_1" "file-1" (VMap None))
  = (nil_ptr,
     Some (Errorf "vector store file creation failed with status %s: %s"
             [ S_ "502"; S_ "(body)" ]))
  /\ fst (vector_store_file.CreateVectorStoreFile
            (W := sample_world "" 400
                    (Some (json.Object
                             [ ("error",
                                json.Object
                                  [ ("code", json.String_ "unsupported_file");
                                    ("param", json.String_ "file_id");
                                    ("message",
                                     json.String_ "Invalid file format") ]);
                               ("Error",
                                json.Object [ ("type", json.Null) ]) ])))
            "vs_1" "file-1" (VMap None))
     = (nil_ptr, Some (UnsupportedFileTypeError "file-1")).
Proof.
  split.
  - assert (Hlog : exists req,
               nth_error
                 (map call (snd (vector_store_file.CreateVectorStoreFile
                                   (W := sample_world "" 502 None)
                                   "vs_1" "file-1" (VMap None)))) 5
               = Some (call_Do req)).
    { vm_compute. eexists. reflexivity. }
    destruct Hlog as [req Hreq].
    apply (proj1 (@CreateVectorStoreFile_refused
                    (sample_world "" 502 None) "vs_1" "file-1" (VMap None) req
                    {| http.StatusCode := 502; http.Status := "502";
                       http.RespBody := "(body)" |}
                    (nth_error_In _ _ Hreq) eq_refl
                    ltac:(discriminate))).
    left. reflexivity.
  - assert (Hlog : exists req,
               nth_error
                 (map call
                      (snd (vector_store_file.CreateVectorStoreFile
            (W := sample_world "" 400
                    (Some (json.Object
                             [ ("error",
                                json.Object
                                  [ ("code", json.String_ "unsupported_file");
                                    ("param", json.String_ "file_id");
                                    ("message",
                                     json.String_ "Invalid file format") ]);
                               ("Error",
                                json.Object [ ("type", json.Null) ]) ])))
                              "vs_1" "file-1" (VMap None)))) 5
               = Some (call_Do req)).
    { vm_compute. eexists. reflexivity. }
    destruct Hlog as [req Hreq].
    apply (proj2 (@CreateVectorStoreFile_refused
                    (sample_world "" 400
                       (Some (json.Object
                                [ ("error",
                                   json.Object
                                     [ ("code", json.String_ "unsupported_file");
                                       ("param", json.String_ "file_id");
                                       ("message",
                                        json.String_ "Invalid file format") ]);
                                  ("Error",
                                   json.Object [ ("type", json.Null) ]) ])))
                    "vs_1" "file-1" (VMap None) req
                    {| http.StatusCode := 400; http.Status := "400";
                       http.RespBody := "(body)" |}
                    (nth_error_In _ _ Hreq) eq_refl
                    ltac:(discriminate))
                 (json.Object
                    [ ("error",
                       json.Object
                         [ ("code", json.String_ "unsupported_file");
                           ("param", json.String_ "file_id");
                           ("message", json.String_ "Invalid file format") ]);
                      ("Error", json.Object [ ("type", json.Null) ]) ])).
    + reflexivity.
    + reflexivity.
Defined.

(** ** The ID CreateAssistant returns *)

Section MapFacts.

Variable ParseFloat : string -> option float64.

Lemma MapIndex_SetMapIndex (m : list (string * goval)) (k k' : string)
      (v : goval) :
  json.MapIndex (json.SetMapIndex m k' v) k
  = if String.eqb k k' then Some v else json.MapIndex m k.
Proof.
  induction m as [ | [k0 v0] r IH ]; cbn [json.SetMapIndex json.MapIndex].
  - destruct (String.eqb k k'); reflexivity.
  - destruct (String.eqb k' k0) eqn:E0; cbn [json.MapIndex].
    + apply String.eqb_eq in E0. subst k0.
      destruct (String.eqb k k'); reflexivity.
    + rewrite IH.
      destruct (String.eqb k k0) eqn:E1; [ | reflexivity ].
      apply String.eqb_eq in E1. subst k0.
      rewrite String.eqb_sym, E0. reflexivity.
Qed.

(** An object decodes into a map by [object_into_map]. *)
Lemma decode_Object_map (ms : list (string * json.value)) (et : gotype) :
  json.decode ParseFloat (json.Object ms) (TMap et) (VMap None)
  = let '(m, err) := object_into_map ParseFloat et ms [] None in
    (VMap (Some m), err).
Proof. reflexivity. Qed.

(** After the loop, a key holds what the last member of that name decoded
    to, or what it held before when there is no such member. *)
Lemma object_into_map_MapIndex (et : gotype) (key : string)
      (ms : list (string * json.value)) :
  forall m err,
    json.MapIndex (fst (object_into_map ParseFloat et ms m err)) key
    = fold_left
        (fun found mb =>
           if String.eqb (fst mb) key
           then Some (fst (json.decode ParseFloat (snd mb) et (zero et)))
           else found)
        ms (json.MapIndex m key).
Proof.
  induction ms as [ | [k j] r IH ]; intros m err.
  - reflexivity.
  - cbn [object_into_map fold_left fst snd].
    destruct (json.decode ParseFloat j et (zero et)) as [x e1] eqn:Ed.
    rewrite IH, MapIndex_SetMapIndex, (String.eqb_sym key k).
    reflexivity.
Qed.

Lemma fold_last_member (et : gotype) (key : string)
      (ms : list (string * json.value)) :
  forall found,
    fold_left
      (fun found mb =>
         if String.eqb (fst mb) key
         then Some (fst (json.decode ParseFloat (snd mb) et (zero et)))
         else found)
      ms
      (option_map (fun j => fst (json.decode ParseFloat j et (zero et)))
                  found)
    = option_map (fun j => fst (json.decode ParseFloat j et (zero et)))
        (fold_left (fun found mb => if String.eqb (fst mb) key
                                    then Some (snd mb) else found)
                   ms found).
Proof.
  induction ms as [ | [k j] r IH ]; intros found.
  - reflexivity.
  - cbn [fold_left fst snd].
    destruct (String.eqb k key).
    + apply (IH (Some j)).
    + apply IH.
Qed.

(** What a JSON value stored in an empty interface is a string for. *)
Lemma decode_interface_string (j : json.value) :
  match fst (json.decode ParseFloat j TInterface (zero TInterface)) with
  | VInterface (Some (VString s)) => s
  | _ => ""
  end
  = match j with json.String_ s => s | _ => "" end.
Proof.
  destruct j as [ | b | lit | s | es | ms ];
    cbn [json.decode json.base_type json.load json.store zero fst].
  - reflexivity.
  - reflexivity.
  - destruct (ParseFloat lit); reflexivity.
  - reflexivity.
  - destruct (json.valueInterface ParseFloat (json.Array es)) as [x e] eqn:E.
    cbn [json.valueInterface] in E.
    match type of E with
    | (let '(_, _) := ?t in _) = _ => destruct t
    end.
    injection E as <- _. reflexivity.
  - destruct (json.valueInterface ParseFloat (json.Object ms)) as [x e] eqn:E.
    cbn [json.valueInterface] in E.
    match type of E with
    | (let '(_, _) := ?t in _) = _ => destruct t
    end.
    injection E as <- _. reflexivity.
Qed.

(** The string under a key of the map an object decodes to. *)
Lemma Unmarshal_map_string (key : string) (ms : list (string * json.value))
      (m : list (string * goval)) (err : option json.UnmarshalTypeError) :
  json.Unmarshal ParseFloat (json.Object ms) (TMap TInterface)
  = (VMap (Some m), err) ->
  match json.MapIndex m key with
  | Some (VInterface (Some (VString s))) => s
  | _ => ""
  end
  = match last_member key ms with
    | Some (json.String_ s) => s
    | _ => ""
    end.
Proof.
  unfold json.Unmarshal.
  change (zero (TMap TInterface)) with (VMap None).
  rewrite decode_Object_map.
  destruct (object_into_map ParseFloat TInterface ms [] None) as [m' e'] eqn:E.
  intros H. injection H as <- _.
  change m' with (fst (m', e')). rewrite <- E.
  rewrite object_into_map_MapIndex.
  change (json.MapIndex [] key)
    with (option_map
            (fun j => fst (json.decode ParseFloat j TInterface
                             (zero TInterface)))
            None).
  rewrite fold_last_member.
  fold (last_member key ms).
  destruct (last_member key ms) as [j | ]; [ | reflexivity ].
  apply decode_interface_string.
Qed.

Lemma Unmarshal_map_shape (ms : list (string * json.value)) :
  exists m err,
    json.Unmarshal ParseFloat (json.Object ms) (TMap TInterface)
    = (VMap (Some m), err).
Proof.
  unfold json.Unmarshal.
  change (zero (TMap TInterface)) with (VMap None).
  rewrite decode_Object_map.
  destruct (object_into_map ParseFloat TInterface ms [] None) as [m' e'].
  eexists. eexists. reflexivity.
Qed.

End MapFacts.

(** X16: on a 200 response whose body is a JSON object that decodes without
    a type error, [CreateAssistant] returns a nil error and the string
    value of the last member named "id"; when there is no such member, or
    its value is not a string, the ID returned is the empty string, still
    with a nil error. *)
Theorem CreateAssistant_id
        (W : World) (params : goval)
        (req : http.Request) (resp : http.Response)
        (ms : list (string * json.value)) :
  In (call_Do req) (map call (snd (part_001.CreateAssistant params))) ->
  client_Do req = OK resp ->
  http.StatusCode resp = http.StatusOK ->
  json_scan (http.RespBody resp) = Some (json.Object ms) ->
  snd (json.Unmarshal strconv_ParseFloat (json.Object ms) (TMap TInterface))
  = None ->
  fst (part_001.CreateAssistant params)
  = (match last_member "id" ms with
     | Some (json.String_ s) => s
     | _ => ""
     end, None).
Proof.
  revert req resp ms.
  apply (wp_exec (part_001.CreateAssistant params)
           (fun out t => forall req resp ms,
    In (call_Do req) (map call t) ->
    client_Do req = OK resp ->
    http.StatusCode resp = http.StatusOK ->
    json_scan (http.RespBody resp) = Some (json.Object ms) ->
    snd (json.Unmarshal strconv_ParseFloat (json.Object ms) (TMap TInterface))
    = None ->
    out
    = (match last_member "id" ms with
       | Some (json.String_ s) => s
       | _ => ""
       end, None))).
  run_io; log_simpl; intros req resp ms Hin Hdo Hst Hscan Hdec;
    pick_request Hin; same_response;
    try refused_status Hst;
    destruct (Unmarshal_map_shape strconv_ParseFloat ms) as [m [err Hm]];
    rewrite Hm in Hdec; cbn [snd] in Hdec; subst err;
    match goal with
    | H : _ = match json_scan _ with _ => _ end |- _ =>
        rewrite Hscan, Hm in H;
        first [ discriminate H | injection H as -> ]
    end;
    f_equal; exact (Unmarshal_map_string strconv_ParseFloat "id" ms m None Hm).
Qed.

Lemma CreateAssistant_id_witness :
  fst (part_001.CreateAssistant
         (W := sample_world "" 200
                 (Some (json.Object [ ("id", json.String_ "asst_1");
                                      ("object", json.String_ "assistant");
                                      ("id", json.Number "7") ])))
         (VPtr None))
  = ("", None).
Proof.
  assert (Hlog : exists req,
             nth_error
               (map call
                    (snd (part_001.CreateAssistant
                            (W := sample_world "" 200
                                    (Some (json.Object
                                             [ ("id", json.String_ "asst_1");
                                               ("object", json.String_ "assistant");
                                               ("id", json.Number "7") ])))
                            (VPtr None)))) 5
             = Some (call_Do req)).
  { vm_compute. eexists. reflexivity. }
  destruct Hlog as [req Hreq].
  apply (@CreateAssistant_id
           (sample_world "" 200
              (Some (json.Object [ ("id", json.String_ "asst_1");
                                   ("object", json.String_ "assistant");
                                   ("id", json.Number "7") ])))
           (VPtr None) req
           {| http.StatusCode := 200; http.Status := "200";
              http.RespBody := "(body)" |}
           [ ("id", json.String_ "asst_1");
             ("object", json.String_ "assistant");
             ("id", json.Number "7") ]).
  - eapply nth_error_In. exact Hreq.
  - reflexivity.
  - reflexivity.
  - reflexivity.
  - reflexivity.
Defined.

(** ** A response without an embedding *)

Section StructFacts.

Variable ParseFloat : string -> option float64.

Lemma nth_set_nth_other (l : list goval) (i i' : nat) (v d : goval) :
  i' <> i -> nth i (json.set_nth l i' v) d = nth i l d.
Proof.
  revert i i'.
  induction l as [ | x r IH ]; intros i i' Hne.
  - destruct i'; reflexivity.
  - destruct i' as [ | i' ]; destruct i as [ | i ];
      cbn [json.set_nth nth]; try reflexivity.
    + congruence.
    + apply IH. congruence.
Qed.

(** A field that no member of the object selects keeps its content. *)
Lemma object_into_struct_keeps (fs : list field_decl) (i : nat) (d : goval)
      (ms : list (string * json.value)) :
  (forall k j i' ft,
      In (k, j) ms -> json.find_field fs k = Some (i', ft) -> i' <> i) ->
  forall fv err,
    nth i (fst (json.object_into_struct ParseFloat fs ms fv err)) d
    = nth i fv d.
Proof.
  induction ms as [ | [k j] r IH ]; intros Hms fv err.
  - reflexivity.
  - cbn [json.object_into_struct].
    assert (Hr : forall k j i' ft,
               In (k, j) r -> json.find_field fs k = Some (i', ft) -> i' <> i).
    { intros k0 j0 i' ft Hin. apply (Hms k0 j0 i' ft). right. exact Hin. }
    destruct (json.find_field fs k) as [[i' ft] | ] eqn:Ef.
    + destruct (json.decode ParseFloat j ft (nth i' fv (zero ft)))
        as [x e1].
      rewrite (IH Hr). apply nth_set_nth_other.
      apply (Hms k j i' ft); [ left; reflexivity | exact Ef ].
    + apply (IH Hr).
Qed.

(** The keys that select the field [Embedding]. *)
Lemma find_field_Embedding (key : string) (ft : gotype) :
  json.find_field
    [ field "Object" TString "object";
      field "Embedding" (TSlice TFloat64) "embedding";
      field "Index" TInt "index" ] key = Some (1%nat, ft) ->
  names "embedding" key = true.
Proof.
  unfold json.find_field, names, json.index_where, json.key_is,
    json.key_folds_to, json.field_key, fd_tag, fd_name, fd_type, field.
  cbn [fst snd].
  change (String.eqb "object" "-") with false.
  change (String.eqb "embedding" "-") with false.
  change (String.eqb "index" "-") with false.
  change (json.tag_name "object") with "object".
  change (json.tag_name "embedding") with "embedding".
  change (json.tag_name "index") with "index".
  change (String.eqb "object" "") with false.
  change (String.eqb "embedding" "") with false.
  change (String.eqb "index" "") with false.
  cbn iota.
  destruct (String.eqb "object" key); [ discriminate | ].
  destruct (String.eqb_spec "embedding" key) as [<- | _ ];
    [ reflexivity | ].
  destruct (String.eqb "index" key); [ discriminate | ].
  destruct (String.eqb (json.foldName "object") (json.foldName key));
    [ discriminate | ].
  rewrite (String.eqb_sym (json.foldName key)).
  destruct (String.eqb (json.foldName "embedding") (json.foldName key));
    [ reflexivity | ].
  destruct (String.eqb (json.foldName "index") (json.foldName key));
    discriminate.
Qed.

(** An object without a member for [Embedding] leaves the nil slice
    there. *)
Lemma Unmarshal_without_embedding (ms : list (string * json.value))
      (v : goval) (err : option json.UnmarshalTypeError) :
  lacks_member "embedding" ms = true ->
  json.Unmarshal ParseFloat (json.Object ms) embeddings.EmbeddingResponse
  = (v, err) ->
  FieldByName embeddings.EmbeddingResponse v "Embedding" = VSlice None.
Proof.
  intros Hms. unfold json.Unmarshal, embeddings.EmbeddingResponse.
  rewrite decode_Object_struct.
  cbn [zero map fst snd field fd_type].
  match goal with
  | |- (let '(_, _) := ?t in _) = _ -> _ => destruct t as [fv e] eqn:E
  end.
  intros H. injection H as <- _.
  change (FieldByName _ (VStruct fv) "Embedding")
    with (nth 1 fv (VInterface None)).
  change fv with (fst (fv, e)). rewrite <- E.
  rewrite object_into_struct_keeps; [ reflexivity | ].
  intros k j i' ft Hin Hf ->.
  apply find_field_Embedding in Hf.
  unfold lacks_member in Hms. rewrite forallb_forall in Hms.
  specialize (Hms (k, j) Hin). cbn [fst] in Hms.
  rewrite Hf in Hms. discriminate.
Qed.

End StructFacts.

(** X17: [CreateVectorForFile] reads the embedding from the member
    "embedding" of the response object itself.  On a 200 response whose
    body is an object without such a member (a list object that holds its
    embeddings under "data", say) and that decodes without a type error,
    it returns the error that no embedding data was returned for the
    file. *)
Theorem CreateVectorForFile_without_embedding
        (W : World) (filePath : string)
        (req : http.Request) (resp : http.Response)
        (ms : list (string * json.value)) :
  In (call_Do req) (map call (snd (embeddings.CreateVectorForFile filePath))) ->
  client_Do req = OK resp ->
  http.StatusCode resp = http.StatusOK ->
  json_scan (http.RespBody resp) = Some (json.Object ms) ->
  lacks_member "embedding" ms = true ->
  snd (json.Unmarshal strconv_ParseFloat (json.Object ms)
         embeddings.EmbeddingResponse) = None ->
  fst (embeddings.CreateVectorForFile filePath)
  = ("", Some (Errorf "no embedding data returned for file '%s'"
                 [ S_ filePath ])).
Proof.
  revert req resp ms.
  apply (wp_exec (embeddings.CreateVectorForFile filePath)
           (fun out t => forall req resp ms,
    In (call_Do req) (map call t) ->
    client_Do req = OK resp ->
    http.StatusCode resp = http.StatusOK ->
    json_scan (http.RespBody resp) = Some (json.Object ms) ->
    lacks_member "embedding" ms = true ->
    snd (json.Unmarshal strconv_ParseFloat (json.Object ms)
           embeddings.EmbeddingResponse) = None ->
    out
    = ("", Some (Errorf "no embedding data returned for file '%s'"
                   [ S_ filePath ])))).
  run_io; log_simpl; intros req resp ms Hin Hdo Hst Hscan Hms Hdec;
    pick_request Hin; same_response;
    try refused_status Hst;
    destruct (json.Unmarshal strconv_ParseFloat (json.Object ms)
                embeddings.EmbeddingResponse) as [v o] eqn:Hm;
    cbn [snd] in Hdec; subst o;
    match goal with
    | H : _ = match json_scan _ with _ => _ end |- _ =>
        rewrite Hscan, Hm in H;
        first [ discriminate H | injection H as -> ]
    end;
    first [ reflexivity
          | match goal with
            | H : Nat.eqb (slice_len _) 0 = false |- _ =>
                rewrite (Unmarshal_without_embedding strconv_ParseFloat
                           ms v None Hms Hm) in H;
                discriminate H
            end ].
Qed.

Lemma CreateVectorForFile_without_embedding_witness :
  fst (embeddings.CreateVectorForFile
         (W := sample_world "package main" 200
                 (Some (json.Object
                          [ ("object", json.String_ "list");
                            ("data",
                             json.Array
                               [ json.Object
                                   [ ("object", json.String_ "embedding");
                                     ("embedding",
                                      json.Array [ json.Number "0.5" ]);
                                     ("index", json.Number "0") ] ]);
                            ("model", json.String_ "text-embedding-ada-002") ])))
         "main.go")
  = ("", Some (Errorf "no embedding data returned for file '%s'"
                 [ S_ "main.go" ])).
Proof.
  assert (Hlog : exists req,
             nth_error
               (map call
                    (snd (embeddings.CreateVectorForFile
         (W := sample_world "package main" 200
                 (Some (json.Object
                          [ ("object", json.String_ "list");
                            ("data",
                             json.Array
                               [ json.Object
                                   [ ("object", json.String_ "embedding");
                                     ("embedding",
                                      json.Array [ json.Number "0.5" ]);
                                     ("index", json.Number "0") ] ]);
                            ("model", json.String_ "text-embedding-ada-002") ])))
                            "main.go"))) 5
             = Some (call_Do req)).
  { vm_compute. eexists. reflexivity. }
  destruct Hlog as [req Hreq].
  eapply (@CreateVectorForFile_without_embedding _ "main.go" req
            {| http.StatusCode := 200; http.Status := "200";
               http.RespBody := "(body)" |}).
  - eapply nth_error_In. exact Hreq.
  - reflexivity.
  - reflexivity.
  - reflexivity.
  - reflexivity.
  - reflexivity.
Defined.

(** ** Bodies and their content type *)





(** ** The copies under unnamed/ *)

(** X19: the copies of [ListFiles], [RetrieveFile] and [DeleteFile] in
    unnamed/part_000 and of [ListMessages] in unnamed/part_002 are the
    programs of files.go and message.go: in every world they make the same
    calls and return the same result. *)
Theorem copies_agree (W : World) :
  part_000.ListFiles = files.ListFiles
  /\ (forall fileID, part_000.RetrieveFile fileID = files.RetrieveFile fileID)
  /\ (forall fileID, part_000.DeleteFile fileID = files.DeleteFile fileID)
  /\ (forall threadID limit order after before runID,
         part_002.ListMessages threadID limit order after before runID
         = message.ListMessages threadID limit order after before runID).
Proof.
  repeat split; intros; reflexivity.
Qed.
